(** * Verification of the vocabulary trainer core (script.js)

    A shallow embedding of the conjugation engine ([getVerbForms]), the level
    classifier ([determineLevel]), the word bank and the spaced-repetition
    progress model ([updateProgress], [getWordsForReview]) of script.js,
    together with the properties of these functions.

    Modelling conventions.
    - A JavaScript string is a [string]: a sequence of code units below
      U+0100.  On these [toLowerCase] maps A-Z and the capital letters
      U+00C0 to U+00DE (the multiplication sign U+00D7 apart) to the letter
      32 places further, leaves every other code unit alone and keeps the
      length; code units from U+0100 on are outside the development.
    - A stored number is read back through JSON: a record property that
      holds a number is a [value], a number or [null].
    - A JavaScript number is an IEEE 754 binary64 value, a [spec_float] with
      precision 53 and maximal exponent 1024, and every arithmetic operation
      of the source is the correctly rounded operation on binary64.
    - A plain JavaScript object used as a table is an association list of its
      own properties in insertion order; reading a property falls back on
      the properties every plain object inherits from Object.prototype. *)

From Stdlib Require Import ZArith List String Ascii Bool Lia Arith.
From Stdlib Require Import Floats.SpecFloat.
Import ListNotations.

Open Scope string_scope.

(** ** JavaScript strings *)

Module JsString.

(** The code units below U+0100 that [toLowerCase] changes: A-Z, and the
    capital letters from U+00C0 to U+00DE without the multiplication sign
    U+00D7. *)
Definition isUpper (c : ascii) : bool :=
  let n := nat_of_ascii c in
  ((65 <=? n)%nat && (n <=? 90)%nat)
  || ((192 <=? n)%nat && (n <=? 222)%nat && negb (n =? 215)%nat).

Definition lowerChar (c : ascii) : ascii :=
  if isUpper c then ascii_of_nat (nat_of_ascii c + 32) else c.

(** [s.toLowerCase()] *)
Fixpoint toLowerCase (s : string) : string :=
  match s with
  | EmptyString => EmptyString
  | String c s' => String (lowerChar c) (toLowerCase s')
  end.

(** [s.startsWith(p)] *)
Definition startsWith (s p : string) : bool := String.prefix p s.

(** [s.endsWith(p)]: the last [p.length] code units of [s] are [p]. *)
Definition endsWith (s p : string) : bool :=
  let n := String.length s in
  let m := String.length p in
  (m <=? n)%nat && String.eqb (substring (n - m) m s) p.

(** [s.includes(p)] *)
Fixpoint includes (s p : string) : bool :=
  startsWith s p ||
  match s with
  | EmptyString => false
  | String _ s' => includes s' p
  end.

(** [s.slice(0, -1)]: [s] without its last code unit. *)
Definition sliceInit (s : string) : string :=
  substring 0 (String.length s - 1) s.

(** [s.slice(-1)]: the last code unit of [s], or the empty string. *)
Definition sliceLast (s : string) : string :=
  substring (String.length s - 1) 1 s.

(** The last two code units of [s], where a two-character pattern anchored
    by [$] has to match. *)
Fixpoint lastTwo (s : string) : option (ascii * ascii) :=
  match s with
  | EmptyString => None
  | String a s' =>
      match s' with
      | String b EmptyString => Some (a, b)
      | _ => lastTwo s'
      end
  end.

(** The character class [[aeiou]]. *)
Definition isVowel (c : ascii) : bool :=
  existsb (Ascii.eqb c) ["a"; "e"; "i"; "o"; "u"]%char.

(** [s.match(/[^aeiou]y$/)] is not null. *)
Definition matchConsonantY (s : string) : bool :=
  match lastTwo s with
  | Some (a, b) => negb (isVowel a) && Ascii.eqb b "y"
  | None => false
  end.

(** [s.match(/[aeiou][^aeiou]$/)] is not null. *)
Definition matchVowelConsonant (s : string) : bool :=
  match lastTwo s with
  | Some (a, b) => isVowel a && negb (isVowel b)
  | None => false
  end.

End JsString.

(** ** Plain JavaScript objects used as tables *)

Module JsObject.

(** The property names a plain object inherits from Object.prototype.  All
    of them hold a function or an object: a truthy value that is not
    [undefined] and has no property [v2] or [v3]. *)
Definition objectPrototypeKeys : list string :=
  [ "constructor"; "hasOwnProperty"; "isPrototypeOf"; "propertyIsEnumerable";
    "toLocaleString"; "toString"; "valueOf"; "__proto__";
    "__defineGetter__"; "__defineSetter__"; "__lookupGetter__";
    "__lookupSetter__" ].

Inductive property (A : Type) : Type :=
| Own (a : A)
| Inherited
| Missing.
Arguments Own {A} a.
Arguments Inherited {A}.
Arguments Missing {A}.

Section Table.
Context {A : Type}.

(** The own property [k] of [o]. *)
Fixpoint own (o : list (string * A)) (k : string) : option A :=
  match o with
  | [] => None
  | (k', a) :: o' => if String.eqb k k' then Some a else own o' k
  end.

Definition inherited (k : string) : bool :=
  existsb (String.eqb k) objectPrototypeKeys.

(** [o[k]] *)
Definition get (o : list (string * A)) (k : string) : property A :=
  match own o k with
  | Some a => Own a
  | None => if inherited k then Inherited else Missing
  end.

(** [o[k] = a]: an existing own property keeps its place. *)
Fixpoint set (o : list (string * A)) (k : string) (a : A) : list (string * A) :=
  match o with
  | [] => [(k, a)]
  | (k', a') :: o' =>
      if String.eqb k k' then (k', a) :: o' else (k', a') :: set o' k a
  end.

(** An object literal: the properties are defined from left to right, a
    repeated key overwrites the earlier value. *)
Definition literal (l : list (string * A)) : list (string * A) :=
  fold_left (fun o kv => set o (fst kv) (snd kv)) l [].

(** [Object.keys(o)] *)
Definition keys (o : list (string * A)) : list string := map fst o.
End Table.

End JsObject.

(** ** The conjugation engine *)

Module Conjugation.
Import JsString JsObject.

(** A property of the result that holds a string or is [undefined]. *)
Inductive form : Type :=
| Str (s : string)
| Undefined.

Inductive verbType : Type := irregular | common.

Record VerbForms : Type := mkVerbForms {
  v1 : string;
  v2 : form;
  v3 : form;
  type : verbType
}.

Definition irregularVerbs : list (string * (string * string)) :=
  literal
  [ ("go", ("went", "gone"));
    ("eat", ("ate", "eaten"));
    ("see", ("saw", "seen"));
    ("take", ("took", "taken"));
    ("come", ("came", "come"));
    ("get", ("got", "gotten"));
    ("make", ("made", "made"));
    ("know", ("knew", "known"));
    ("think", ("thought", "thought"));
    ("give", ("gave", "given"));
    ("find", ("found", "found"));
    ("tell", ("told", "told"));
    ("buy", ("bought", "bought"));
    ("sell", ("sold", "sold"));
    ("meet", ("met", "met"));
    ("write", ("wrote", "written"));
    ("read", ("read", "read"));
    ("speak", ("spoke", "spoken"));
    ("feel", ("felt", "felt"));
    ("run", ("ran", "run"));
    ("swim", ("swam", "swum"));
    ("win", ("won", "won"));
    ("sleep", ("slept", "slept"));
    ("drink", ("drank", "drunk"));
    ("hang", ("hung", "hung")) ].

Definition getVerbForms (verb : string) : VerbForms :=
  let lowerVerb := toLowerCase verb in
  match get irregularVerbs lowerVerb with
  | Own entry =>
      {| v1 := lowerVerb; v2 := Str (fst entry); v3 := Str (snd entry);
         type := irregular |}
  | Inherited =>
      {| v1 := lowerVerb; v2 := Undefined; v3 := Undefined;
         type := irregular |}
  | Missing =>
      let v2 :=
        if endsWith lowerVerb "e" then lowerVerb ++ "d"
        else if matchConsonantY lowerVerb then sliceInit lowerVerb ++ "ied"
        else if matchVowelConsonant lowerVerb
             then lowerVerb ++ sliceLast lowerVerb ++ "ed"
        else lowerVerb ++ "ed" in
      {| v1 := lowerVerb; v2 := Str v2; v3 := Str v2; type := common |}
  end.

End Conjugation.

(** ** The level classifier *)

Module Level.
Import JsString JsObject.

Inductive level : Type := beginner | intermediate | advanced.

(** The frequency scores are integer literals, kept as integers. *)
Definition wordFrequency : list (string * Z) :=
  literal
  [
    ("go", 100); ("get", 99); ("make", 98); ("know", 97); ("think", 96);
    ("take", 95); ("see", 94); ("come", 93); ("want", 92); ("use", 91);
    ("find", 90); ("give", 89); ("tell", 88); ("work", 87); ("call", 86);
    ("try", 85); ("ask", 84); ("need", 83); ("feel", 82); ("become", 81);
    ("leave", 80); ("put", 79); ("mean", 78); ("keep", 77); ("let", 76);
    ("begin", 75); ("seem", 74); ("help", 73); ("show", 72); ("hear", 71);
    ("play", 70); ("run", 69); ("move", 68); ("like", 67); ("live", 66);
    ("believe", 65); ("bring", 64); ("happen", 63); ("write", 62); ("sit", 61);
    ("stand", 60); ("lose", 59); ("pay", 58); ("meet", 57); ("include", 56);
    ("continue", 55); ("set", 54); ("learn", 53); ("change", 52); ("lead", 51);
    ("understand", 50); ("watch", 49); ("follow", 48); ("stop", 47); ("create", 46);
    ("speak", 45); ("read", 44); ("spend", 43); ("grow", 42); ("open", 41);
    ("walk", 40); ("win", 39); ("offer", 38); ("remember", 37); ("love", 36);
    ("consider", 35); ("appear", 34); ("buy", 33); ("wait", 32); ("serve", 31);
    ("die", 30); ("send", 29); ("build", 28); ("stay", 27); ("fall", 26);
    ("cut", 25); ("reach", 24); ("kill", 23); ("raise", 22); ("pass", 21);
    ("sell", 20); ("decide", 19); ("return", 18); ("explain", 17); ("develop", 16);
    ("carry", 15); ("break", 14); ("receive", 13); ("agree", 12); ("support", 11);
    ("hit", 10); ("produce", 9); ("eat", 8); ("cover", 7); ("catch", 6);
    ("draw", 5); ("choose", 4); ("clean", 3); ("wash", 2); ("cook", 1);
    ("manage", 50); ("invest", 49); ("negotiate", 48); ("analyze", 47); ("research", 46);
    ("design", 45); ("implement", 44); ("evaluate", 43); ("improve", 42); ("optimize", 41);
    ("organize", 40); ("coordinate", 39); ("supervise", 38); ("train", 37); ("guide", 36);
    ("direct", 35); ("execute", 34); ("operate", 33); ("maintain", 32); ("establish", 31);
    ("achieve", 30); ("accomplish", 29); ("complete", 28); ("perform", 27); ("conduct", 26);
    ("manage", 25); ("handle", 24); ("process", 23); ("review", 22); ("assess", 21);
    ("examine", 20); ("investigate", 19); ("explore", 18); ("discover", 17); ("identify", 16);
    ("define", 15); ("describe", 14); ("discuss", 13); ("argue", 12); ("debate", 11);
    ("critique", 10); ("compare", 9); ("contrast", 8); ("synthesize", 7); ("summarize", 6);
    ("paraphrase", 5); ("cite", 4); ("reference", 3); ("synthesize", 25); ("elucidate", 24);
    ("institutionalize", 23); ("systematize", 22); ("methodize", 21); ("standardize", 20); ("commercialize", 19);
    ("monetize", 18); ("capitalize", 17); ("leverage", 16); ("differentiate", 15); ("distinguish", 14);
    ("comprehend", 13); ("apprehend", 12); ("conceptualize", 11); ("philosophize", 10); ("theorize", 9);
    ("hypothesize", 8); ("methodologize", 7); ("operationalize", 6); ("conceptualize", 5); ("rationalize", 4);
    ("categorize", 3); ("prioritize", 2) ]%Z.

(** [wordFrequency[w] >= n], false when [wordFrequency[w]] is not a number. *)
Definition frequencyAtLeast (w : string) (n : Z) : bool :=
  match get wordFrequency w with
  | Own f => (n <=? f)%Z
  | _ => false
  end.

(** [wordFrequency[w] < n], false when [wordFrequency[w]] is not a number. *)
Definition frequencyBelow (w : string) (n : Z) : bool :=
  match get wordFrequency w with
  | Own f => (f <? n)%Z
  | _ => false
  end.

Record LevelMapping : Type := mkLevelMapping {
  beginnerWords : list string;
  intermediateWords : list string;
  advancedWords : list string
}.

Definition levelMapping : LevelMapping :=
  {| beginnerWords :=
       filter (fun w => frequencyAtLeast w 50) (keys wordFrequency);
     intermediateWords :=
       filter (fun w => frequencyAtLeast w 20 && frequencyBelow w 50)
              (keys wordFrequency);
     advancedWords :=
       filter (fun w => frequencyBelow w 20) (keys wordFrequency) |}.

Definition complexPrefixes : list string :=
  [ "institutional"; "systemat"; "methodolog"; "operational"; "conceptual";
    "philosoph"; "theor"; "hypothes" ].

Definition complexSuffixes : list string := [ "ize"; "ify"; "ate" ].

(** The test of the beginner list. *)
Definition matchesBeginner (verbLower : string) : bool :=
  existsb (fun v => String.eqb verbLower v || startsWith verbLower v
                    || endsWith verbLower v)
          (beginnerWords levelMapping).

(** The test of the intermediate list. *)
Definition matchesIntermediate (verbLower : string) : bool :=
  existsb (fun v => String.eqb verbLower v || includes verbLower v)
          (intermediateWords levelMapping).

(** The test of the advanced list. *)
Definition matchesAdvanced (verbLower : string) : bool :=
  existsb (fun v => String.eqb verbLower v || includes verbLower v)
          (advancedWords levelMapping).

(** The test of the complex prefixes and suffixes. *)
Definition matchesComplex (verbLower : string) : bool :=
  existsb (fun p => startsWith verbLower p) complexPrefixes
  || ((12 <? String.length verbLower)%nat
      && existsb (fun s => endsWith verbLower s) complexSuffixes).

Definition determineLevel (verb : string) : level :=
  let verbLower := toLowerCase verb in
  match get wordFrequency verbLower with
  | Own freq =>
      if (50 <=? freq)%Z then beginner
      else if (20 <=? freq)%Z then intermediate
      else advanced
  | Inherited =>
      (* an inherited function or object is not [undefined], and it is
         neither [>= 50] nor [>= 20] *)
      advanced
  | Missing =>
      if matchesBeginner verbLower then beginner
      else if matchesIntermediate verbLower then intermediate
      else if matchesAdvanced verbLower then advanced
      else if matchesComplex verbLower then advanced
      else if (String.length verb <=? 4)%nat then beginner
      else if (String.length verb <=? 8)%nat then intermediate
      else advanced
  end.

End Level.

(** ** JavaScript numbers *)

Module JsNumber.

Definition prec : Z := 53.
Definition emax : Z := 1024.

Definition number : Type := spec_float.

(** The numbers of binary64: a finite number has its canonical mantissa
    and exponent. *)
Definition wellFormed (x : number) : Prop := valid_binary prec emax x = true.

Definition add : number -> number -> number := SFadd prec emax.
Definition sub : number -> number -> number := SFsub prec emax.
Definition mul : number -> number -> number := SFmul prec emax.
Definition div : number -> number -> number := SFdiv prec emax.

(** The number of an integer literal. *)
Definition ofZ (z : Z) : number := binary_normalize prec emax z 0 false.

(** The number of a decimal literal [n / 10^k], written as a quotient of
    integers: the binary64 nearest to it. *)
Definition decimal (n d : Z) : number := div (ofZ n) (ofZ d).

Definition isNaN (x : number) : bool :=
  match x with S754_nan => true | _ => false end.

(** [x <= y], [x < y], [x >= y] and [x > y]: false when an operand is NaN. *)
Definition leb (x y : number) : bool := SFleb x y.
Definition ltb (x y : number) : bool := SFltb x y.
Definition geb (x y : number) : bool := SFleb y x.
Definition gtb (x y : number) : bool := SFltb y x.

(** [Math.min(x, y)]: NaN when an operand is NaN, and -0 is below +0. *)
Definition min (x y : number) : number :=
  if isNaN x || isNaN y then S754_nan
  else match x, y with
       | S754_zero sx, S754_zero sy => S754_zero (sx || sy)
       | _, _ => if ltb y x then y else x
       end.

(** [Math.max(x, y)]: NaN when an operand is NaN, and +0 is above -0. *)
Definition max (x y : number) : number :=
  if isNaN x || isNaN y then S754_nan
  else match x, y with
       | S754_zero sx, S754_zero sy => S754_zero (sx && sy)
       | _, _ => if ltb x y then y else x
       end.

(** [Math.ceil(x)]: the least integer not below [x]; NaN, the infinities
    and the zeros are returned as they are, and a negative number above -1
    gives -0. *)
Definition ceil (x : number) : number :=
  match x with
  | S754_finite s m e =>
      if (0 <=? e)%Z then x
      else
        let c := (- ((- cond_Zopp s (Zpos m)) / 2 ^ (- e)))%Z in
        if (c =? 0)%Z then S754_zero s else ofZ c
  | _ => x
  end.

(** The result of a rounding with mantissa [m] and exponent [e]: a finite
    number, or an infinity when the exponent is out of range. *)
Definition rounded (s : bool) (m : positive) (e : Z) : number :=
  if (e <=? 971)%Z then S754_finite s m e else S754_infinity s.

(** The numbers [Date.now()] returns: a count of milliseconds since the
    epoch. *)
Definition timestamp (now : number) : Prop :=
  exists n : Z, (0 <= n)%Z /\ now = ofZ n.

(** The integer a number holds, when it holds one: the zeros hold 0, NaN,
    the infinities and the numbers with a fraction hold none. *)
Definition integerOf (x : number) : option Z :=
  match x with
  | S754_zero _ => Some 0%Z
  | S754_finite s m e =>
      if (0 <=? e)%Z then Some (cond_Zopp s (Zpos m) * 2 ^ e)%Z
      else if (Zpos m mod 2 ^ (- e) =? 0)%Z
           then Some (cond_Zopp s (Zpos m / 2 ^ (- e)))%Z
           else None
  | _ => None
  end.

(** What a property of a stored record holds where the source expects a
    number: a number, or [null]. *)
Inductive value : Type :=
| Null
| Num (x : number).

(** The conversion of an operand of [+], [-], [++], [<=] and [Math.ceil]:
    [null] counts as +0. *)
Definition ToNumber (v : value) : number :=
  match v with
  | Null => S754_zero false
  | Num x => x
  end.

(** [JSON.parse(JSON.stringify(x))] for a number [x]: NaN and the
    infinities are written as [null], -0 is written as [0], and every other
    number is read back as it was written. *)
Definition jsonNumber (x : number) : value :=
  match x with
  | S754_finite _ _ _ => Num x
  | S754_zero _ => Num (S754_zero false)
  | _ => Null
  end.

(** [JSON.parse(JSON.stringify(v))] *)
Definition jsonValue (v : value) : value :=
  match v with
  | Null => Null
  | Num x => jsonNumber x
  end.

End JsNumber.

(** ** The word bank and the progress records *)

Module Scheduler.
Import JsNumber.

(** A vocabulary identifier: the integer [id] of a vocabulary record. *)
Definition vocabId : Type := Z.

(** One value of [progress[vocabId]], as [JSON.parse] returns it and as
    [updateProgress] changes it: each property holds a number or [null]. *)
Record Progress : Type := mkProgress {
  correct : value;
  incorrect : value;
  lastReview : value;
  nextReview : value;
  ease : value
}.

(** The object stored under 'vocabProgress': identifiers are numbers, so
    no key meets a property inherited from Object.prototype. *)
Definition progressTable : Type := list (vocabId * Progress).

(** The array stored under 'wordBank'. *)
Definition wordBankList : Type := list vocabId.

(** The two entries of localStorage the scheduler uses; [None] is an
    entry that was never written, and an entry that was written is kept as
    what [JSON.parse] returns for its text. *)
Record storage : Type := mkStorage {
  wordBankItem : option wordBankList;
  vocabProgressItem : option progressTable
}.

(** [progress[id]] *)
Fixpoint lookup (progress : progressTable) (id : vocabId) : option Progress :=
  match progress with
  | [] => None
  | (k, p) :: rest => if (id =? k)%Z then Some p else lookup rest id
  end.

(** [progress[id] = p] *)
Fixpoint store (progress : progressTable) (id : vocabId) (p : Progress)
  : progressTable :=
  match progress with
  | [] => [(id, p)]
  | (k, q) :: rest =>
      if (id =? k)%Z then (k, p) :: rest else (k, q) :: store rest id p
  end.

Definition getWordBank (st : storage) : wordBankList :=
  match wordBankItem st with
  | Some wordBank => wordBank
  | None => []
  end.

Definition saveWordBank (st : storage) (wordBank : wordBankList) : storage :=
  {| wordBankItem := Some wordBank;
     vocabProgressItem := vocabProgressItem st |}.

(** [wordBank.includes(vocabId)] *)
Definition includes (wordBank : wordBankList) (id : vocabId) : bool :=
  existsb (Z.eqb id) wordBank.

Definition addToWordBank (st : storage) (id : vocabId) : storage * bool :=
  let wordBank := getWordBank st in
  if negb (includes wordBank id)
  then (saveWordBank st (wordBank ++ [id])%list, true)
  else (st, false).

(** [wordBank.indexOf(vocabId)], [None] for -1. *)
Fixpoint indexOf (wordBank : wordBankList) (id : vocabId) : option nat :=
  match wordBank with
  | [] => None
  | x :: rest =>
      if (x =? id)%Z then Some O
      else match indexOf rest id with
           | Some i => Some (S i)
           | None => None
           end
  end.

(** [wordBank.splice(index, 1)]: the array without its element at [index]. *)
Fixpoint splice1 (wordBank : wordBankList) (index : nat) : wordBankList :=
  match wordBank, index with
  | [], _ => []
  | _ :: rest, O => rest
  | x :: rest, S i => x :: splice1 rest i
  end.

Definition removeFromWordBank (st : storage) (id : vocabId) : storage * bool :=
  let wordBank := getWordBank st in
  match indexOf wordBank id with
  | Some index => (saveWordBank st (splice1 wordBank index), true)
  | None => (st, false)
  end.

Definition isInWordBank (st : storage) (id : vocabId) : bool :=
  includes (getWordBank st) id.

Definition getProgress (st : storage) : progressTable :=
  match vocabProgressItem st with
  | Some progress => progress
  | None => []
  end.

(** A record as it is read back from the text [JSON.stringify] writes. *)
Definition jsonProgress (p : Progress) : Progress :=
  {| correct := jsonValue (correct p);
     incorrect := jsonValue (incorrect p);
     lastReview := jsonValue (lastReview p);
     nextReview := jsonValue (nextReview p);
     ease := jsonValue (ease p) |}.

(** [JSON.parse(JSON.stringify(progress))] *)
Definition jsonTable (progress : progressTable) : progressTable :=
  map (fun entry => (fst entry, jsonProgress (snd entry))) progress.

(** [saveProgress] writes [JSON.stringify(progress)], so the entry is
    afterwards what that text parses to. *)
Definition saveProgress (st : storage) (progress : progressTable) : storage :=
  {| wordBankItem := wordBankItem st;
     vocabProgressItem := Some (jsonTable progress) |}.

(** The record of an identifier that was never reviewed. *)
Definition freshProgress (now : number) : Progress :=
  {| correct := Num (ofZ 0); incorrect := Num (ofZ 0); lastReview := Null;
     nextReview := Num now; ease := Num (decimal 25 10) |}.

(** [days * 24 * 60 * 60 * 1000] *)
Definition daysToMs (days : number) : number :=
  mul (mul (mul (mul days (ofZ 24)) (ofZ 60)) (ofZ 60)) (ofZ 1000).

(** The update of one record by [updateProgress]: the counter of the
    outcome is incremented as a number and the ease is moved, then
    [lastReview] is set from one reading of the clock and [nextReview] from
    the next one. *)
Definition recordOutcome (p : Progress) (isCorrect : bool)
           (nowReview nowSchedule : number) : Progress :=
  let correct' :=
    if isCorrect then Num (add (ToNumber (correct p)) (ofZ 1)) else correct p in
  let incorrect' :=
    if isCorrect then incorrect p else Num (add (ToNumber (incorrect p)) (ofZ 1)) in
  let ease' :=
    if isCorrect then min (decimal 25 10) (add (ToNumber (ease p)) (decimal 1 10))
    else max (decimal 13 10) (sub (ToNumber (ease p)) (decimal 2 10)) in
  let daysUntilNext := ceil ease' in
  {| correct := correct';
     incorrect := incorrect';
     lastReview := Num nowReview;
     nextReview := Num (add nowSchedule (daysToMs daysUntilNext));
     ease := Num ease' |}.

(** The three readings of [Date.now()] one call of [updateProgress] can
    make, in the order of the source. *)
Record clock : Type := mkClock {
  nowCreate : number;
  nowReview : number;
  nowSchedule : number
}.

Definition updateProgress (st : storage) (id : vocabId) (isCorrect : bool)
           (c : clock) : storage * Progress :=
  let progress := getProgress st in
  let entry :=
    match lookup progress id with
    | Some p => p
    | None => freshProgress (nowCreate c)
    end in
  let entry' := recordOutcome entry isCorrect (nowReview c) (nowSchedule c) in
  (saveProgress st (store progress id entry'), entry').

Definition getVocabProgress (st : storage) (id : vocabId) (now : number)
  : Progress :=
  match lookup (getProgress st) id with
  | Some p => p
  | None => freshProgress now
  end.

(** [getWordsForReview]: an identifier without a record is compared
    through [{ nextReview: 0 }]. *)
Definition getWordsForReview (st : storage) (now : number) : wordBankList :=
  let wordBank := getWordBank st in
  let progress := getProgress st in
  filter (fun id =>
            let nextReview' :=
              match lookup progress id with
              | Some p => nextReview p
              | None => Num (ofZ 0)
              end in
            leb (ToNumber nextReview') now)
         wordBank.

(** The ease interval: the numbers from 1.3 to 2.5. *)
Definition easeInRange (x : number) : Prop :=
  wellFormed x /\ leb (decimal 13 10) x = true /\ leb x (decimal 25 10) = true.

(** Mantissa and exponent of the positive numbers from 1.3 to 2.5. *)
Definition easeShape (m : positive) (ex : Z) : Prop :=
  (ex = -52 /\ 5854679515581645 <= Zpos m < 9007199254740992)%Z \/
  (ex = -51 /\ 4503599627370496 <= Zpos m <= 5629499534213120)%Z.

(** One answer: its outcome and the two readings of the clock. *)
Definition answer : Type := (bool * (number * number))%type.

(** A sequence of updates of one record. *)
Definition recordOutcomes (p : Progress) (answers : list answer) : Progress :=
  fold_left (fun q a => recordOutcome q (fst a) (fst (snd a)) (snd (snd a)))
            answers p.

End Scheduler.

(** ** Quiz items *)

Module Quiz.
Import Conjugation.

(** A quiz: [correctOption] is its property [correct], the index of the
    accepted option. *)
Record QuizItem : Type := mkQuizItem {
  question : string;
  options : list form;
  correctOption : nat
}.

(** The double quote character. *)
Definition quote : string := String (ascii_of_nat 34) EmptyString.

(** [verbForms.v1 + 'ing'] *)
Definition ingForm (verbForms : VerbForms) : form := Str (v1 verbForms ++ "ing").

(** The four options every template offers. *)
Definition quizOptions (verbForms : VerbForms) : list form :=
  [Str (v1 verbForms); v2 verbForms; v3 verbForms; ingForm verbForms].

Definition quizTemplates (verbForms : VerbForms) : list QuizItem :=
  [ {| question := "Choose the correct form: I ___ it yesterday.";
       options := quizOptions verbForms; correctOption := 1 |};
    {| question := "Which form is correct? She has ___ the task.";
       options := quizOptions verbForms; correctOption := 2 |};
    {| question := "Fill in the blank: They ___ every day.";
       options := quizOptions verbForms; correctOption := 0 |};
    {| question := "Complete: We ___ there last week.";
       options := quizOptions verbForms; correctOption := 1 |};
    {| question := "What is the past tense of " ++ quote ++ v1 verbForms
                   ++ quote ++ "?";
       options := quizOptions verbForms; correctOption := 1 |};
    {| question := "Select the past participle: Have you ___ this before?";
       options := quizOptions verbForms; correctOption := 2 |} ].

(** [generateVariedQuiz]: [randomIndex] is the value of
    [Math.floor(Math.random() * quizTemplates.length)], one of 0 to 5. *)
Definition generateVariedQuiz (verb : string) (verbForms : VerbForms)
           (randomIndex : nat) : option QuizItem :=
  nth_error (quizTemplates verbForms) randomIndex.

(** The test of [selectOption]: [selectedIndex === correctIndex]. *)
Definition isCorrectOption (quiz : QuizItem) (selectedIndex : nat) : bool :=
  (selectedIndex =? correctOption quiz)%nat.

End Quiz.

(** ** Favourites and search history *)

Module UserLists.
Import JsString Scheduler.

(** The array stored under 'favorites', [None] when it was never written. *)
Definition getFavorites (item : option (list vocabId)) : list vocabId :=
  match item with
  | Some favorites => favorites
  | None => []
  end.

Definition toggleFavorite (item : option (list vocabId)) (id : vocabId)
  : option (list vocabId) * bool :=
  let favorites := getFavorites item in
  match indexOf favorites id with
  | Some index => (Some (splice1 favorites index), false)
  | None => (Some (favorites ++ [id])%list, true)
  end.

Definition isFavorite (item : option (list vocabId)) (id : vocabId) : bool :=
  includes (getFavorites item) id.

(** The white space and line terminators below U+0100: tab, line feed,
    vertical tab, form feed, carriage return, space and the no-break space
    U+00A0. *)
Definition isWhiteSpace (c : ascii) : bool :=
  let n := nat_of_ascii c in
  ((9 <=? n)%nat && (n <=? 13)%nat) || (n =? 32)%nat || (n =? 160)%nat.

Fixpoint trimStart (s : string) : string :=
  match s with
  | EmptyString => EmptyString
  | String c s' => if isWhiteSpace c then trimStart s' else s
  end.

Fixpoint trimEnd (s : string) : string :=
  match s with
  | EmptyString => EmptyString
  | String c s' =>
      match trimEnd s' with
      | EmptyString => if isWhiteSpace c then EmptyString
                       else String c EmptyString
      | t => String c t
      end
  end.

(** [s.trim()] *)
Definition trim (s : string) : string := trimEnd (trimStart s).

(** The array stored under 'searchHistory'. *)
Definition getSearchHistory (item : option (list string)) : list string :=
  match item with
  | Some history => history
  | None => []
  end.

Definition addToSearchHistory (item : option (list string)) (term : string)
  : option (list string) :=
  if String.eqb term "" || String.eqb (trim term) "" then item
  else
    let history := getSearchHistory item in
    let termLower := trim (toLowerCase term) in
    let filtered :=
      filter (fun h => negb (String.eqb (toLowerCase h) termLower)) history in
    let limited := firstn 20 (term :: filtered) in
    Some limited.

End UserLists.

(** ** The stored vocabulary *)

Module Vocabulary.
Import JsString Level.

(** The properties of a vocabulary record that the loading code reads and
    writes; [None] is a property that is absent, and an identifier is the
    integer its number holds. *)
Record Vocab : Type := mkVocab {
  id : option Z;
  v1 : string;
  level : option Level.level
}.

(** [!v.id]: the identifier is absent or zero. *)
Definition missingId (v : Vocab) : bool :=
  match id v with
  | None => true
  | Some n => (n =? 0)%Z
  end.

(** [v.id || 0] *)
Definition idOrZero (v : Vocab) : Z :=
  match id v with
  | None => 0%Z
  | Some n => n
  end.

(** The localStorage entry 'vocabularyData': absent or empty, a text that does not
    parse to an array, or an array of records. *)
Inductive savedItem : Type :=
| Absent
| NotAnArray
| Saved (parsed : list Vocab).

(** [existingIds.has(v.id)] for a record of the stored array. *)
Definition hasId (existing : list Vocab) (v : Vocab) : bool :=
  existsb (fun w => match id w, id v with
                    | Some a, Some b => (a =? b)%Z
                    | None, None => true
                    | _, _ => false
                    end) existing.

Definition getAllVocabulary (vocabularyData : list Vocab) (saved : savedItem)
  : list Vocab :=
  match saved with
  | Saved parsed =>
      let newItems := filter (fun v => negb (hasId vocabularyData v)) parsed in
      (vocabularyData ++ newItems)%list
  | _ => vocabularyData
  end.


(** [maxId++] for a counter that holds the integer [maxId]: the sum is
    rounded to binary64, so from 2^53 on the counter does not move by
    one. *)
Definition increment (maxId : Z) : Z :=
  match JsNumber.integerOf (JsNumber.add (JsNumber.ofZ maxId) (JsNumber.ofZ 1)) with
  | Some n => n
  | None => maxId
  end.




End Vocabulary.

(** ** Import into the word bank *)

Module BankImport.
Import JsString Scheduler.

(** A vocabulary record as the import reads it: its identifier and its
    base form. *)
Record BankVocab : Type := mkBankVocab {
  id : vocabId;
  v1 : string
}.

(** The test of [vocabularyData.find] for an imported record whose
    property [v1] is [imported]; [None] is a record without that property. *)
Definition matchesImported (imported : option string) (v : BankVocab) : bool :=
  match imported with
  | None => false
  | Some w =>
      String.eqb (toLowerCase (v1 v)) (toLowerCase w)
      || (negb (String.eqb w "")
          && JsString.includes (toLowerCase (v1 v)) (toLowerCase w))
  end.

(** One turn of [data.forEach]: the storage and [importedIds]. *)
Definition importOne (vocabularyData : list BankVocab)
           (state : storage * list vocabId) (imported : option string)
  : storage * list vocabId :=
  match find (matchesImported imported) vocabularyData with
  | Some vocab =>
      if negb (isInWordBank (fst state) (id vocab))
      then (fst (addToWordBank (fst state) (id vocab)),
            (snd state ++ [id vocab])%list)
      else state
  | None => state
  end.

(** The matching loop of [importWordBank] over the parsed records. *)
Definition importWordBank (vocabularyData : list BankVocab) (st : storage)
           (data : list (option string)) : storage * list vocabId :=
  fold_left (importOne vocabularyData) data (st, []).

End BankImport.

(** ** Vocabulary of the statements *)

Module Statements.
Import JsString JsObject Conjugation Level JsNumber Scheduler.

(** [s] ends in the string [t]. *)
Definition EndsIn (s t : string) : Prop := exists p, s = p ++ t.

(** [s] ends in a non-vowel followed by the letter y; [p] is [s] without
    that y. *)
Definition EndsInConsonantY (s p : string) : Prop :=
  exists q c, p = q ++ String c "" /\ s = p ++ "y" /\ isVowel c = false.

(** [s] ends in a vowel followed by a non-vowel [c]. *)
Definition EndsInVowelConsonant (s : string) (c : ascii) : Prop :=
  exists q v, s = q ++ String v (String c "") /\ isVowel v = true
              /\ isVowel c = false.

(** The order of the levels, from the most common words on. *)
Definition rank (l : level) : nat :=
  match l with
  | beginner => 0
  | intermediate => 1
  | advanced => 2
  end.

(** The number of answers with the given outcome. *)
Definition countOutcome (b : bool) (answers : list answer) : Z :=
  Z.of_nat (List.length (filter (fun a => Bool.eqb (fst a) b) answers)).

(** An integer a clock can hold with three days added, below 2^53. *)
Definition clockInteger (n : Z) : Prop :=
  (0 <= n /\ n + 259200000 < 9007199254740992)%Z.

(** A record as the scheduler keeps it: JSON reads it back as it was
    written, its ease lies in the interval from 1.3 to 2.5, and its two
    counters hold integers from 0 to 2^53 - 1. *)
Definition keptRecord (p : Progress) : Prop :=
  jsonProgress p = p /\
  easeInRange (ToNumber (ease p)) /\
  (exists c : Z, wellFormed (ToNumber (correct p)) /\
                 integerOf (ToNumber (correct p)) = Some c /\
                 (0 <= c < 9007199254740992)%Z) /\
  (exists i : Z, wellFormed (ToNumber (incorrect p)) /\
                 integerOf (ToNumber (incorrect p)) = Some i /\
                 (0 <= i < 9007199254740992)%Z).

End Statements.

(** * Properties *)

Import JsString JsObject Conjugation Level JsNumber Scheduler.
Import Quiz UserLists Statements.

(** ** Rounding to binary64 *)

Module NumberFacts.
Local Open Scope Z_scope.

Lemma digits2_pos_bounds (p : positive) :
  2 ^ (Zpos (digits2_pos p) - 1) <= Zpos p < 2 ^ Zpos (digits2_pos p).
Proof.
  induction p as [p IH | p IH |]; simpl digits2_pos.
  - rewrite Pos2Z.inj_succ.
    replace (Z.succ (Zpos (digits2_pos p)) - 1) with (Z.succ (Zpos (digits2_pos p) - 1)) by lia.
    rewrite !Z.pow_succ_r by lia. lia.
  - rewrite Pos2Z.inj_succ.
    replace (Z.succ (Zpos (digits2_pos p)) - 1) with (Z.succ (Zpos (digits2_pos p) - 1)) by lia.
    rewrite !Z.pow_succ_r by lia. lia.
  - simpl. lia.
Qed.

Lemma digits2_pos_unique (p : positive) (d : Z) :
  2 ^ (d - 1) <= Zpos p < 2 ^ d -> Zpos (digits2_pos p) = d.
Proof.
  intros [Hlo Hhi].
  pose proof (digits2_pos_bounds p) as [Blo Bhi].
  assert (Hd : 0 < d).
  { destruct (Z_lt_le_dec 0 d) as [|Hn]; [assumption|].
    exfalso. destruct (Z.eq_dec d 0) as [->|]; [simpl in Hhi; lia|].
    rewrite Z.pow_neg_r in Hhi by lia. lia. }
  destruct (Z.lt_trichotomy (Zpos (digits2_pos p)) d) as [Hlt | [Heq | Hgt]].
  - exfalso.
    assert (2 ^ Zpos (digits2_pos p) <= 2 ^ (d - 1)) by (apply Z.pow_le_mono_r; lia).
    lia.
  - assumption.
  - exfalso.
    assert (2 ^ d <= 2 ^ (Zpos (digits2_pos p) - 1)) by (apply Z.pow_le_mono_r; lia).
    lia.
Qed.

Lemma iter_pos_nat {A : Type} (f : A -> A) (p : positive) (x : A) :
  iter_pos f p x = Nat.iter (Pos.to_nat p) f x.
Proof.
  revert x. induction p as [p IH | p IH |]; intro x; simpl iter_pos.
  - rewrite !IH, Pos2Nat.inj_xI.
    replace (S (2 * Pos.to_nat p))%nat with (Pos.to_nat p + (Pos.to_nat p + 1))%nat by lia.
    rewrite !Nat.iter_add. reflexivity.
  - rewrite !IH, Pos2Nat.inj_xO.
    replace (2 * Pos.to_nat p)%nat with (Pos.to_nat p + Pos.to_nat p)%nat by lia.
    rewrite Nat.iter_add. reflexivity.
  - reflexivity.
Qed.

Lemma shr_nat (r : shr_record) (e n : Z) :
  0 <= n -> shr r e n = (Nat.iter (Z.to_nat n) shr_1 r, e + n).
Proof.
  intro Hn. destruct n as [|p|p]; simpl.
  - f_equal. lia.
  - rewrite iter_pos_nat. reflexivity.
  - lia.
Qed.

Lemma shr_1_m (r : shr_record) : 0 <= shr_m r -> shr_m (shr_1 r) = shr_m r / 2.
Proof.
  destruct r as [m b s]. simpl. intro Hm.
  destruct m as [|p|p]; [reflexivity| |lia].
  destruct p as [p|p|]; simpl shr_m.
  - rewrite Pos2Z.inj_xI. apply Z.div_unique with (r := 1); lia.
  - rewrite Pos2Z.inj_xO. apply Z.div_unique with (r := 0); lia.
  - reflexivity.
Qed.

Lemma shr_iter_m (n : nat) (r : shr_record) :
  0 <= shr_m r -> shr_m (Nat.iter n shr_1 r) = shr_m r / 2 ^ Z.of_nat n.
Proof.
  intro Hm. induction n as [|n IH].
  - simpl. rewrite Z.div_1_r. reflexivity.
  - rewrite Nat2Z.inj_succ, Z.pow_succ_r by lia. simpl Nat.iter.
    rewrite shr_1_m.
    + rewrite IH, Z.div_div by lia. f_equal. lia.
    + rewrite IH. apply Z.div_pos; lia.
Qed.

Lemma shr_iter_exact (n : nat) (m : Z) :
  0 <= m ->
  Nat.iter n shr_1 (Build_shr_record (m * 2 ^ Z.of_nat n) false false)
  = Build_shr_record m false false.
Proof.
  intro Hm. induction n as [|n IH].
  - simpl. f_equal. lia.
  - rewrite Nat.iter_succ_r.
    rewrite Nat2Z.inj_succ, Z.pow_succ_r by lia.
    replace (shr_1 _) with (Build_shr_record (m * 2 ^ Z.of_nat n) false false); [exact IH|].
    assert (0 <= m * 2 ^ Z.of_nat n) by lia.
    replace (m * (2 * 2 ^ Z.of_nat n)) with (2 * (m * 2 ^ Z.of_nat n)) by lia.
    destruct (m * 2 ^ Z.of_nat n) as [|q|q]; [reflexivity|reflexivity|lia].
Qed.

Lemma round_nearest_even_bounds (m : Z) (l : location) :
  m <= round_nearest_even m l <= m + 1.
Proof.
  destruct l as [|[| |]]; simpl; try lia.
  destruct (Z.even m); lia.
Qed.

Lemma fexp_normal (x : Z) : -1074 <= x - 53 -> fexp 53 1024 x = x - 53.
Proof. intro H. unfold fexp, emin. lia. Qed.


Lemma binary_round_aux_normal (s : bool) (p : positive) (e k : Z) :
  k = Zpos (digits2_pos p) - 53 -> 0 <= k -> -1074 <= e + k ->
  exists (m' : positive) (e' : Z),
    binary_round_aux 53 1024 s (Zpos p) e loc_Exact = rounded s m' e' /\
    2 ^ 52 <= Zpos m' < 2 ^ 53 /\
    ((e' = e + k /\ Zpos p / 2 ^ k <= Zpos m' <= Zpos p / 2 ^ k + 1) \/
     (e' = e + k + 1 /\ Zpos m' = 2 ^ 52 /\ Zpos p / 2 ^ k = 2 ^ 53 - 1)) /\
    (Zpos p mod 2 ^ k = 0 -> Zpos m' = Zpos p / 2 ^ k /\ e' = e + k).
Proof.
  intros Hk Hk0 Hmin.
  pose proof (digits2_pos_bounds p) as [Blo Bhi].
  replace (Zpos (digits2_pos p)) with (k + 53) in Bhi by lia.
  replace (Zpos (digits2_pos p) - 1) with (k + 52) in Blo by lia.
  rewrite Z.pow_add_r in Blo, Bhi by lia.
  assert (Hpk : 0 < 2 ^ k) by (apply Z.pow_pos_nonneg; lia).
  set (q := Zpos p / 2 ^ k).
  assert (Hq : 2 ^ 52 <= q < 2 ^ 53).
  { unfold q. split.
    - apply Z.div_le_lower_bound; lia.
    - apply Z.div_lt_upper_bound; lia. }
  unfold binary_round_aux, shr_fexp.
  simpl Zdigits2.
  rewrite (fexp_normal (Zpos (digits2_pos p) + e)) by lia.
  replace (Zpos (digits2_pos p) + e - 53 - e) with k by lia.
  rewrite shr_nat by lia.
  simpl shr_record_of_loc.
  set (r1 := Nat.iter (Z.to_nat k) shr_1 (Build_shr_record (Zpos p) false false)).
  assert (Hr1 : shr_m r1 = q).
  { unfold r1. rewrite shr_iter_m by (simpl; lia). simpl shr_m.
    rewrite Z2Nat.id by lia. reflexivity. }
  assert (Hexact : Zpos p mod 2 ^ k = 0 -> r1 = Build_shr_record q false false).
  { intro Hmod. unfold r1.
    replace (Zpos p) with (q * 2 ^ Z.of_nat (Z.to_nat k)).
    - apply shr_iter_exact. lia.
    - rewrite Z2Nat.id by lia. unfold q.
      pose proof (Z.div_mod (Zpos p) (2 ^ k)). lia. }
  pose proof (round_nearest_even_bounds (shr_m r1) (loc_of_shr_record r1)) as Hrne.
  rewrite Hr1 in Hrne |- *.
  assert (Hrne_exact : Zpos p mod 2 ^ k = 0 ->
            round_nearest_even q (loc_of_shr_record r1) = q).
  { intro Hmod. rewrite (Hexact Hmod). reflexivity. }
  destruct (round_nearest_even q (loc_of_shr_record r1)) as [|m2|m2] eqn:Em2;
    [lia| |lia].
  simpl Zdigits2.
  destruct (Z.eq_dec (Zpos m2) (2 ^ 53)) as [Hcarry | Hnocarry].
  - (* the rounding carried into a 54th bit *)
    assert (Hd : Zpos (digits2_pos m2) = 54) by (apply digits2_pos_unique; simpl; lia).
    rewrite Hd.
    rewrite (fexp_normal (54 + (e + k))) by lia.
    replace (54 + (e + k) - 53 - (e + k)) with 1 by lia.
    assert (Hm2 : m2 = 9007199254740992%positive) by (simpl in Hcarry; lia).
    subst m2. simpl.
    exists 4503599627370496%positive, (e + k + 1).
    split; [reflexivity|].
    split; [simpl; lia|].
    split.
    + right. split; [reflexivity|]. split; [reflexivity|].
      fold q. simpl in *. 
      assert (q <> 2 ^ 53) by (simpl; lia). simpl in H. lia.
    + intro Hmod. specialize (Hrne_exact Hmod). simpl in *. lia.
  - assert (Hd : Zpos (digits2_pos m2) = 53) by (apply digits2_pos_unique; simpl in *; lia).
    rewrite Hd.
    rewrite (fexp_normal (53 + (e + k))) by lia.
    replace (53 + (e + k) - 53 - (e + k)) with 0 by lia.
    simpl shr. simpl shr_m.
    exists m2, (e + k).
    split; [reflexivity|].
    split; [simpl in *; lia|].
    split.
    + left. split; [reflexivity|]. fold q. lia.
    + intro Hmod. specialize (Hrne_exact Hmod). fold q. lia.
Qed.

Lemma shl_align_fst (m : positive) (ex ez : Z) :
  ez <= ex -> Zpos (fst (shl_align m ex ez)) = Zpos m * 2 ^ (ex - ez).
Proof.
  intro H. unfold shl_align.
  destruct (ez - ex) as [|d|d] eqn:Ed.
  - replace (ex - ez) with 0 by lia. simpl. lia.
  - lia.
  - replace (ex - ez) with (Zpos d) by lia. simpl fst.
    clear Ed H. induction d as [|d IH] using Pos.peano_ind.
    + simpl. lia.
    + rewrite Pos.iter_succ, Pos2Z.inj_xO, IH, Pos2Z.inj_succ, Z.pow_succ_r by lia. lia.
Qed.

Lemma binary_round_normal (s : bool) (p : positive) (e : Z) :
  53 <= Zpos (digits2_pos p) -> -1074 <= e + (Zpos (digits2_pos p) - 53) ->
  binary_round 53 1024 s p e = binary_round_aux 53 1024 s (Zpos p) e loc_Exact.
Proof.
  intros Hd Hmin. unfold binary_round.
  rewrite (fexp_normal (Zpos (digits2_pos p) + e)) by lia.
  unfold shl_align.
  destruct (Zpos (digits2_pos p) + e - 53 - e) eqn:E; try reflexivity. lia.
Qed.

(** The sum or difference [S] of two aligned mantissas, at exponent [ez],
    rounded to binary64 when [S] has [k + 53] bits. *)
Lemma binary_normalize_normal (S ez k : Z) :
  2 ^ (k + 52) <= S < 2 ^ (k + 53) -> 0 <= k -> -1074 <= ez + k ->
  exists (m' : positive) (e' : Z),
    binary_normalize 53 1024 S ez false = rounded false m' e' /\
    2 ^ 52 <= Zpos m' < 2 ^ 53 /\
    ((e' = ez + k /\ S / 2 ^ k <= Zpos m' <= S / 2 ^ k + 1) \/
     (e' = ez + k + 1 /\ Zpos m' = 2 ^ 52 /\ S / 2 ^ k = 2 ^ 53 - 1)) /\
    (S mod 2 ^ k = 0 -> Zpos m' = S / 2 ^ k /\ e' = ez + k).
Proof.
  intros HS Hk Hmin.
  assert (0 < 2 ^ (k + 52)) by (apply Z.pow_pos_nonneg; lia).
  destruct S as [|p|p]; [lia| |lia].
  assert (Hd : Zpos (digits2_pos p) = k + 53).
  { apply digits2_pos_unique. replace (k + 53 - 1) with (k + 52) by lia. exact HS. }
  unfold binary_normalize.
  rewrite binary_round_normal by lia.
  apply binary_round_aux_normal; lia.
Qed.

Lemma shr_m_nonneg (r : shr_record) (e n : Z) :
  0 <= shr_m r -> 0 <= shr_m (fst (shr r e n)).
Proof.
  intro Hm. destruct n as [|p|p]; simpl; try assumption.
  rewrite iter_pos_nat, shr_iter_m by assumption.
  apply Z.div_pos; [assumption|]. apply Z.pow_pos_nonneg; lia.
Qed.

(** A rounding of a non-negative mantissa returns a zero, a finite number or
    an infinity of the given sign. *)
Lemma binary_round_aux_sign (s : bool) (m e : Z) (l : location) :
  0 <= m ->
  binary_round_aux 53 1024 s m e l = S754_zero s \/
  (exists m' e', binary_round_aux 53 1024 s m e l = S754_finite s m' e') \/
  binary_round_aux 53 1024 s m e l = S754_infinity s.
Proof.
  intro Hm. unfold binary_round_aux, shr_fexp.
  set (n1 := fexp 53 1024 (Zdigits2 m + e) - e).
  assert (H1 : 0 <= shr_m (fst (shr (shr_record_of_loc m l) e n1))).
  { apply shr_m_nonneg. destruct l as [|[| |]]; exact Hm. }
  destruct (shr (shr_record_of_loc m l) e n1) as [r1 e1]. simpl fst in H1.
  pose proof (round_nearest_even_bounds (shr_m r1) (loc_of_shr_record r1)) as Hr.
  set (m2 := round_nearest_even (shr_m r1) (loc_of_shr_record r1)) in *.
  set (n2 := fexp 53 1024 (Zdigits2 m2 + e1) - e1).
  assert (H2 : 0 <= shr_m (fst (shr (shr_record_of_loc m2 loc_Exact) e1 n2))).
  { apply shr_m_nonneg. simpl. lia. }
  destruct (shr (shr_record_of_loc m2 loc_Exact) e1 n2) as [r2 e2]. simpl fst in H2.
  destruct (shr_m r2) as [|q|q]; [left; reflexivity| |lia].
  right. destruct (e2 <=? 1024 - 53); [left; exists q, e2; reflexivity | right; reflexivity].
Qed.

Lemma binary_normalize_sign (m e : Z) :
  0 <= m ->
  binary_normalize 53 1024 m e false = S754_zero false \/
  (exists m' e', binary_normalize 53 1024 m e false = S754_finite false m' e') \/
  binary_normalize 53 1024 m e false = S754_infinity false.
Proof.
  intro Hm. destruct m as [|p|p]; [left; reflexivity| |lia].
  simpl. unfold binary_round.
  destruct (shl_align p e (fexp 53 1024 (Zpos (digits2_pos p) + e))) as [mz ez].
  apply binary_round_aux_sign. lia.
Qed.

Lemma binary_round_aux_not_nan (s : bool) (m e : Z) (l : location) :
  0 <= m -> binary_round_aux 53 1024 s m e l <> S754_nan.
Proof.
  intro Hm. unfold binary_round_aux, shr_fexp.
  set (n1 := fexp 53 1024 (Zdigits2 m + e) - e).
  assert (H1 : 0 <= shr_m (fst (shr (shr_record_of_loc m l) e n1))).
  { apply shr_m_nonneg. destruct l as [|[| |]]; exact Hm. }
  destruct (shr (shr_record_of_loc m l) e n1) as [r1 e1]. simpl fst in H1.
  pose proof (round_nearest_even_bounds (shr_m r1) (loc_of_shr_record r1)) as Hr.
  set (m2 := round_nearest_even (shr_m r1) (loc_of_shr_record r1)) in *.
  set (n2 := fexp 53 1024 (Zdigits2 m2 + e1) - e1).
  assert (H2 : 0 <= shr_m (fst (shr (shr_record_of_loc m2 loc_Exact) e1 n2))).
  { apply shr_m_nonneg. simpl. lia. }
  destruct (shr (shr_record_of_loc m2 loc_Exact) e1 n2) as [r2 e2]. simpl fst in H2.
  destruct (shr_m r2) as [|q|q]; [discriminate| |lia].
  destruct (e2 <=? 1024 - 53); discriminate.
Qed.

Lemma binary_normalize_not_nan (m e : Z) (sz : bool) :
  binary_normalize 53 1024 m e sz <> S754_nan.
Proof.
  destruct m as [|p|p]; simpl; [discriminate| |];
    unfold binary_round;
    destruct (shl_align p e (fexp 53 1024 (Zpos (digits2_pos p) + e))) as [mz ez];
    apply binary_round_aux_not_nan; lia.
Qed.

Lemma SFadd_not_nan (x y : spec_float) :
  x <> S754_nan ->
  (match y with S754_finite _ _ _ => True | _ => False end) ->
  SFadd 53 1024 x y <> S754_nan.
Proof.
  intros Hx Hy. destruct y as [| | |sy my ey]; try contradiction.
  destruct x as [sx|sx| |sx mx ex]; simpl; try discriminate; try congruence.
  apply binary_normalize_not_nan.
Qed.

Lemma SFsub_not_nan (x y : spec_float) :
  x <> S754_nan ->
  (match y with S754_finite _ _ _ => True | _ => False end) ->
  SFsub 53 1024 x y <> S754_nan.
Proof.
  intros Hx Hy. destruct y as [| | |sy my ey]; try contradiction.
  destruct x as [sx|sx| |sx mx ex]; simpl; try discriminate; try congruence.
  apply binary_normalize_not_nan.
Qed.


Lemma decimal_13_10 : decimal 13 10 = S754_finite false 5854679515581645 (-52).
Proof. vm_compute. reflexivity. Qed.

Lemma decimal_25_10 : decimal 25 10 = S754_finite false 5629499534213120 (-51).
Proof. vm_compute. reflexivity. Qed.

Lemma decimal_1_10 : decimal 1 10 = S754_finite false 7205759403792794 (-56).
Proof. vm_compute. reflexivity. Qed.

Lemma decimal_2_10 : decimal 2 10 = S754_finite false 7205759403792794 (-55).
Proof. vm_compute. reflexivity. Qed.

Lemma valid_finite_digits s m e :
  valid_binary 53 1024 (S754_finite s m e) = true -> -1074 < e ->
  4503599627370496 <= Zpos m < 9007199254740992.
Proof.
  intros Hv He. simpl in Hv. unfold bounded, canonical_mantissa in Hv.
  apply andb_prop in Hv. destruct Hv as [Hc _].
  apply Z.eqb_eq in Hc. unfold fexp, emin in Hc.
  pose proof (digits2_pos_bounds m) as Hb.
  assert (Hd : Zpos (digits2_pos m) = 53) by lia.
  rewrite Hd in Hb. 
  change (2 ^ (53 - 1)) with 4503599627370496 in Hb.
  change (2 ^ 53) with 9007199254740992 in Hb. exact Hb.
Qed.

Lemma range_shape (x : spec_float) :
  valid_binary 53 1024 x = true -> SFleb (decimal 13 10) x = true -> SFleb x (decimal 25 10) = true ->
  exists m ex, x = S754_finite false m ex /\ easeShape m ex.
Proof.
  intros Hv Hlo Hhi.
  destruct x as [s|s| |s m e].
  - rewrite decimal_13_10 in Hlo. destruct s; discriminate Hlo.
  - rewrite decimal_13_10 in Hlo. rewrite decimal_25_10 in Hhi.
    destruct s; [discriminate Hlo | discriminate Hhi].
  - rewrite decimal_13_10 in Hlo. discriminate Hlo.
  - destruct s; [rewrite decimal_13_10 in Hlo; discriminate Hlo|].
    exists m, e. split; [reflexivity|].
    rewrite decimal_13_10 in Hlo. rewrite decimal_25_10 in Hhi.
    unfold SFleb, SFcompare in Hlo, Hhi.
    assert (He : -52 <= e <= -51).
    { clear Hv. destruct (Z.compare_spec (-52) e); destruct (Z.compare_spec e (-51));
        try discriminate; clear Hlo Hhi; lia. }
    pose proof (valid_finite_digits _ _ _ Hv ltac:(clear Hv Hlo Hhi; lia)) as Hb.
    clear Hv. unfold easeShape.
    destruct (Z.eq_dec e (-52)) as [->|Hne].
    + left. split; [reflexivity|]. clear Hhi.
      rewrite Z.compare_refl in Hlo.
      pose proof (Z.compare_spec 5854679515581645 (Zpos m)) as Hc.
      unfold Z.compare, Pos.compare in Hc. revert Hlo.
      destruct Hc; intro Hlo; try discriminate Hlo; clear Hlo; lia.
    + right. assert (e = -51) by (clear Hlo Hhi; lia). subst e.
      split; [reflexivity|]. clear Hlo.
      rewrite Z.compare_refl in Hhi.
      pose proof (Z.compare_spec (Zpos m) 5629499534213120) as Hc.
      unfold Z.compare, Pos.compare in Hc. revert Hhi.
      destruct Hc; intro Hhi; try discriminate Hhi; clear Hhi; lia.
Qed.


Lemma rounded_finite (s : bool) (m : positive) (e : Z) :
  e <= 971 -> rounded s m e = S754_finite s m e.
Proof. intro H. unfold rounded. destruct (Z.leb_spec e 971); [reflexivity|lia]. Qed.

Lemma valid_normal (s : bool) (m : positive) (e : Z) :
  4503599627370496 <= Zpos m < 9007199254740992 -> -1074 <= e <= 971 ->
  valid_binary 53 1024 (S754_finite s m e) = true.
Proof.
  intros Hm He. simpl. unfold bounded, canonical_mantissa.
  rewrite (digits2_pos_unique m 53) by (simpl; lia).
  unfold fexp, emin. apply andb_true_intro. split.
  - apply Z.eqb_eq. lia.
  - apply Z.leb_le. lia.
Qed.

(** [x + 0.1] for [x] in the ease interval. *)
Lemma add_tenth_shape (m : positive) (ex : Z) :
  easeShape m ex ->
  exists m' e',
    SFadd 53 1024 (S754_finite false m ex) (decimal 1 10) = S754_finite false m' e' /\
    4503599627370496 <= Zpos m' < 9007199254740992 /\
    ((e' = -52 /\ 5854679515581645 <= Zpos m') \/ e' = -51).
Proof.
  intros [[-> Hm] | [-> Hm]]; rewrite decimal_1_10; unfold SFadd.
  - change (Z.min (-52) (-56)) with (-56).
    unfold cond_Zopp.
    rewrite !shl_align_fst by lia.
    change (2 ^ (-52 - -56)) with 16. change (2 ^ (-56 - -56)) with 1.
    set (S := Zpos m * 16 + 7205759403792794 * 1).
    destruct (Z_lt_le_dec S (2 ^ 57)) as [Hlt | Hge].
    + destruct (binary_normalize_normal S (-56) 4) as (m' & e' & Heq & Hb & Hcase & _);
        [simpl; unfold S; lia | lia | lia |].
      change (2 ^ 4) with 16 in Hcase. simpl in Hb.
      assert (Hq : Zpos m <= S / 16) by (apply Z.div_le_lower_bound; unfold S; lia).
      exists m', e'. rewrite Heq.
      destruct Hcase as [[-> Hc] | [-> [Hc _]]].
      * rewrite rounded_finite by lia. split; [reflexivity|]. split; [lia|]. left. lia.
      * rewrite rounded_finite by lia. split; [reflexivity|]. split; [lia|]. right. lia.
    + destruct (binary_normalize_normal S (-56) 5) as (m' & e' & Heq & Hb & Hcase & _);
        [simpl in *; unfold S; lia | lia | lia |].
      change (2 ^ 5) with 32 in Hcase. simpl in Hb.
      assert (Hq : S / 32 < 9007199254740991)
        by (apply Z.div_lt_upper_bound; unfold S; lia).
      exists m', e'. rewrite Heq.
      destruct Hcase as [[-> Hc] | [-> [_ Hc]]]; [|simpl in Hc; lia].
      rewrite rounded_finite by lia. split; [reflexivity|]. split; [lia|]. right. lia.
  - change (Z.min (-51) (-56)) with (-56).
    unfold cond_Zopp.
    rewrite !shl_align_fst by lia.
    change (2 ^ (-51 - -56)) with 32. change (2 ^ (-56 - -56)) with 1.
    set (S := Zpos m * 32 + 7205759403792794 * 1).
    destruct (binary_normalize_normal S (-56) 5) as (m' & e' & Heq & Hb & Hcase & _);
      [simpl in *; unfold S; lia | lia | lia |].
    change (2 ^ 5) with 32 in Hcase. simpl in Hb.
    assert (Hq : S / 32 < 9007199254740991)
      by (apply Z.div_lt_upper_bound; unfold S; lia).
    exists m', e'. rewrite Heq.
    destruct Hcase as [[-> Hc] | [-> [_ Hc]]]; [|simpl in Hc; lia].
    rewrite rounded_finite by lia. split; [reflexivity|]. split; [lia|]. right. lia.
Qed.


Lemma pow2_52 : 2 ^ 52 = 4503599627370496. Proof. reflexivity. Qed.
Lemma pow2_53 : 2 ^ 53 = 9007199254740992. Proof. reflexivity. Qed.

(** [x - 0.2] for [x] in the ease interval. *)
Lemma sub_fifth_shape (m : positive) (ex : Z) :
  easeShape m ex ->
  exists m' e',
    SFsub 53 1024 (S754_finite false m ex) (decimal 2 10) = S754_finite false m' e' /\
    4503599627370496 <= Zpos m' < 9007199254740992 /\
    (e' = -52 \/ (e' = -51 /\ Zpos m' <= 5629499534213120)).
Proof.
  intros [[-> Hm] | [-> Hm]]; rewrite decimal_2_10; unfold SFsub.
  - change (Z.min (-52) (-55)) with (-55).
    unfold cond_Zopp.
    rewrite !shl_align_fst by lia.
    change (2 ^ (-52 - -55)) with 8. change (2 ^ (-55 - -55)) with 1.
    set (S := Zpos m * 8 - 7205759403792794 * 1).
    destruct (binary_normalize_normal S (-55) 3) as (m' & e' & Heq & Hb & Hcase & _);
      [ change (2 ^ (3 + 52)) with 36028797018963968;
        change (2 ^ (3 + 53)) with 72057594037927936; unfold S; lia
      | lia | lia |].
    change (2 ^ 3) with 8 in Hcase. rewrite pow2_52, pow2_53 in *.
    assert (Hq : S / 8 < 9007199254740991)
      by (apply Z.div_lt_upper_bound; unfold S; lia).
    exists m', e'. rewrite Heq.
    destruct Hcase as [[-> Hc] | [-> [_ Hc]]]; [|lia].
    rewrite rounded_finite by lia. split; [reflexivity|]. split; [lia|]. left. lia.
  - change (Z.min (-51) (-55)) with (-55).
    unfold cond_Zopp.
    rewrite !shl_align_fst by lia.
    change (2 ^ (-51 - -55)) with 16. change (2 ^ (-55 - -55)) with 1.
    set (S := Zpos m * 16 - 7205759403792794 * 1).
    destruct (Z_lt_le_dec S 72057594037927936) as [Hlt | Hge].
    + destruct (binary_normalize_normal S (-55) 3) as (m' & e' & Heq & Hb & Hcase & _);
        [ change (2 ^ (3 + 52)) with 36028797018963968;
          change (2 ^ (3 + 53)) with 72057594037927936; unfold S; lia
        | lia | lia |].
      rewrite pow2_52, pow2_53 in *.
      exists m', e'. rewrite Heq.
      destruct Hcase as [[-> Hc] | [-> [Hc _]]].
      * rewrite rounded_finite by lia. split; [reflexivity|]. split; [lia|]. left. lia.
      * rewrite rounded_finite by lia. split; [reflexivity|]. split; [lia|]. right. lia.
    + destruct (binary_normalize_normal S (-55) 4) as (m' & e' & Heq & Hb & Hcase & _);
        [ change (2 ^ (4 + 52)) with 72057594037927936;
          change (2 ^ (4 + 53)) with 144115188075855872; unfold S; lia
        | lia | lia |].
      change (2 ^ 4) with 16 in Hcase. rewrite pow2_52, pow2_53 in *.
      assert (Hq : S / 16 < 5629499534213119)
        by (apply Z.div_lt_upper_bound; unfold S; lia).
      exists m', e'. rewrite Heq.
      destruct Hcase as [[-> Hc] | [-> [_ Hc]]]; [|lia].
      rewrite rounded_finite by lia. split; [reflexivity|]. split; [lia|]. right. lia.
Qed.

End NumberFacts.

(** ** Comparison, minimum, maximum and ceiling *)

Module OrderFacts.
Local Open Scope Z_scope.
Import NumberFacts.

Lemma compare_refl (x : number) :
  isNaN x = false -> SFcompare x x = Some Eq.
Proof.
  destruct x as [s|s| |s m e]; simpl; intro H; try discriminate H.
  - reflexivity.
  - destruct s; reflexivity.
  - rewrite Z.compare_refl.
    change (Pos.compare_cont Eq m m) with (Pos.compare m m).
    rewrite Pos.compare_refl. destruct s; reflexivity.
Qed.

Lemma leb_refl (x : number) : isNaN x = false -> leb x x = true.
Proof. intro H. unfold leb, SFleb. rewrite compare_refl by exact H. reflexivity. Qed.

Lemma compare_antisym (x y : number) (c : comparison) :
  SFcompare x y = Some c -> SFcompare y x = Some (CompOpp c).
Proof.
  destruct x as [sx|sx| |sx mx ex], y as [sy|sy| |sy my ey]; simpl;
    intro H; try discriminate H; injection H as <-;
    try (destruct sx; reflexivity); try (destruct sy; reflexivity);
    try reflexivity.
  - destruct sx, sy; reflexivity.
  - change (Pos.compare_cont Eq mx my) with (Pos.compare mx my).
    change (Pos.compare_cont Eq my mx) with (Pos.compare my mx).
    rewrite (Z.compare_antisym ex ey), (Pos.compare_antisym mx my).
    destruct sx, sy; destruct (ex ?= ey); simpl; try reflexivity;
      destruct (mx ?= my)%positive; reflexivity.
Qed.

Lemma ltb_leb (x y : number) : ltb x y = true -> leb x y = true.
Proof.
  unfold ltb, leb, SFltb, SFleb. destruct (SFcompare x y) as [[| |]|]; congruence.
Qed.

Lemma ltb_not_leb (x y : number) : ltb x y = true -> leb y x = false.
Proof.
  unfold ltb, leb, SFltb, SFleb. intro H.
  destruct (SFcompare x y) as [c|] eqn:E; [|discriminate H].
  rewrite (compare_antisym _ _ _ E). destruct c; try discriminate H. reflexivity.
Qed.

Lemma min_leb_l (x y : number) :
  isNaN x = false -> isNaN y = false -> leb (min x y) x = true.
Proof.
  intros Hx Hy. unfold min. rewrite Hx, Hy. simpl orb.
  destruct (ltb y x) eqn:E.
  - destruct x as [sx|sx| |sx mx ex], y as [sy|sy| |sy my ey];
      try discriminate Hx; try discriminate Hy; try discriminate E;
      try (apply ltb_leb; exact E).
  - destruct x as [sx|sx| |sx mx ex], y as [sy|sy| |sy my ey];
      try discriminate Hx; try discriminate Hy;
      try reflexivity; try (apply leb_refl; reflexivity).
Qed.

Lemma max_geb_l (x y : number) :
  isNaN x = false -> isNaN y = false -> leb x (max x y) = true.
Proof.
  intros Hx Hy. unfold max. rewrite Hx, Hy. simpl orb.
  destruct (ltb x y) eqn:E.
  - destruct x as [sx|sx| |sx mx ex], y as [sy|sy| |sy my ey];
      try discriminate Hx; try discriminate Hy; try discriminate E;
      try (apply ltb_leb; exact E).
  - destruct x as [sx|sx| |sx mx ex], y as [sy|sy| |sy my ey];
      try discriminate Hx; try discriminate Hy;
      try reflexivity; try (apply leb_refl; reflexivity).
Qed.

(** Order of two positive finite numbers, read on exponent and mantissa. *)
Lemma finite_leb (m1 m2 : positive) (e1 e2 : Z) :
  e1 < e2 \/ (e1 = e2 /\ Zpos m1 <= Zpos m2) ->
  leb (S754_finite false m1 e1) (S754_finite false m2 e2) = true.
Proof.
  intro H. unfold leb, SFleb, SFcompare.
  destruct (Z.compare_spec e1 e2) as [E|E|E]; try reflexivity.
  - pose proof (Z.compare_spec (Zpos m1) (Zpos m2)) as Hc.
    unfold Z.compare, Pos.compare in Hc.
    destruct Hc; try reflexivity. lia.
  - lia.
Qed.
End OrderFacts.

(** ** The ease interval *)

Module EaseFacts.
Local Open Scope Z_scope.
Import NumberFacts OrderFacts.

Lemma easeShape_inRange (m : positive) (e : Z) :
  4503599627370496 <= Zpos m < 9007199254740992 ->
  (e = -52 /\ 5854679515581645 <= Zpos m) \/
  (e = -51 /\ Zpos m <= 5629499534213120) ->
  easeInRange (S754_finite false m e).
Proof.
  intros Hm He. unfold easeInRange. split; [|split].
  - apply valid_normal; lia.
  - rewrite decimal_13_10. apply finite_leb. lia.
  - rewrite decimal_25_10. apply finite_leb. lia.
Qed.

Lemma easeInRange_shape (x : number) :
  easeInRange x -> exists m e, x = S754_finite false m e /\ easeShape m e.
Proof. intros (Hv & Hlo & Hhi). apply range_shape; assumption. Qed.

Lemma easeInRange_min : easeInRange (decimal 13 10).
Proof.
  rewrite decimal_13_10. apply easeShape_inRange; [lia|]. left. lia.
Qed.

Lemma easeInRange_max : easeInRange (decimal 25 10).
Proof.
  rewrite decimal_25_10. apply easeShape_inRange; [lia|]. right. lia.
Qed.

(** The ease after a correct answer stays in the interval. *)
Lemma ease_after_correct (x : number) :
  easeInRange x -> easeInRange (min (decimal 25 10) (add x (decimal 1 10))).
Proof.
  intro Hx. destruct (easeInRange_shape x Hx) as (m & e & -> & Hs).
  destruct (add_tenth_shape m e Hs) as (m' & e' & Heq & Hm' & He').
  unfold add, prec, emax. rewrite Heq.
  pose proof easeInRange_max as Hmax.
  rewrite decimal_25_10 in Hmax |- *.
  unfold min. simpl isNaN. simpl orb.
  destruct (ltb (S754_finite false m' e') (S754_finite false 5629499534213120 (-51))) eqn:E;
    [|exact Hmax].
  split; [|split].
  - apply valid_normal; lia.
  - rewrite decimal_13_10. apply finite_leb. lia.
  - rewrite decimal_25_10. apply ltb_leb. exact E.
Qed.

(** The ease after a wrong answer stays in the interval. *)
Lemma ease_after_incorrect (x : number) :
  easeInRange x -> easeInRange (max (decimal 13 10) (sub x (decimal 2 10))).
Proof.
  intro Hx. destruct (easeInRange_shape x Hx) as (m & e & -> & Hs).
  destruct (sub_fifth_shape m e Hs) as (m' & e' & Heq & Hm' & He').
  unfold sub, prec, emax. rewrite Heq.
  pose proof easeInRange_min as Hmin.
  rewrite decimal_13_10 in Hmin |- *.
  unfold max. simpl isNaN. simpl orb.
  destruct (ltb (S754_finite false 5854679515581645 (-52)) (S754_finite false m' e')) eqn:E;
    [|exact Hmin].
  split; [|split].
  - apply valid_normal; lia.
  - rewrite decimal_13_10. apply ltb_leb. exact E.
  - rewrite decimal_25_10. apply finite_leb. lia.
Qed.

Lemma ofZ_2 : ofZ 2 = S754_finite false 4503599627370496 (-51).
Proof. vm_compute. reflexivity. Qed.

Lemma ofZ_3 : ofZ 3 = S754_finite false 6755399441055744 (-51).
Proof. vm_compute. reflexivity. Qed.

(** The ceiling of a number of the ease interval is 2 or 3. *)
Lemma ceil_ease (x : number) :
  easeInRange x -> ceil x = ofZ 2 \/ ceil x = ofZ 3.
Proof.
  intro Hx. destruct (easeInRange_shape x Hx) as (m & e & -> & Hs).
  clear Hx. unfold ceil.
  destruct Hs as [[-> Hm] | [-> Hm]].
  - change (0 <=? -52) with false. cbv iota.
    change (cond_Zopp false (Zpos m)) with (Zpos m).
    change (2 ^ (- -52)) with 4503599627370496.
    assert (Hq : - Zpos m / 4503599627370496 = -2).
    { symmetry. apply Z.div_unique with (r := 9007199254740992 - Zpos m); lia. }
    rewrite Hq. left. reflexivity.
  - change (0 <=? -51) with false. cbv iota.
    change (cond_Zopp false (Zpos m)) with (Zpos m).
    change (2 ^ (- -51)) with 2251799813685248.
    destruct (Z.eq_dec (Zpos m) 4503599627370496) as [Heq | Hne].
    + rewrite Heq. left. reflexivity.
    + assert (Hq : - Zpos m / 2251799813685248 = -3).
      { symmetry. apply Z.div_unique with (r := 6755399441055744 - Zpos m); lia. }
      rewrite Hq. right. reflexivity.
Qed.

Lemma daysToMs_2 : daysToMs (ofZ 2) = ofZ 172800000.
Proof. vm_compute. reflexivity. Qed.

Lemma daysToMs_3 : daysToMs (ofZ 3) = ofZ 259200000.
Proof. vm_compute. reflexivity. Qed.
End EaseFacts.

(** ** Integers in binary64 *)

Module IntegerFacts.
Local Open Scope Z_scope.
Import NumberFacts OrderFacts.

Lemma shl_align_snd (m : positive) (ex ez : Z) :
  ez <= ex -> snd (shl_align m ex ez) = ez.
Proof.
  intro H. unfold shl_align.
  destruct (ez - ex) as [|d|d] eqn:Ed; simpl; lia.
Qed.

Lemma digits2_pos_shift (p q : positive) (j : Z) :
  0 <= j -> Zpos q = Zpos p * 2 ^ j ->
  Zpos (digits2_pos q) = Zpos (digits2_pos p) + j.
Proof.
  intros Hj Hq. apply digits2_pos_unique.
  pose proof (digits2_pos_bounds p) as [Blo Bhi].
  assert (Hpj : 0 < 2 ^ j) by (apply Z.pow_pos_nonneg; lia).
  replace (Zpos (digits2_pos p) + j - 1) with (Zpos (digits2_pos p) - 1 + j) by lia.
  rewrite !Z.pow_add_r by lia. rewrite Hq. split.
  - apply Z.mul_le_mono_nonneg_r; lia.
  - apply Z.mul_lt_mono_pos_r; lia.
Qed.

(** A mantissa [p] at exponent [e] whose value is that of the canonical
    mantissa [q] at exponent [c] rounds to that canonical number. *)
Lemma binary_round_exact (s : bool) (p q : positive) (e c : Z) :
  Zpos (digits2_pos q) = 53 -> -1074 <= c <= 971 ->
  (c <= e /\ Zpos q = Zpos p * 2 ^ (e - c)) \/
  (e < c /\ Zpos p = Zpos q * 2 ^ (c - e)) ->
  binary_round 53 1024 s p e = S754_finite s q c.
Proof.
  intros Hdq Hc [[Hle Hq] | [Hlt Hp]].
  - pose proof (digits2_pos_shift p q (e - c) ltac:(lia) Hq) as Hd.
    unfold binary_round.
    rewrite (fexp_normal (Zpos (digits2_pos p) + e)) by lia.
    replace (Zpos (digits2_pos p) + e - 53) with c by lia.
    pose proof (shl_align_fst p e c Hle) as Hf.
    pose proof (shl_align_snd p e c Hle) as Hs.
    destruct (shl_align p e c) as [mz ez]. simpl in Hf, Hs. subst ez.
    assert (mz = q) by (apply Pos2Z.inj; rewrite Hf, Hq; reflexivity). subst mz.
    destruct (binary_round_aux_normal s q c 0) as (m' & e' & Heq & _ & _ & Hex);
      [lia | lia | lia |].
    destruct Hex as [Hm He]; [apply Z.mod_1_r|].
    rewrite Z.div_1_r in Hm. rewrite Heq.
    assert (m' = q) by (apply Pos2Z.inj; exact Hm). subst m'.
    replace e' with c by lia. apply rounded_finite. lia.
  - pose proof (digits2_pos_shift q p (c - e) ltac:(lia) Hp) as Hd.
    unfold binary_round.
    rewrite (fexp_normal (Zpos (digits2_pos p) + e)) by lia.
    replace (Zpos (digits2_pos p) + e - 53) with c by lia.
    assert (Hsh : shl_align p e c = (p, e)).
    { unfold shl_align. destruct (c - e) as [|d|d] eqn:Ed; try reflexivity. lia. }
    rewrite Hsh.
    destruct (binary_round_aux_normal s p e (c - e)) as (m' & e' & Heq & _ & _ & Hex);
      [lia | lia | lia |].
    assert (Hpk : 0 < 2 ^ (c - e)) by (apply Z.pow_pos_nonneg; lia).
    destruct Hex as [Hm He]; [rewrite Hp; apply Z.mod_mul; lia|].
    rewrite Hp, Z.div_mul in Hm by lia. rewrite Heq.
    assert (m' = q) by (apply Pos2Z.inj; exact Hm). subst m'.
    replace e' with c by lia. apply rounded_finite. lia.
Qed.

(** The canonical mantissa and exponent of a positive integer below 2^53. *)
Lemma canonical_integer (n : positive) :
  Zpos n < 9007199254740992 ->
  exists q : positive,
    Zpos q = Zpos n * 2 ^ (53 - Zpos (digits2_pos n)) /\
    Zpos (digits2_pos q) = 53 /\
    1 <= Zpos (digits2_pos n) <= 53.
Proof.
  intro Hn.
  pose proof (digits2_pos_bounds n) as [Blo Bhi].
  assert (Hd : 1 <= Zpos (digits2_pos n) <= 53).
  { split; [lia|].
    destruct (Z_le_gt_dec (Zpos (digits2_pos n)) 53) as [|Hgt]; [assumption|].
    exfalso.
    assert (2 ^ 53 <= 2 ^ (Zpos (digits2_pos n) - 1)) by (apply Z.pow_le_mono_r; lia).
    rewrite pow2_53 in *. lia. }
  assert (Hpos : 0 < Zpos n * 2 ^ (53 - Zpos (digits2_pos n))).
  { apply Z.mul_pos_pos; [lia|]. apply Z.pow_pos_nonneg; lia. }
  exists (Z.to_pos (Zpos n * 2 ^ (53 - Zpos (digits2_pos n)))).
  rewrite Z2Pos.id by exact Hpos. split; [reflexivity|]. split; [|exact Hd].
  rewrite (digits2_pos_shift n _ (53 - Zpos (digits2_pos n))); [lia | lia |].
  rewrite Z2Pos.id by exact Hpos. reflexivity.
Qed.

(** The value [N * 2^(-e)] at exponent [e] normalises to the integer [N]. *)
Lemma binary_normalize_integer (N : positive) (e : Z) :
  Zpos N < 9007199254740992 -> -1074 <= e <= 0 ->
  binary_normalize 53 1024 (Zpos N * 2 ^ (- e)) e false = ofZ (Zpos N).
Proof.
  intros HN He.
  destruct (canonical_integer N HN) as (q & Hq & Hdq & Hd).
  set (c := Zpos (digits2_pos N) - 53) in *.
  assert (Hofz : ofZ (Zpos N) = S754_finite false q c).
  { unfold ofZ, binary_normalize, prec, emax.
    apply binary_round_exact; [exact Hdq | unfold c; lia |].
    left. split; [unfold c; lia|].
    rewrite Hq. f_equal. f_equal. unfold c. lia. }
  rewrite Hofz.
  assert (Hpe : 0 < 2 ^ (- e)) by (apply Z.pow_pos_nonneg; lia).
  destruct (Zpos N * 2 ^ (- e)) as [|S|S] eqn:ES; [lia| |lia].
  unfold binary_normalize.
  apply binary_round_exact; [exact Hdq | unfold c; lia |].
  destruct (Z_le_gt_dec c e) as [Hce | Hce].
  - left. split; [exact Hce|].
    rewrite Hq, <- ES, <- Z.mul_assoc, <- Z.pow_add_r by lia.
    f_equal. f_equal. unfold c. lia.
  - right. split; [lia|].
    rewrite Hq, <- ES, <- Z.mul_assoc, <- Z.pow_add_r by (unfold c; lia).
    f_equal. f_equal. unfold c. lia.
Qed.
Lemma ofZ_canonical (n : positive) :
  Zpos n < 9007199254740992 ->
  exists q : positive,
    Zpos q = Zpos n * 2 ^ (53 - Zpos (digits2_pos n)) /\
    1 <= Zpos (digits2_pos n) <= 53 /\
    ofZ (Zpos n) = S754_finite false q (Zpos (digits2_pos n) - 53).
Proof.
  intro Hn. destruct (canonical_integer n Hn) as (q & Hq & Hdq & Hd).
  exists q. split; [exact Hq|]. split; [exact Hd|].
  unfold ofZ, binary_normalize, prec, emax.
  apply binary_round_exact; [exact Hdq | lia |].
  left. split; [lia|]. rewrite Hq. f_equal. f_equal. lia.
Qed.

(** The sum of two integers is exact as long as it stays below 2^53. *)
Lemma add_ofZ (a b : Z) :
  0 <= a -> 0 <= b -> a + b < 9007199254740992 ->
  add (ofZ a) (ofZ b) = ofZ (a + b).
Proof.
  intros Ha Hb Hab.
  destruct a as [|pa|pa]; [|clear Ha|lia].
  { rewrite Z.add_0_l. change (ofZ 0) with (S754_zero false).
    destruct b as [|pb|pb]; [reflexivity| |lia].
    destruct (ofZ_canonical pb ltac:(lia)) as (q & _ & _ & ->). reflexivity. }
  destruct b as [|pb|pb]; [|clear Hb|lia].
  { rewrite Z.add_0_r. change (ofZ 0) with (S754_zero false).
    destruct (ofZ_canonical pa ltac:(lia)) as (q & _ & _ & ->). reflexivity. }
  destruct (ofZ_canonical pa ltac:(lia)) as (qa & Hqa & Hda & ->).
  destruct (ofZ_canonical pb ltac:(lia)) as (qb & Hqb & Hdb & ->).
  set (ca := Zpos (digits2_pos pa) - 53) in *.
  set (cb := Zpos (digits2_pos pb) - 53) in *.
  unfold add, SFadd, prec, emax, cond_Zopp.
  set (ez := Z.min ca cb).
  assert (Hez : ez <= ca /\ ez <= cb /\ -52 <= ez <= 0) by (unfold ez, ca, cb; lia).
  rewrite !shl_align_fst by lia.
  rewrite Hqa, Hqb.
  replace (53 - Zpos (digits2_pos pa)) with (- ca) by (unfold ca; lia).
  replace (53 - Zpos (digits2_pos pb)) with (- cb) by (unfold cb; lia).
  rewrite <- !Z.mul_assoc, <- !Z.pow_add_r by lia.
  replace (- ca + (ca - ez)) with (- ez) by lia.
  replace (- cb + (cb - ez)) with (- ez) by lia.
  rewrite <- Z.mul_add_distr_r.
  change (Zpos pa + Zpos pb) with (Zpos (pa + pb)).
  apply binary_normalize_integer; [|lia].
  rewrite Pos2Z.inj_add. exact Hab.
Qed.

(** Counting up by one is exact below 2^53: the increment [n++] of a
    counter that holds an integer gives the next integer. *)
Lemma increment_exact (n : Z) :
  0 <= n -> n + 1 < 9007199254740992 -> add (ofZ n) (ofZ 1) = ofZ (n + 1).
Proof. intros H0 H1. apply add_ofZ; lia. Qed.

Lemma finite_ltb (m1 m2 : positive) (e1 e2 : Z) :
  e1 < e2 \/ (e1 = e2 /\ Zpos m1 < Zpos m2) ->
  ltb (S754_finite false m1 e1) (S754_finite false m2 e2) = true.
Proof.
  intro H. unfold ltb, SFltb, SFcompare.
  destruct (Z.compare_spec e1 e2) as [E|E|E]; try reflexivity.
  - pose proof (Z.compare_spec (Zpos m1) (Zpos m2)) as Hc.
    unfold Z.compare, Pos.compare in Hc.
    destruct Hc; try reflexivity; lia.
  - lia.
Qed.

(** The order of the integers below 2^53 is the order of their numbers. *)
Lemma ltb_ofZ (a b : Z) :
  0 <= a -> a < b -> b < 9007199254740992 -> ltb (ofZ a) (ofZ b) = true.
Proof.
  intros Ha Hab Hb.
  destruct b as [|pb|pb]; try lia.
  destruct (ofZ_canonical pb Hb) as (qb & Hqb & Hdb & ->).
  destruct a as [|pa|pa]; [reflexivity| |lia].
  destruct (ofZ_canonical pa ltac:(lia)) as (qa & Hqa & Hda & ->).
  apply finite_ltb.
  pose proof (digits2_pos_bounds pa) as [Alo Ahi].
  pose proof (digits2_pos_bounds pb) as [Blo Bhi].
  destruct (Z.lt_trichotomy (Zpos (digits2_pos pa)) (Zpos (digits2_pos pb)))
    as [Hlt | [Heq | Hgt]].
  - left. lia.
  - right. split; [lia|]. rewrite Hqa, Hqb, Heq.
    apply Z.mul_lt_mono_pos_r; [apply Z.pow_pos_nonneg; lia | exact Hab].
  - exfalso.
    assert (2 ^ Zpos (digits2_pos pb) <= 2 ^ (Zpos (digits2_pos pa) - 1))
      by (apply Z.pow_le_mono_r; lia).
    lia.
Qed.

Lemma ofZ_not_nan (a : Z) : 0 <= a -> isNaN (ofZ a) = false.
Proof.
  intro Ha.
  destruct (binary_normalize_sign a 0 Ha) as [H | [(m & e & H) | H]];
    unfold ofZ, prec, emax; rewrite H; reflexivity.
Qed.

Lemma leb_ofZ (a b : Z) :
  0 <= a -> a <= b -> b < 9007199254740992 -> leb (ofZ a) (ofZ b) = true.
Proof.
  intros Ha Hab Hb. destruct (Z.eq_dec a b) as [<- | Hne].
  - apply leb_refl. apply ofZ_not_nan. exact Ha.
  - apply ltb_leb. apply ltb_ofZ; lia.
Qed.

(** The integers from 0 to 2^53 are numbers, and the numbers that hold
    them are well formed. *)
Lemma integerOf_ofZ (n : Z) :
  0 <= n <= 9007199254740992 -> integerOf (ofZ n) = Some n.
Proof.
  intro Hn.
  destruct (Z.eq_dec n 9007199254740992) as [-> | Hne]; [vm_compute; reflexivity|].
  destruct n as [|pn|pn]; [reflexivity| |lia].
  destruct (ofZ_canonical pn ltac:(lia)) as (q & Hq & Hd & ->).
  unfold integerOf, cond_Zopp.
  destruct (Z.leb_spec 0 (Zpos (digits2_pos pn) - 53)) as [Hle | Hlt].
  - replace (53 - Zpos (digits2_pos pn)) with 0 in Hq by lia.
    replace (Zpos (digits2_pos pn) - 53) with 0 by lia.
    rewrite Hq. change (2 ^ 0) with 1. rewrite !Z.mul_1_r. reflexivity.
  - replace (- (Zpos (digits2_pos pn) - 53)) with (53 - Zpos (digits2_pos pn)) by lia.
    assert (Hpos : 0 < 2 ^ (53 - Zpos (digits2_pos pn)))
      by (apply Z.pow_pos_nonneg; lia).
    rewrite Hq, Z.mod_mul, Z.div_mul by lia. reflexivity.
Qed.

Lemma wellFormed_ofZ (n : Z) :
  0 <= n <= 9007199254740992 -> wellFormed (ofZ n).
Proof.
  intro Hn. unfold wellFormed.
  destruct (Z.eq_dec n 9007199254740992) as [-> | Hne]; [vm_compute; reflexivity|].
  destruct n as [|pn|pn]; [reflexivity| |lia].
  destruct (ofZ_canonical pn ltac:(lia)) as (q & Hq & Hd & ->).
  assert (Hdq : Zpos (digits2_pos q) = 53).
  { rewrite (digits2_pos_shift pn q (53 - Zpos (digits2_pos pn))); [lia | lia | exact Hq]. }
  unfold valid_binary, bounded, canonical_mantissa, prec, emax.
  rewrite Hdq. unfold fexp, emin.
  apply andb_true_intro. split.
  - apply Z.eqb_eq. lia.
  - apply Z.leb_le. lia.
Qed.

(** A well-formed number that holds an integer from 0 to 2^53 - 1 is the
    number of that integer, or -0. *)
Lemma integerOf_unique (x : number) (n : Z) :
  wellFormed x -> integerOf x = Some n -> 0 <= n < 9007199254740992 ->
  x = ofZ n \/ (x = S754_zero true /\ n = 0).
Proof.
  intros Hv Hi Hn. destruct x as [s|s| |s m e]; try discriminate Hi.
  - injection Hi as <-. destruct s; [right; split; reflexivity | left; reflexivity].
  - left.
    unfold wellFormed, valid_binary, bounded, canonical_mantissa, prec, emax in Hv.
    apply andb_prop in Hv. destruct Hv as [Hc _].
    apply Z.eqb_eq in Hc. unfold fexp, emin in Hc.
    pose proof (digits2_pos_bounds m) as [Blo Bhi].
    unfold integerOf in Hi.
    destruct (Z.leb_spec 0 e) as [He | He].
    + injection Hi as Hi.
      assert (Hd : Zpos (digits2_pos m) = 53) by lia.
      rewrite Hd in Blo. change (2 ^ (53 - 1)) with 4503599627370496 in Blo.
      assert (Hpe : 0 < 2 ^ e) by (apply Z.pow_pos_nonneg; lia).
      destruct s; unfold cond_Zopp in Hi.
      * exfalso. clear Hc Bhi. nia.
      * assert (He0 : e = 0).
        { destruct (Z.eq_dec e 0) as [E | E]; [exact E | exfalso].
          assert (2 ^ 1 <= 2 ^ e) by (apply Z.pow_le_mono_r; lia).
          change (2 ^ 1) with 2 in *. clear Hc Bhi. nia. }
        subst e. change (2 ^ 0) with 1 in Hi. rewrite Z.mul_1_r in Hi. subst n.
        destruct (ofZ_canonical m ltac:(lia)) as (q & Hq & _ & ->).
        rewrite Hd in *. change (2 ^ (53 - 53)) with 1 in Hq. rewrite Z.mul_1_r in Hq.
        apply Pos2Z.inj in Hq. subst q. reflexivity.
    + assert (Hpe : 0 < 2 ^ (- e)) by (apply Z.pow_pos_nonneg; lia).
      destruct (Z.eqb_spec (Zpos m mod 2 ^ (- e)) 0) as [Hmod | Hmod];
        [|discriminate Hi].
      injection Hi as Hi.
      pose proof (Z.div_mod (Zpos m) (2 ^ (- e)) ltac:(lia)) as Hdm.
      rewrite Hmod, Z.add_0_r in Hdm.
      set (k := Zpos m / 2 ^ (- e)) in *.
      assert (Hk : 0 < k) by (clear Hc Blo Bhi Hmod; nia).
      destruct s; unfold cond_Zopp in Hi; [exfalso; lia|].
      subst n. destruct k as [|pk|pk] eqn:Ek; [lia| |lia].
      assert (Hm : Zpos m = Zpos pk * 2 ^ (- e)) by (rewrite Hdm; apply Z.mul_comm).
      pose proof (digits2_pos_shift pk m (- e) ltac:(lia) Hm) as Hdig.
      pose proof (digits2_pos_bounds pk) as [Klo Khi].
      assert (Hd1 : 1 <= Zpos (digits2_pos pk)) by lia.
      assert (Hee : e = Zpos (digits2_pos pk) - 53) by lia.
      destruct (ofZ_canonical pk ltac:(lia)) as (q & Hq & _ & ->).
      replace (53 - Zpos (digits2_pos pk)) with (- e) in Hq by lia.
      rewrite <- Hm in Hq. apply Pos2Z.inj in Hq. subst q.
      rewrite <- Hee. reflexivity.
Qed.

(** The increment [x++] of a counter that holds an integer from 0 to
    2^53 - 1 gives the number of the next integer. *)
Lemma increment_integer (x : number) (n : Z) :
  wellFormed x -> integerOf x = Some n -> 0 <= n < 9007199254740992 ->
  add x (ofZ 1) = ofZ (n + 1).
Proof.
  intros Hv Hi Hn.
  destruct (integerOf_unique x n Hv Hi Hn) as [-> | [-> ->]]; [|reflexivity].
  destruct (Z.eq_dec n 9007199254740991) as [-> | Hne]; [vm_compute; reflexivity|].
  apply increment_exact; lia.
Qed.

(** What is read back from JSON for the number of an integer from 0 to
    2^53 is that number. *)
Lemma jsonNumber_ofZ (n : Z) :
  0 <= n <= 9007199254740992 -> jsonNumber (ofZ n) = Num (ofZ n).
Proof.
  intro Hn.
  destruct (Z.eq_dec n 9007199254740992) as [-> | Hne]; [vm_compute; reflexivity|].
  destruct n as [|pn|pn]; [reflexivity| |lia].
  destruct (ofZ_canonical pn ltac:(lia)) as (q & _ & _ & ->). reflexivity.
Qed.
End IntegerFacts.

(** ** The spaced-repetition scheduler *)

Module SchedulerFacts.
Local Open Scope Z_scope.
Import NumberFacts OrderFacts EaseFacts IntegerFacts.

Lemma timestamp_cases (now : number) :
  timestamp now ->
  now = S754_zero false \/ (exists m e, now = S754_finite false m e) \/
  now = S754_infinity false.
Proof.
  intros (n & Hn & ->). unfold ofZ, prec, emax. apply binary_normalize_sign. exact Hn.
Qed.


Lemma timestamp_nonneg (now : number) : timestamp now -> leb (ofZ 0) now = true.
Proof.
  intro H. destruct (timestamp_cases now H) as [-> | [(m & e & ->) | ->]]; reflexivity.
Qed.

Lemma add_tenth_not_nan (x : number) :
  isNaN x = false -> isNaN (add x (decimal 1 10)) = false.
Proof.
  intro Hx.
  assert (H : add x (decimal 1 10) <> S754_nan).
  { unfold add, prec, emax. apply SFadd_not_nan.
    - intros ->. discriminate Hx.
    - rewrite decimal_1_10. exact I. }
  destruct (add x (decimal 1 10)); try reflexivity. congruence.
Qed.

Lemma sub_fifth_not_nan (x : number) :
  isNaN x = false -> isNaN (sub x (decimal 2 10)) = false.
Proof.
  intro Hx.
  assert (H : sub x (decimal 2 10) <> S754_nan).
  { unfold sub, prec, emax. apply SFsub_not_nan.
    - intros ->. discriminate Hx.
    - rewrite decimal_2_10. exact I. }
  destruct (sub x (decimal 2 10)); try reflexivity. congruence.
Qed.

Lemma recordOutcome_ease_in_range (p : Progress) (isCorrect : bool)
      (nowReview nowSchedule : number) :
  easeInRange (ToNumber (ease p)) ->
  easeInRange (ToNumber (ease (recordOutcome p isCorrect nowReview nowSchedule))).
Proof.
  intro H. destruct isCorrect; simpl ease; simpl ToNumber.
  - apply ease_after_correct. exact H.
  - apply ease_after_incorrect. exact H.
Qed.

Lemma filter_due (st : storage) (now : number) (id : vocabId) :
  In id (getWordsForReview st now) <->
  In id (getWordBank st) /\
  leb (ToNumber (match lookup (getProgress st) id with
                 | Some p => nextReview p
                 | None => Num (ofZ 0)
                 end)) now = true.
Proof. unfold getWordsForReview. apply filter_In. Qed.

(** The increment of a counter that holds an integer from 0 to 2^53 - 1:
    the new counter is well formed and holds the next integer. *)
Lemma counter_incremented (v : value) (n : Z) :
  wellFormed (ToNumber v) -> integerOf (ToNumber v) = Some n ->
  0 <= n < 9007199254740992 ->
  add (ToNumber v) (ofZ 1) = ofZ (n + 1) /\
  wellFormed (ofZ (n + 1)) /\ integerOf (ofZ (n + 1)) = Some (n + 1).
Proof.
  intros Hv Hi Hn. split; [|split].
  - apply increment_integer; assumption.
  - apply wellFormed_ofZ. lia.
  - apply integerOf_ofZ. lia.
Qed.
End SchedulerFacts.

Module SchedulerClaims.
Local Open Scope Z_scope.
Import NumberFacts OrderFacts EaseFacts IntegerFacts SchedulerFacts.

(** C1, as the specification states it, fails: [correct++] adds 1 to a
    binary64 number, and a counter that holds 2^53 holds 2^53 again after a
    correct answer. *)
Lemma counter_not_incremented_at_2_53 :
  ~ (forall (p : Progress) (nowReview nowSchedule : number) (c i : Z),
        wellFormed (ToNumber (correct p)) -> wellFormed (ToNumber (incorrect p)) ->
        integerOf (ToNumber (correct p)) = Some c ->
        integerOf (ToNumber (incorrect p)) = Some i ->
        (integerOf (ToNumber (correct (recordOutcome p true nowReview nowSchedule)))
         = Some (c + 1) /\
         incorrect (recordOutcome p true nowReview nowSchedule) = incorrect p /\
         ease (recordOutcome p true nowReview nowSchedule)
         = Num (min (decimal 25 10) (add (ToNumber (ease p)) (decimal 1 10)))) /\
        (integerOf (ToNumber (incorrect (recordOutcome p false nowReview nowSchedule)))
         = Some (i + 1) /\
         correct (recordOutcome p false nowReview nowSchedule) = correct p /\
         ease (recordOutcome p false nowReview nowSchedule)
         = Num (max (decimal 13 10) (sub (ToNumber (ease p)) (decimal 2 10))))).
Proof.
  intro H.
  specialize (H {| correct := Num (ofZ 9007199254740992); incorrect := Num (ofZ 0);
                   lastReview := Null; nextReview := Num (ofZ 0);
                   ease := Num (decimal 25 10) |}
                (ofZ 0) (ofZ 0) 9007199254740992 0).
  assert (H1 : wellFormed (ofZ 9007199254740992)) by (vm_compute; reflexivity).
  assert (H2 : wellFormed (ofZ 0)) by (vm_compute; reflexivity).
  assert (H3 : integerOf (ofZ 9007199254740992) = Some 9007199254740992)
    by (vm_compute; reflexivity).
  assert (H4 : integerOf (ofZ 0) = Some 0) by (vm_compute; reflexivity).
  destruct (H H1 H2 H3 H4) as [[Hc _] _].
  vm_compute in Hc. discriminate Hc.
Qed.

(** C1, amended.  For counters that hold integers from 0 to 2^53 - 1, a
    correct answer adds one to [correct], leaves [incorrect] alone and sets
    the ease to [Math.min(2.5, ease + 0.1)]; a wrong answer adds one to
    [incorrect], leaves [correct] alone and sets the ease to
    [Math.max(1.3, ease - 0.2)]. *)
Theorem recordOutcome_counters_and_ease
        (p : Progress) (nowReview nowSchedule : number) (c i : Z) :
  wellFormed (ToNumber (correct p)) -> wellFormed (ToNumber (incorrect p)) ->
  integerOf (ToNumber (correct p)) = Some c ->
  integerOf (ToNumber (incorrect p)) = Some i ->
  0 <= c < 9007199254740992 -> 0 <= i < 9007199254740992 ->
  (integerOf (ToNumber (correct (recordOutcome p true nowReview nowSchedule)))
   = Some (c + 1) /\
   wellFormed (ToNumber (correct (recordOutcome p true nowReview nowSchedule))) /\
   incorrect (recordOutcome p true nowReview nowSchedule) = incorrect p /\
   ease (recordOutcome p true nowReview nowSchedule)
   = Num (min (decimal 25 10) (add (ToNumber (ease p)) (decimal 1 10)))) /\
  (integerOf (ToNumber (incorrect (recordOutcome p false nowReview nowSchedule)))
   = Some (i + 1) /\
   wellFormed (ToNumber (incorrect (recordOutcome p false nowReview nowSchedule))) /\
   correct (recordOutcome p false nowReview nowSchedule) = correct p /\
   ease (recordOutcome p false nowReview nowSchedule)
   = Num (max (decimal 13 10) (sub (ToNumber (ease p)) (decimal 2 10)))).
Proof.
  intros Hvc Hvi Hc Hi Hcb Hib.
  destruct (counter_incremented (correct p) c Hvc Hc Hcb) as (Ec & Wc & Ic).
  destruct (counter_incremented (incorrect p) i Hvi Hi Hib) as (Ei & Wi & Ii).
  split.
  - change (ToNumber (correct (recordOutcome p true nowReview nowSchedule)))
      with (add (ToNumber (correct p)) (ofZ 1)).
    rewrite Ec.
    split; [exact Ic|]. split; [exact Wc|]. split; reflexivity.
  - change (ToNumber (incorrect (recordOutcome p false nowReview nowSchedule)))
      with (add (ToNumber (incorrect p)) (ofZ 1)).
    rewrite Ei.
    split; [exact Ii|]. split; [exact Wi|]. split; reflexivity.
Qed.

Lemma recordOutcome_counters_and_ease_witness :
  integerOf (ToNumber (correct (recordOutcome
                                  {| correct := Num (ofZ 4); incorrect := Null;
                                     lastReview := Null; nextReview := Num (ofZ 0);
                                     ease := Num (decimal 25 10) |}
                                  true (ofZ 0) (ofZ 0)))) = Some 5.
Proof.
  exact (proj1 (proj1 (recordOutcome_counters_and_ease
                         {| correct := Num (ofZ 4); incorrect := Null;
                            lastReview := Null; nextReview := Num (ofZ 0);
                            ease := Num (decimal 25 10) |}
                         (ofZ 0) (ofZ 0) 4 0
                         eq_refl eq_refl eq_refl eq_refl
                         ltac:(lia) ltac:(lia)))).
Defined.

(** C2.  [lastReview] is the clock read for the review, [nextReview] the
    clock read for the schedule plus [Math.ceil] of the updated ease in
    days; when the ease before the update lies in the interval from 1.3 to
    2.5, that ceiling is 2 or 3 and [nextReview] is two or three days
    (172800000 or 259200000 milliseconds) after the clock. *)
Theorem recordOutcome_schedule
        (p : Progress) (isCorrect : bool) (nowReview nowSchedule : number) :
  lastReview (recordOutcome p isCorrect nowReview nowSchedule) = Num nowReview /\
  nextReview (recordOutcome p isCorrect nowReview nowSchedule)
  = Num (add nowSchedule
             (daysToMs (ceil (ToNumber (ease (recordOutcome p isCorrect
                                                            nowReview nowSchedule)))))) /\
  (easeInRange (ToNumber (ease p)) ->
   (ceil (ToNumber (ease (recordOutcome p isCorrect nowReview nowSchedule))) = ofZ 2 \/
    ceil (ToNumber (ease (recordOutcome p isCorrect nowReview nowSchedule))) = ofZ 3) /\
   (nextReview (recordOutcome p isCorrect nowReview nowSchedule)
    = Num (add nowSchedule (ofZ 172800000)) \/
    nextReview (recordOutcome p isCorrect nowReview nowSchedule)
    = Num (add nowSchedule (ofZ 259200000)))).
Proof.
  split; [reflexivity|]. split; [reflexivity|].
  intro Hp.
  pose proof (recordOutcome_ease_in_range p isCorrect nowReview nowSchedule Hp) as Hr.
  pose proof (ceil_ease _ Hr) as Hc.
  split; [exact Hc|].
  change (nextReview (recordOutcome p isCorrect nowReview nowSchedule))
    with (Num (add nowSchedule
                   (daysToMs (ceil (ToNumber (ease (recordOutcome p isCorrect
                                                                  nowReview nowSchedule))))))).
  destruct Hc as [-> | ->].
  - left. rewrite daysToMs_2. reflexivity.
  - right. rewrite daysToMs_3. reflexivity.
Qed.

Lemma recordOutcome_schedule_witness :
  easeInRange (decimal 25 10) /\
  (ceil (ToNumber (ease (recordOutcome (freshProgress (ofZ 1700000000000)) false
                                       (ofZ 1700000000000) (ofZ 1700000000000))))
   = ofZ 2 \/
   ceil (ToNumber (ease (recordOutcome (freshProgress (ofZ 1700000000000)) false
                                       (ofZ 1700000000000) (ofZ 1700000000000))))
   = ofZ 3).
Proof.
  assert (H : easeInRange (decimal 25 10)).
  { repeat split; vm_compute; reflexivity. }
  split; [exact H|].
  exact (proj1 (proj2 (proj2 (recordOutcome_schedule
                                (freshProgress (ofZ 1700000000000)) false
                                (ofZ 1700000000000) (ofZ 1700000000000))) H)).
Defined.

(** C6.  An ease in the interval from 1.3 to 2.5 stays in the interval
    through every sequence of updates: correct answers never raise it above
    2.5 and wrong answers never lower it below 1.3. *)
Theorem ease_stays_in_range (p : Progress) (answers : list answer) :
  easeInRange (ToNumber (ease p)) ->
  easeInRange (ToNumber (ease (recordOutcomes p answers))).
Proof.
  revert p. induction answers as [|[b [t1 t2]] rest IH]; intros p Hp.
  - exact Hp.
  - unfold recordOutcomes. simpl fold_left.
    apply IH. apply recordOutcome_ease_in_range. exact Hp.
Qed.

Lemma ease_stays_in_range_witness :
  easeInRange (decimal 25 10) /\
  easeInRange
    (ToNumber
       (ease (recordOutcomes (freshProgress (ofZ 1700000000000))
                             [ (false, (ofZ 1700000000000, ofZ 1700000000000));
                               (true, (ofZ 1700000060000, ofZ 1700000060000));
                               (true, (ofZ 1700000120000, ofZ 1700000120000)) ]))).
Proof.
  assert (H : easeInRange (decimal 25 10)).
  { repeat split; vm_compute; reflexivity. }
  split; [exact H|].
  exact (ease_stays_in_range (freshProgress (ofZ 1700000000000)) _ H).
Defined.

(** C7, as the specification states it, fails: a stored ease of 0.5 is
    below the interval, and after a correct answer the ease is 0.6, still
    below 1.3. *)
Lemma out_of_range_ease_not_recovered :
  ~ (forall (p : Progress) (isCorrect : bool) (nowReview nowSchedule : number),
        wellFormed (ToNumber (ease p)) ->
        leb (decimal 13 10) (ToNumber (ease p)) = false \/
        leb (ToNumber (ease p)) (decimal 25 10) = false ->
        easeInRange (ToNumber (ease (recordOutcome p isCorrect nowReview nowSchedule)))).
Proof.
  intro H.
  specialize (H {| correct := Num (ofZ 0); incorrect := Num (ofZ 0);
                   lastReview := Null; nextReview := Num (ofZ 0);
                   ease := Num (decimal 5 10) |}
                true (ofZ 0) (ofZ 0)).
  assert (Hwf : wellFormed (decimal 5 10)) by (vm_compute; reflexivity).
  assert (Hout : leb (decimal 13 10) (decimal 5 10) = false) by (vm_compute; reflexivity).
  destruct (H Hwf (or_introl Hout)) as (_ & Hlo & _).
  vm_compute in Hlo. discriminate Hlo.
Qed.

(** C7, amended.  Each update clamps the ease on one side: whatever number
    is stored, the ease after a correct answer is at most 2.5 and the ease
    after a wrong answer is at least 1.3. *)
Theorem ease_clamped_on_one_side
        (p : Progress) (nowReview nowSchedule : number) :
  isNaN (ToNumber (ease p)) = false ->
  leb (ToNumber (ease (recordOutcome p true nowReview nowSchedule)))
      (decimal 25 10) = true /\
  leb (decimal 13 10)
      (ToNumber (ease (recordOutcome p false nowReview nowSchedule))) = true.
Proof.
  intro Hp. simpl ease. simpl ToNumber. split.
  - apply min_leb_l.
    + rewrite decimal_25_10. reflexivity.
    + apply add_tenth_not_nan. exact Hp.
  - apply max_geb_l.
    + rewrite decimal_13_10. reflexivity.
    + apply sub_fifth_not_nan. exact Hp.
Qed.

Lemma ease_clamped_on_one_side_witness :
  isNaN (ofZ 7) = false /\
  leb (ToNumber
         (ease (recordOutcome
                  {| correct := Num (ofZ 4); incorrect := Num (ofZ 1);
                     lastReview := Null; nextReview := Num (ofZ 0);
                     ease := Num (ofZ 7) |}
                  true (ofZ 0) (ofZ 0)))) (decimal 25 10) = true /\
  leb (decimal 13 10)
      (ToNumber
         (ease (recordOutcome
                  {| correct := Num (ofZ 4); incorrect := Num (ofZ 1);
                     lastReview := Null; nextReview := Num (ofZ 0);
                     ease := Num (ofZ 7) |}
                  false (ofZ 0) (ofZ 0)))) = true.
Proof.
  assert (H : isNaN (ofZ 7) = false) by (vm_compute; reflexivity).
  split; [exact H|].
  exact (ease_clamped_on_one_side
           {| correct := Num (ofZ 4); incorrect := Num (ofZ 1);
              lastReview := Null; nextReview := Num (ofZ 0);
              ease := Num (ofZ 7) |} (ofZ 0) (ofZ 0) H).
Defined.



(** C10.  The identifiers returned for review are identifiers of the word
    bank: a record that is due is not returned when its identifier is not in
    the word bank. *)
Theorem getWordsForReview_within_word_bank
        (st : storage) (now : number) (id : vocabId) :
  (In id (getWordsForReview st now) -> In id (getWordBank st)) /\
  (forall p, lookup (getProgress st) id = Some p ->
             leb (ToNumber (nextReview p)) now = true ->
             ~ In id (getWordBank st) -> ~ In id (getWordsForReview st now)).
Proof.
  split.
  - intro H. apply filter_due in H. tauto.
  - intros p _ _ Hout Hin. apply filter_due in Hin. tauto.
Qed.

Lemma getWordsForReview_within_word_bank_witness :
  lookup (getProgress {| wordBankItem := Some [3];
                         vocabProgressItem :=
                           Some [(9, freshProgress (ofZ 1700000000000))] |}) 9
  = Some (freshProgress (ofZ 1700000000000)) /\
  leb (ToNumber (nextReview (freshProgress (ofZ 1700000000000))))
      (ofZ 1700000000001) = true /\
  ~ In 9 (getWordBank {| wordBankItem := Some [3];
                         vocabProgressItem :=
                           Some [(9, freshProgress (ofZ 1700000000000))] |}) /\
  ~ In 9 (getWordsForReview
            {| wordBankItem := Some [3];
               vocabProgressItem :=
                 Some [(9, freshProgress (ofZ 1700000000000))] |}
            (ofZ 1700000000001)).
Proof.
  assert (Hout : ~ In 9 (getWordBank
                           {| wordBankItem := Some [3];
                              vocabProgressItem :=
                                Some [(9, freshProgress (ofZ 1700000000000))] |})).
  { simpl. intros [H | []]. discriminate H. }
  assert (Hdue : leb (ToNumber (nextReview (freshProgress (ofZ 1700000000000))))
                     (ofZ 1700000000001) = true) by (vm_compute; reflexivity).
  split; [reflexivity|]. split; [exact Hdue|]. split; [exact Hout|].
  exact (proj2 (getWordsForReview_within_word_bank
                  {| wordBankItem := Some [3];
                     vocabProgressItem :=
                       Some [(9, freshProgress (ofZ 1700000000000))] |}
                  (ofZ 1700000000001) 9)
               (freshProgress (ofZ 1700000000000)) eq_refl Hdue Hout).
Defined.
End SchedulerClaims.

(** ** Strings *)

Module StringFacts.

Lemma lowerChar_idem (c : ascii) : lowerChar (lowerChar c) = lowerChar c.
Proof.
  destruct c as [b0 b1 b2 b3 b4 b5 b6 b7].
  destruct b0, b1, b2, b3, b4, b5, b6, b7; reflexivity.
Qed.

Lemma toLowerCase_idem (s : string) : toLowerCase (toLowerCase s) = toLowerCase s.
Proof.
  induction s as [|c s IH]; simpl; [reflexivity|].
  rewrite lowerChar_idem, IH. reflexivity.
Qed.

Lemma toLowerCase_length (s : string) :
  String.length (toLowerCase s) = String.length s.
Proof.
  induction s as [|c s IH]; simpl; [reflexivity|]. rewrite IH. reflexivity.
Qed.

(** A lower-cased string that is a name inherited from Object.prototype has
    at least nine code units: the shorter names hold an upper-case letter. *)
Lemma inherited_lower_length (s : string) :
  inherited (toLowerCase s) = true -> 9 <= String.length s.
Proof.
  intro H. unfold inherited in H. apply existsb_exists in H.
  destruct H as (k & Hin & Hk). apply String.eqb_eq in Hk.
  pose proof (toLowerCase_length s) as Hl.
  pose proof (toLowerCase_idem s) as Hi.
  rewrite Hk in Hl, Hi. unfold objectPrototypeKeys in Hin. simpl in Hin.
  repeat (destruct Hin as [<- | Hin];
          [ first [ simpl in Hl; lia | vm_compute in Hi; discriminate Hi ] | ]).
  contradiction.
Qed.
End StringFacts.

(** ** The conjugation engine *)

Module ConjugationClaims.
Import StringFacts.

(** C3.  For every entry [(w, (p, pp))] of the table of irregular verbs,
    [getVerbForms w] has [v1 = w], [v2 = p], [v3 = pp] and the type
    [irregular]. *)
Theorem getVerbForms_irregular_entry (w p pp : string) :
  In (w, (p, pp)) irregularVerbs ->
  getVerbForms w = {| v1 := w; v2 := Str p; v3 := Str pp; type := irregular |}.
Proof.
  intro H. vm_compute in H.
  repeat (destruct H as [H | H];
          [ injection H as <- <- <-; vm_compute; reflexivity | ]).
  contradiction.
Qed.

Lemma getVerbForms_irregular_entry_witness :
  In ("write", ("wrote", "written")) irregularVerbs /\
  getVerbForms "write"
  = {| v1 := "write"; v2 := Str "wrote"; v3 := Str "written"; type := irregular |}.
Proof.
  assert (H : In ("write", ("wrote", "written")) irregularVerbs).
  { vm_compute. do 15 right. left. reflexivity. }
  split; [exact H|].
  exact (getVerbForms_irregular_entry "write" "wrote" "written" H).
Defined.

(** C4 on the name "constructor".  It is not a key of the table of
    irregular verbs, and yet no suffix rule is applied to it: the table
    inherits a property of that name, the test of the table succeeds, and
    the past form is [undefined] where the rules give "constructorred". *)
Theorem getVerbForms_constructor_past :
  own irregularVerbs (toLowerCase "constructor") = None /\
  matchVowelConsonant (toLowerCase "constructor") = true /\
  v2 (getVerbForms "constructor") = Undefined /\
  v2 (getVerbForms "constructor") <> Str "constructorred".
Proof.
  repeat split; try (vm_compute; reflexivity). vm_compute. discriminate.
Qed.

(** C5 on the name "constructor".  It is not a key of the table of
    irregular verbs, and the result has the type [irregular] with a past
    form and a participle that are [undefined], not strings. *)
Theorem getVerbForms_constructor_type :
  own irregularVerbs (toLowerCase "constructor") = None /\
  getVerbForms "constructor"
  = {| v1 := "constructor"; v2 := Undefined; v3 := Undefined; type := irregular |}.
Proof. split; vm_compute; reflexivity. Qed.
End ConjugationClaims.

(** ** The level classifier *)

Module LevelClaims.
Import StringFacts.

(** C9.  A word that is not in the frequency table and matches none of the
    three word lists nor the complex prefixes and suffixes gets its level
    from its length: beginner up to 4, intermediate up to 8, advanced
    beyond; so length 3 is beginner, length 6 intermediate and length 15
    advanced. *)
Theorem determineLevel_length_fallback (verb : string) :
  own wordFrequency (toLowerCase verb) = None ->
  matchesBeginner (toLowerCase verb) = false ->
  matchesIntermediate (toLowerCase verb) = false ->
  matchesAdvanced (toLowerCase verb) = false ->
  matchesComplex (toLowerCase verb) = false ->
  determineLevel verb
  = (if (String.length verb <=? 4)%nat then beginner
     else if (String.length verb <=? 8)%nat then intermediate
     else advanced) /\
  (String.length verb = 3 -> determineLevel verb = beginner) /\
  (String.length verb = 6 -> determineLevel verb = intermediate) /\
  (String.length verb = 15 -> determineLevel verb = advanced).
Proof.
  intros Hown Hb Hi Ha Hc.
  assert (H : determineLevel verb
              = (if (String.length verb <=? 4)%nat then beginner
                 else if (String.length verb <=? 8)%nat then intermediate
                 else advanced)).
  { unfold determineLevel, get. rewrite Hown.
    destruct (inherited (toLowerCase verb)) eqn:Einh.
    - pose proof (inherited_lower_length verb Einh) as Hlen.
      destruct (Nat.leb_spec (String.length verb) 4); [lia|].
      destruct (Nat.leb_spec (String.length verb) 8); [lia|]. reflexivity.
    - rewrite Hb, Hi, Ha, Hc. reflexivity. }
  split; [exact H|].
  repeat split; intro Hlen; rewrite H, Hlen; reflexivity.
Qed.

Lemma determineLevel_length_fallback_witness :
  own wordFrequency (toLowerCase "Jog") = None /\
  matchesBeginner (toLowerCase "Jog") = false /\
  matchesIntermediate (toLowerCase "Jog") = false /\
  matchesAdvanced (toLowerCase "Jog") = false /\
  matchesComplex (toLowerCase "Jog") = false /\
  determineLevel "Jog" = beginner.
Proof.
  assert (H1 : own wordFrequency (toLowerCase "Jog") = None) by (vm_compute; reflexivity).
  assert (H2 : matchesBeginner (toLowerCase "Jog") = false) by (vm_compute; reflexivity).
  assert (H3 : matchesIntermediate (toLowerCase "Jog") = false) by (vm_compute; reflexivity).
  assert (H4 : matchesAdvanced (toLowerCase "Jog") = false) by (vm_compute; reflexivity).
  assert (H5 : matchesComplex (toLowerCase "Jog") = false) by (vm_compute; reflexivity).
  repeat (split; [assumption|]).
  exact (proj1 (proj2 (determineLevel_length_fallback "Jog" H1 H2 H3 H4 H5)) eq_refl).
Defined.
End LevelClaims.

(** ** The suffix tests of the conjugation engine *)

Module SuffixFacts.
Import StringFacts.

Lemma append_nil_r (s : string) : s ++ "" = s.
Proof. induction s as [|c s IH]; simpl; [reflexivity|]. rewrite IH. reflexivity. Qed.

Lemma append_assoc (s t u : string) : (s ++ t) ++ u = s ++ (t ++ u).
Proof. induction s as [|c s IH]; simpl; [reflexivity|]. rewrite IH. reflexivity. Qed.

Lemma length_append (s t : string) :
  String.length (s ++ t) = String.length s + String.length t.
Proof. induction s as [|c s IH]; simpl; [reflexivity|]. rewrite IH. reflexivity. Qed.

Lemma substring_all (s : string) : substring 0 (String.length s) s = s.
Proof. induction s as [|c s IH]; simpl; [reflexivity|]. rewrite IH. reflexivity. Qed.

Lemma substring_prefix (p t : string) : substring 0 (String.length p) (p ++ t) = p.
Proof.
  induction p as [|c p IH]; simpl.
  - destruct t; reflexivity.
  - rewrite IH. reflexivity.
Qed.

Lemma substring_suffix (p t : string) :
  substring (String.length p) (String.length t) (p ++ t) = t.
Proof. induction p as [|c p IH]; simpl; [apply substring_all | exact IH]. Qed.

Lemma substring_split (s : string) (k : nat) :
  k <= String.length s ->
  substring 0 k s ++ substring k (String.length s - k) s = s.
Proof.
  revert k. induction s as [|c s IH]; intros k Hk.
  - destruct k; reflexivity.
  - destruct k as [|k].
    + simpl. rewrite substring_all. reflexivity.
    + simpl in Hk |- *. rewrite IH by lia. reflexivity.
Qed.

Lemma endsWith_EndsIn (s t : string) : endsWith s t = true <-> EndsIn s t.
Proof.
  unfold endsWith, EndsIn. split.
  - intro H. apply andb_prop in H. destruct H as [Hle Heq].
    apply Nat.leb_le in Hle. apply String.eqb_eq in Heq.
    exists (substring 0 (String.length s - String.length t) s).
    pose proof (substring_split s (String.length s - String.length t)) as Hs.
    replace (String.length s - (String.length s - String.length t))
      with (String.length t) in Hs by lia.
    rewrite Heq in Hs. symmetry. apply Hs. lia.
  - intros (p & ->). rewrite length_append.
    apply andb_true_intro. split.
    + apply Nat.leb_le. lia.
    + replace (String.length p + String.length t - String.length t)
        with (String.length p) by lia.
      rewrite substring_suffix. apply String.eqb_refl.
Qed.

Lemma lastTwo_append (q : string) (a b : ascii) :
  lastTwo (q ++ String a (String b "")) = Some (a, b).
Proof.
  induction q as [|c q IH]; [reflexivity|].
  simpl append. simpl lastTwo. rewrite IH.
  destruct q as [|d q]; [reflexivity|].
  simpl. destruct (q ++ String a (String b "")) eqn:E; [|reflexivity].
  destruct q; discriminate E.
Qed.

Lemma lastTwo_inv (s : string) (a b : ascii) :
  lastTwo s = Some (a, b) -> exists q, s = q ++ String a (String b "").
Proof.
  induction s as [|c s IH]; [discriminate|].
  simpl. destruct s as [|d s]; [discriminate|].
  destruct s as [|e s].
  - intro H. injection H as <- <-. exists "". reflexivity.
  - intro H. destruct (IH H) as (q & Hq). exists (String c q).
    simpl. rewrite Hq. reflexivity.
Qed.

Lemma sliceInit_append (p : string) (c : ascii) : sliceInit (p ++ String c "") = p.
Proof.
  unfold sliceInit. rewrite length_append. simpl String.length.
  replace (String.length p + 1 - 1) with (String.length p) by lia.
  apply substring_prefix.
Qed.

Lemma sliceLast_append (p : string) (c : ascii) :
  sliceLast (p ++ String c "") = String c "".
Proof.
  unfold sliceLast. rewrite length_append. simpl String.length.
  replace (String.length p + 1 - 1) with (String.length p) by lia.
  apply (substring_suffix p (String c "")).
Qed.

Lemma append_inj_r (p q : string) (a b : ascii) :
  p ++ String a "" = q ++ String b "" -> p = q /\ a = b.
Proof.
  revert q. induction p as [|c p IH]; intros q H.
  - destruct q as [|d q]; simpl in H.
    + injection H as ->. split; reflexivity.
    + injection H as _ H. destruct q; discriminate H.
  - destruct q as [|d q]; simpl in H.
    + injection H as _ H. destruct p; discriminate H.
    + injection H as -> H. destruct (IH q H) as [-> ->]. split; reflexivity.
Qed.

Lemma matchConsonantY_spec (s : string) :
  matchConsonantY s = true <-> exists p, EndsInConsonantY s p.
Proof.
  unfold matchConsonantY, EndsInConsonantY. split.
  - destruct (lastTwo s) as [[a b]|] eqn:E; [|discriminate].
    intro H. apply andb_prop in H. destruct H as [Ha Hb].
    apply Ascii.eqb_eq in Hb. subst b.
    destruct (lastTwo_inv s a "y" E) as (q & ->).
    exists (q ++ String a ""), q, a. split; [reflexivity|].
    split; [rewrite append_assoc; reflexivity|].
    destruct (isVowel a); [discriminate Ha | reflexivity].
  - intros (p & q & c & -> & -> & Hc).
    rewrite append_assoc. simpl append. rewrite lastTwo_append, Hc. reflexivity.
Qed.

Lemma matchVowelConsonant_spec (s : string) :
  matchVowelConsonant s = true <-> exists c, EndsInVowelConsonant s c.
Proof.
  unfold matchVowelConsonant, EndsInVowelConsonant. split.
  - destruct (lastTwo s) as [[a b]|] eqn:E; [|discriminate].
    intro H. apply andb_prop in H. destruct H as [Ha Hb].
    destruct (lastTwo_inv s a b E) as (q & ->).
    exists b, q, a. split; [reflexivity|]. split; [exact Ha|].
    destruct (isVowel b); [discriminate Hb | reflexivity].
  - intros (c & q & v & -> & Hv & Hc).
    rewrite lastTwo_append, Hv, Hc. reflexivity.
Qed.
End SuffixFacts.

Module ConjugationFacts.
Import StringFacts SuffixFacts.

(** The regular branch: the past form as [getVerbForms] computes it. *)
Lemma getVerbForms_regular (verb : string) :
  own irregularVerbs (toLowerCase verb) = None ->
  inherited (toLowerCase verb) = false ->
  exists past,
    getVerbForms verb
    = {| v1 := toLowerCase verb; v2 := Str past; v3 := Str past; type := common |} /\
    past = (if endsWith (toLowerCase verb) "e" then toLowerCase verb ++ "d"
            else if matchConsonantY (toLowerCase verb)
                 then sliceInit (toLowerCase verb) ++ "ied"
            else if matchVowelConsonant (toLowerCase verb)
                 then toLowerCase verb ++ sliceLast (toLowerCase verb) ++ "ed"
            else toLowerCase verb ++ "ed").
Proof.
  intros Hown Hinh. eexists. split; [|reflexivity].
  unfold getVerbForms, get. rewrite Hown, Hinh. reflexivity.
Qed.

(** X1.  The suffix rules of the regular verbs, in their order of precedence:
    a base in e takes d; otherwise a base in a non-vowel and y loses the y
    and takes ied; otherwise a base in a vowel and a non-vowel doubles the
    last letter and takes ed; otherwise the base takes ed. *)
Theorem getVerbForms_regular_rules (verb : string) :
  own irregularVerbs (toLowerCase verb) = None ->
  inherited (toLowerCase verb) = false ->
  (EndsIn (toLowerCase verb) "e" ->
   v2 (getVerbForms verb) = Str (toLowerCase verb ++ "d")) /\
  (~ EndsIn (toLowerCase verb) "e" ->
   forall p, EndsInConsonantY (toLowerCase verb) p ->
             v2 (getVerbForms verb) = Str (p ++ "ied")) /\
  (~ EndsIn (toLowerCase verb) "e" ->
   (forall p, ~ EndsInConsonantY (toLowerCase verb) p) ->
   forall c, EndsInVowelConsonant (toLowerCase verb) c ->
             v2 (getVerbForms verb) = Str (toLowerCase verb ++ String c "ed")) /\
  (~ EndsIn (toLowerCase verb) "e" ->
   (forall p, ~ EndsInConsonantY (toLowerCase verb) p) ->
   (forall c, ~ EndsInVowelConsonant (toLowerCase verb) c) ->
   v2 (getVerbForms verb) = Str (toLowerCase verb ++ "ed")).
Proof.
  intros Hown Hinh.
  destruct (getVerbForms_regular verb Hown Hinh) as (past & -> & Hpast).
  simpl v2. subst past.
  set (base := toLowerCase verb).
  assert (HnotE : ~ EndsIn base "e" -> endsWith base "e" = false).
  { intro H. destruct (endsWith base "e") eqn:E; [|reflexivity].
    exfalso. apply H. apply endsWith_EndsIn. exact E. }
  assert (HnotY : (forall p, ~ EndsInConsonantY base p) -> matchConsonantY base = false).
  { intro H. destruct (matchConsonantY base) eqn:E; [|reflexivity].
    exfalso. apply matchConsonantY_spec in E. destruct E as (p & Hp).
    exact (H p Hp). }
  assert (HnotV : (forall c, ~ EndsInVowelConsonant base c) ->
                  matchVowelConsonant base = false).
  { intro H. destruct (matchVowelConsonant base) eqn:E; [|reflexivity].
    exfalso. apply matchVowelConsonant_spec in E. destruct E as (c & Hc).
    exact (H c Hc). }
  split; [|split; [|split]].
  - intro He. apply endsWith_EndsIn in He. rewrite He. reflexivity.
  - intros Hne p Hp. rewrite (HnotE Hne).
    assert (Hy : matchConsonantY base = true)
      by (apply matchConsonantY_spec; exists p; exact Hp).
    rewrite Hy. destruct Hp as (q & c & Hq & Hs & _).
    rewrite Hs. change "y" with (String "y"%char ""). rewrite sliceInit_append.
    reflexivity.
  - intros Hne Hny c Hc. rewrite (HnotE Hne), (HnotY Hny).
    assert (Hv : matchVowelConsonant base = true)
      by (apply matchVowelConsonant_spec; exists c; exact Hc).
    rewrite Hv. destruct Hc as (q & v & Hs & _).
    rewrite Hs at 2.
    replace (q ++ String v (String c "")) with ((q ++ String v "") ++ String c "")
      by (rewrite append_assoc; reflexivity).
    rewrite sliceLast_append. reflexivity.
  - intros Hne Hny Hnv. rewrite (HnotE Hne), (HnotY Hny), (HnotV Hnv). reflexivity.
Qed.

Lemma getVerbForms_regular_rules_witness :
  own irregularVerbs (toLowerCase "Try") = None /\
  inherited (toLowerCase "Try") = false /\
  ~ EndsIn (toLowerCase "Try") "e" /\
  EndsInConsonantY (toLowerCase "Try") "tr" /\
  v2 (getVerbForms "Try") = Str ("tr" ++ "ied").
Proof.
  assert (H1 : own irregularVerbs (toLowerCase "Try") = None) by (vm_compute; reflexivity).
  assert (H2 : inherited (toLowerCase "Try") = false) by (vm_compute; reflexivity).
  assert (H3 : ~ EndsIn (toLowerCase "Try") "e").
  { intro H. apply endsWith_EndsIn in H. vm_compute in H. discriminate H. }
  assert (H4 : EndsInConsonantY (toLowerCase "Try") "tr").
  { exists "t", "r"%char. repeat split. }
  repeat (split; [assumption|]).
  exact (proj1 (proj2 (getVerbForms_regular_rules "Try" H1 H2)) H3 "tr" H4).
Defined.
Lemma append_not_empty (s t : string) : t <> "" -> s ++ t <> "".
Proof. intro Ht. destruct s; simpl; [exact Ht | discriminate]. Qed.

Lemma regular_past_shape (base : string) :
  exists stem,
    (if endsWith base "e" then base ++ "d"
     else if matchConsonantY base then sliceInit base ++ "ied"
     else if matchVowelConsonant base then base ++ sliceLast base ++ "ed"
     else base ++ "ed") = stem ++ "ed".
Proof.
  destruct (endsWith base "e") eqn:He.
  - apply endsWith_EndsIn in He. destruct He as (p & ->).
    exists p. rewrite append_assoc. reflexivity.
  - destruct (matchConsonantY base).
    + exists (sliceInit base ++ "i"). rewrite append_assoc. reflexivity.
    + destruct (matchVowelConsonant base).
      * exists (base ++ sliceLast base). rewrite append_assoc. reflexivity.
      * exists base. reflexivity.
Qed.

(** The entries of the table of irregular verbs hold non-empty forms. *)
Lemma irregularVerbs_not_empty (k : string) (entry : string * string) :
  own irregularVerbs k = Some entry -> fst entry <> "" /\ snd entry <> "".
Proof.
  assert (H : forallb (fun kv => negb (String.eqb (fst (snd kv)) "")
                                 && negb (String.eqb (snd (snd kv)) ""))
                      irregularVerbs = true) by (vm_compute; reflexivity).
  rewrite forallb_forall in H.
  intro Hk.
  assert (Hin : In (k, entry) irregularVerbs \/ exists k', In (k', entry) irregularVerbs).
  { right. revert Hk. generalize irregularVerbs as o.
    induction o as [|[k' a] o IH]; simpl; [discriminate|].
    destruct (String.eqb k k').
    - intro Hs. injection Hs as ->. exists k'. left. reflexivity.
    - intro Hs. destruct (IH Hs) as (k'' & Hin). exists k''. right. exact Hin. }
  destruct Hin as [Hin | (k' & Hin)]; apply H in Hin; simpl in Hin;
    apply andb_prop in Hin; destruct Hin as [H1 H2];
    apply negb_true_iff in H1, H2; apply String.eqb_neq in H1, H2; split; assumption.
Qed.

(** X2.  Unless the lower-cased verb is a name inherited from Object.prototype,
    the past form and the participle are non-empty strings; for a verb that
    is not in the table of irregular verbs the type is [common], the
    participle is the past form, and the past form ends in ed. *)
Theorem getVerbForms_forms (verb : string) :
  inherited (toLowerCase verb) = false ->
  exists past participle,
    v1 (getVerbForms verb) = toLowerCase verb /\
    v2 (getVerbForms verb) = Str past /\
    v3 (getVerbForms verb) = Str participle /\
    past <> "" /\ participle <> "" /\
    (own irregularVerbs (toLowerCase verb) = None ->
     type (getVerbForms verb) = common /\ participle = past /\ EndsIn past "ed") /\
    (own irregularVerbs (toLowerCase verb) <> None ->
     type (getVerbForms verb) = irregular).
Proof.
  intro Hinh.
  destruct (own irregularVerbs (toLowerCase verb)) as [entry|] eqn:Hown.
  - exists (fst entry), (snd entry).
    unfold getVerbForms, get. rewrite Hown. simpl.
    destruct (irregularVerbs_not_empty _ _ Hown) as [H1 H2].
    split; [reflexivity|]. split; [reflexivity|]. split; [reflexivity|].
    split; [exact H1|]. split; [exact H2|]. split.
    + intro H. discriminate H.
    + intros _. reflexivity.
  - destruct (getVerbForms_regular verb Hown Hinh) as (past & Heq & Hpast).
    exists past, past. rewrite Heq. simpl.
    destruct (regular_past_shape (toLowerCase verb)) as (stem & Hstem).
    rewrite <- Hpast in Hstem.
    assert (Hne : past <> "").
    { rewrite Hstem. apply append_not_empty. discriminate. }
    split; [reflexivity|]. split; [reflexivity|]. split; [reflexivity|].
    split; [exact Hne|]. split; [exact Hne|]. split.
    + intros _. split; [reflexivity|]. split; [reflexivity|].
      exists stem. exact Hstem.
    + intro H. contradiction.
Qed.

Lemma getVerbForms_forms_witness :
  inherited (toLowerCase "Walk") = false /\
  exists past participle,
    v1 (getVerbForms "Walk") = toLowerCase "Walk" /\
    v2 (getVerbForms "Walk") = Str past /\
    v3 (getVerbForms "Walk") = Str participle /\
    past <> "" /\ participle <> "" /\
    (own irregularVerbs (toLowerCase "Walk") = None ->
     type (getVerbForms "Walk") = common /\ participle = past /\ EndsIn past "ed") /\
    (own irregularVerbs (toLowerCase "Walk") <> None ->
     type (getVerbForms "Walk") = irregular).
Proof.
  assert (H : inherited (toLowerCase "Walk") = false) by (vm_compute; reflexivity).
  split; [exact H|].
  exact (getVerbForms_forms "Walk" H).
Defined.

(** X3.  [getVerbForms] does not depend on the case of its argument, and the
    base form it returns is in lower case. *)
Theorem getVerbForms_case_insensitive (verb : string) :
  getVerbForms (toLowerCase verb) = getVerbForms verb /\
  toLowerCase (v1 (getVerbForms verb)) = v1 (getVerbForms verb).
Proof.
  split.
  - unfold getVerbForms. rewrite toLowerCase_idem. reflexivity.
  - unfold getVerbForms.
    destruct (get irregularVerbs (toLowerCase verb)); simpl; apply toLowerCase_idem.
Qed.
End ConjugationFacts.

(** ** Updates of the stored progress *)

Module ProgressFacts.
Local Open Scope Z_scope.
Import NumberFacts OrderFacts EaseFacts SchedulerFacts IntegerFacts.

Lemma lookup_store_same (progress : progressTable) (id : vocabId) (p : Progress) :
  lookup (store progress id p) id = Some p.
Proof.
  induction progress as [|[k q] rest IH]; simpl.
  - rewrite Z.eqb_refl. reflexivity.
  - destruct (id =? k) eqn:E; simpl; rewrite E; [reflexivity | exact IH].
Qed.

Lemma lookup_store_other (progress : progressTable) (id other : vocabId)
      (p : Progress) :
  other <> id -> lookup (store progress id p) other = lookup progress other.
Proof.
  intro Hne. induction progress as [|[k q] rest IH]; simpl.
  - destruct (Z.eqb_spec other id); [contradiction | reflexivity].
  - destruct (Z.eqb_spec id k) as [-> | Hk]; simpl.
    + destruct (Z.eqb_spec other k); [contradiction | reflexivity].
    + destruct (other =? k); [reflexivity | exact IH].
Qed.

(** Reading a table back from JSON reads each of its records back. *)
Lemma lookup_jsonTable (progress : progressTable) (id : vocabId) :
  lookup (jsonTable progress) id = option_map jsonProgress (lookup progress id).
Proof.
  induction progress as [|[k q] rest IH]; simpl; [reflexivity|].
  destruct (id =? k); [reflexivity | exact IH].
Qed.

Lemma getProgress_updateProgress
      (st : storage) (id : vocabId) (isCorrect : bool) (c : clock) :
  getProgress (fst (updateProgress st id isCorrect c))
  = jsonTable (store (getProgress st) id (snd (updateProgress st id isCorrect c))).
Proof. reflexivity. Qed.

Lemma stored_updateProgress
      (st : storage) (id : vocabId) (isCorrect : bool) (c : clock) :
  lookup (getProgress (fst (updateProgress st id isCorrect c))) id
  = Some (jsonProgress (snd (updateProgress st id isCorrect c))).
Proof.
  rewrite getProgress_updateProgress, lookup_jsonTable, lookup_store_same.
  reflexivity.
Qed.

Lemma updateProgress_result
      (st : storage) (id : vocabId) (isCorrect : bool) (c : clock) :
  snd (updateProgress st id isCorrect c)
  = recordOutcome (getVocabProgress st id (nowCreate c)) isCorrect
                  (nowReview c) (nowSchedule c).
Proof. reflexivity. Qed.

(** With an ease in the interval, the next review is two or three days
    after the clock read for the schedule. *)
Lemma nextReview_two_or_three_days
      (p : Progress) (isCorrect : bool) (nowReview nowSchedule : number) :
  easeInRange (ToNumber (ease p)) ->
  nextReview (recordOutcome p isCorrect nowReview nowSchedule)
  = Num (add nowSchedule (ofZ 172800000)) \/
  nextReview (recordOutcome p isCorrect nowReview nowSchedule)
  = Num (add nowSchedule (ofZ 259200000)).
Proof.
  intro Hp.
  pose proof (recordOutcome_ease_in_range p isCorrect nowReview nowSchedule Hp) as Hr.
  change (nextReview (recordOutcome p isCorrect nowReview nowSchedule))
    with (Num (add nowSchedule
                   (daysToMs (ceil (ToNumber (ease (recordOutcome p isCorrect
                                                                  nowReview nowSchedule))))))).
  destruct (ceil_ease _ Hr) as [-> | ->].
  - left. rewrite daysToMs_2. reflexivity.
  - right. rewrite daysToMs_3. reflexivity.
Qed.

(** With an ease in the interval and an integer clock, the next review is
    the number of an integer. *)
Lemma nextReview_integer
      (p : Progress) (isCorrect : bool) (nowReview : number) (scheduled : Z) :
  easeInRange (ToNumber (ease p)) -> clockInteger scheduled ->
  nextReview (recordOutcome p isCorrect nowReview (ofZ scheduled))
  = Num (ofZ (scheduled + 172800000)) \/
  nextReview (recordOutcome p isCorrect nowReview (ofZ scheduled))
  = Num (ofZ (scheduled + 259200000)).
Proof.
  intros Hp [Hn0 Hn].
  destruct (nextReview_two_or_three_days p isCorrect nowReview (ofZ scheduled) Hp)
    as [-> | ->]; [left | right]; f_equal; apply add_ofZ; lia.
Qed.

(** A number of the ease interval is read back from JSON as it was
    written. *)
Lemma jsonNumber_ease (x : number) : easeInRange x -> jsonNumber x = Num x.
Proof.
  intro Hx. destruct (easeInRange_shape x Hx) as (m & e & -> & _). reflexivity.
Qed.

(** The update of a kept record at integer clocks is read back from JSON
    as it was written. *)
Lemma recordOutcome_read_back
      (p : Progress) (isCorrect : bool) (reviewed scheduled : Z) :
  keptRecord p -> 0 <= reviewed <= 9007199254740992 -> clockInteger scheduled ->
  jsonProgress (recordOutcome p isCorrect (ofZ reviewed) (ofZ scheduled))
  = recordOutcome p isCorrect (ofZ reviewed) (ofZ scheduled).
Proof.
  intros (Hjson & Hease & (c & Hvc & Hc & Hcb) & (i & Hvi & Hi & Hib)) Hrev Hclock.
  pose proof (recordOutcome_ease_in_range p isCorrect (ofZ reviewed) (ofZ scheduled)
                                          Hease) as Hr.
  pose proof (nextReview_integer p isCorrect (ofZ reviewed) scheduled Hease Hclock)
    as Hnext.
  destruct (counter_incremented (correct p) c Hvc Hc Hcb) as (Ec & _ & _).
  destruct (counter_incremented (incorrect p) i Hvi Hi Hib) as (Ei & _ & _).
  assert (Jc : jsonValue (correct p) = correct p)
    by (exact (f_equal correct Hjson)).
  assert (Ji : jsonValue (incorrect p) = incorrect p)
    by (exact (f_equal incorrect Hjson)).
  unfold clockInteger in Hclock.
  set (r := recordOutcome p isCorrect (ofZ reviewed) (ofZ scheduled)) in *.
  assert (Fc : jsonValue (correct r) = correct r).
  { unfold r. destruct isCorrect.
    - change (correct (recordOutcome p true (ofZ reviewed) (ofZ scheduled)))
        with (Num (add (ToNumber (correct p)) (ofZ 1))).
      rewrite Ec. apply jsonNumber_ofZ. lia.
    - exact Jc. }
  assert (Fi : jsonValue (incorrect r) = incorrect r).
  { unfold r. destruct isCorrect.
    - exact Ji.
    - change (incorrect (recordOutcome p false (ofZ reviewed) (ofZ scheduled)))
        with (Num (add (ToNumber (incorrect p)) (ofZ 1))).
      rewrite Ei. apply jsonNumber_ofZ. lia. }
  assert (Fl : jsonValue (lastReview r) = lastReview r)
    by (apply jsonNumber_ofZ; lia).
  assert (Fn : jsonValue (nextReview r) = nextReview r)
    by (destruct Hnext as [-> | ->]; apply jsonNumber_ofZ; lia).
  assert (Fe : jsonValue (ease r) = ease r).
  { change (ease r) with (Num (ToNumber (ease r))).
    apply jsonNumber_ease. exact Hr. }
  unfold jsonProgress. rewrite Fc, Fi, Fl, Fn, Fe. destruct r; reflexivity.
Qed.

(** X8.  [updateProgress] stores under the identifier the record it returns
    as JSON reads it back, with [null] for a number that is NaN or infinite
    and 0 for -0, and [getVocabProgress] then returns that stored record;
    the records of the other identifiers are read back in the same way and
    the word bank is left as it was.  For a kept record and integer clocks
    nothing is lost: [getVocabProgress] returns the record that
    [updateProgress] returned. *)
Theorem updateProgress_stores_result
        (st : storage) (id : vocabId) (isCorrect : bool) (c : clock) :
  lookup (getProgress (fst (updateProgress st id isCorrect c))) id
  = Some (jsonProgress (snd (updateProgress st id isCorrect c))) /\
  (forall other, other <> id ->
     lookup (getProgress (fst (updateProgress st id isCorrect c))) other
     = option_map jsonProgress (lookup (getProgress st) other)) /\
  getWordBank (fst (updateProgress st id isCorrect c)) = getWordBank st /\
  (forall now, getVocabProgress (fst (updateProgress st id isCorrect c)) id now
               = jsonProgress (snd (updateProgress st id isCorrect c))) /\
  (forall reviewed scheduled,
     keptRecord (getVocabProgress st id (nowCreate c)) ->
     nowReview c = ofZ reviewed -> 0 <= reviewed <= 9007199254740992 ->
     nowSchedule c = ofZ scheduled -> clockInteger scheduled ->
     forall now, getVocabProgress (fst (updateProgress st id isCorrect c)) id now
                 = snd (updateProgress st id isCorrect c)).
Proof.
  pose proof (stored_updateProgress st id isCorrect c) as Hs.
  split; [exact Hs|].
  split.
  { intros other Hne.
    rewrite getProgress_updateProgress, lookup_jsonTable, lookup_store_other
      by exact Hne.
    reflexivity. }
  split; [reflexivity|].
  split.
  { intro now. unfold getVocabProgress. rewrite Hs. reflexivity. }
  intros reviewed scheduled Hkept Hrev Hrb Hsch Hclock now.
  unfold getVocabProgress at 1. rewrite Hs.
  rewrite updateProgress_result, Hrev, Hsch.
  apply recordOutcome_read_back; assumption.
Qed.

Lemma updateProgress_stores_result_witness :
  getVocabProgress
    (fst (updateProgress {| wordBankItem := Some [4]; vocabProgressItem := None |}
                         4 true
                         {| nowCreate := ofZ 1700000000000;
                            nowReview := ofZ 1700000000001;
                            nowSchedule := ofZ 1700000000002 |}))
    4 (ofZ 1700000000003)
  = snd (updateProgress {| wordBankItem := Some [4]; vocabProgressItem := None |}
                        4 true
                        {| nowCreate := ofZ 1700000000000;
                           nowReview := ofZ 1700000000001;
                           nowSchedule := ofZ 1700000000002 |}).
Proof.
  refine (proj2 (proj2 (proj2 (proj2
            (updateProgress_stores_result
               {| wordBankItem := Some [4]; vocabProgressItem := None |} 4 true
               {| nowCreate := ofZ 1700000000000;
                  nowReview := ofZ 1700000000001;
                  nowSchedule := ofZ 1700000000002 |}))))
          1700000000001 1700000000002 _ _ _ _ _ (ofZ 1700000000003)).
  - split; [reflexivity|]. split.
    + repeat split; vm_compute; reflexivity.
    + split; exists 0; (split; [reflexivity|]); (split; [reflexivity | lia]).
  - reflexivity.
  - lia.
  - reflexivity.
  - unfold clockInteger. lia.
Defined.

(** X9.  The first answer for an identifier without a record counts from zero
    and starts from the ease 2.5: the returned record has one answer in
    all, its ease is in the interval from 1.3 to 2.5, and the stored record
    has the same counters and the same ease. *)
Theorem updateProgress_first_answer
        (st : storage) (id : vocabId) (isCorrect : bool) (c : clock) :
  lookup (getProgress st) id = None ->
  correct (snd (updateProgress st id isCorrect c))
  = Num (ofZ (if isCorrect then 1 else 0)) /\
  incorrect (snd (updateProgress st id isCorrect c))
  = Num (ofZ (if isCorrect then 0 else 1)) /\
  easeInRange (ToNumber (ease (snd (updateProgress st id isCorrect c)))) /\
  (isCorrect = true ->
   ease (snd (updateProgress st id isCorrect c)) = Num (decimal 25 10)) /\
  exists stored,
    lookup (getProgress (fst (updateProgress st id isCorrect c))) id = Some stored /\
    correct stored = correct (snd (updateProgress st id isCorrect c)) /\
    incorrect stored = incorrect (snd (updateProgress st id isCorrect c)) /\
    ease stored = ease (snd (updateProgress st id isCorrect c)).
Proof.
  intro Hnone.
  pose proof (stored_updateProgress st id isCorrect c) as Hs.
  assert (Hr : snd (updateProgress st id isCorrect c)
               = recordOutcome (freshProgress (nowCreate c)) isCorrect
                               (nowReview c) (nowSchedule c)).
  { rewrite updateProgress_result. unfold getVocabProgress. rewrite Hnone.
    reflexivity. }
  rewrite Hs, Hr.
  assert (He : easeInRange
                 (ToNumber (ease (recordOutcome (freshProgress (nowCreate c)) isCorrect
                                                (nowReview c) (nowSchedule c)))))
    by (apply recordOutcome_ease_in_range; exact easeInRange_max).
  split; [destruct isCorrect; reflexivity|].
  split; [destruct isCorrect; reflexivity|].
  split; [exact He|].
  split; [intros ->; vm_compute; reflexivity|].
  eexists. split; [reflexivity|].
  split; [destruct isCorrect; reflexivity|].
  split; [destruct isCorrect; reflexivity|].
  change (jsonNumber
            (ToNumber (ease (recordOutcome (freshProgress (nowCreate c)) isCorrect
                                           (nowReview c) (nowSchedule c))))
          = Num (ToNumber (ease (recordOutcome (freshProgress (nowCreate c)) isCorrect
                                               (nowReview c) (nowSchedule c))))).
  apply jsonNumber_ease. exact He.
Qed.

Lemma updateProgress_first_answer_witness :
  lookup (getProgress {| wordBankItem := Some [4]; vocabProgressItem := None |}) 4
  = None /\
  correct (snd (updateProgress {| wordBankItem := Some [4]; vocabProgressItem := None |}
                               4 false
                               {| nowCreate := ofZ 1700000000000;
                                  nowReview := ofZ 1700000000001;
                                  nowSchedule := ofZ 1700000000001 |}))
  = Num (ofZ 0).
Proof.
  split; [reflexivity|].
  exact (proj1 (updateProgress_first_answer
                  {| wordBankItem := Some [4]; vocabProgressItem := None |} 4 false
                  {| nowCreate := ofZ 1700000000000;
                     nowReview := ofZ 1700000000001;
                     nowSchedule := ofZ 1700000000001 |} eq_refl)).
Defined.

Lemma countOutcome_cons (b a : bool) (t : number * number) (rest : list answer) :
  countOutcome b ((a, t) :: rest)
  = (if Bool.eqb a b then 1 else 0) + countOutcome b rest.
Proof.
  unfold countOutcome. simpl filter.
  destruct (Bool.eqb a b); [|lia].
  simpl List.length. lia.
Qed.

Lemma countOutcome_nonneg (b : bool) (answers : list answer) :
  0 <= countOutcome b answers.
Proof. unfold countOutcome. lia. Qed.

(** X10.  Over a sequence of answers the two counters count the correct and
    the wrong answers, as long as they stay at or below 2^53: counters that
    hold the integers [c] and [i] hold [c] plus the number of correct
    answers and [i] plus the number of wrong answers afterwards, and
    together they grow by the number of answers. *)
Theorem recordOutcomes_counters (p : Progress) (answers : list answer) (c i : Z) :
  wellFormed (ToNumber (correct p)) -> wellFormed (ToNumber (incorrect p)) ->
  integerOf (ToNumber (correct p)) = Some c ->
  integerOf (ToNumber (incorrect p)) = Some i ->
  0 <= c -> 0 <= i ->
  c + countOutcome true answers <= 9007199254740992 ->
  i + countOutcome false answers <= 9007199254740992 ->
  integerOf (ToNumber (correct (recordOutcomes p answers)))
  = Some (c + countOutcome true answers) /\
  integerOf (ToNumber (incorrect (recordOutcomes p answers)))
  = Some (i + countOutcome false answers) /\
  c + countOutcome true answers + (i + countOutcome false answers)
  = c + i + Z.of_nat (List.length answers).
Proof.
  revert p c i. induction answers as [|[b [t1 t2]] rest IH];
    intros p c i Hvc Hvi Hc Hi Hc0 Hi0 Hcb Hib.
  - unfold recordOutcomes, countOutcome. simpl fold_left. simpl filter.
    simpl List.length. rewrite !Z.add_0_r. split; [exact Hc|]. split; [exact Hi | lia].
  - rewrite !countOutcome_cons in *.
    pose proof (countOutcome_nonneg true rest) as Nt.
    pose proof (countOutcome_nonneg false rest) as Nf.
    unfold recordOutcomes in *. simpl fold_left.
    destruct b; simpl Bool.eqb in *; cbv iota in *.
    + destruct (counter_incremented (correct p) c Hvc Hc ltac:(lia)) as (Ec & Wc & Ic).
      specialize (IH (recordOutcome p true t1 t2) (c + 1) i).
      change (ToNumber (correct (recordOutcome p true t1 t2)))
        with (add (ToNumber (correct p)) (ofZ 1)) in IH.
      change (incorrect (recordOutcome p true t1 t2)) with (incorrect p) in IH.
      rewrite Ec in IH.
      destruct (IH Wc Hvi Ic Hi ltac:(lia) Hi0 ltac:(lia) ltac:(lia))
        as (H1 & H2 & H3).
      rewrite H1, H2. simpl List.length.
      split; [f_equal; lia|]. split; [f_equal; lia | lia].
    + destruct (counter_incremented (incorrect p) i Hvi Hi ltac:(lia)) as (Ei & Wi & Ii).
      specialize (IH (recordOutcome p false t1 t2) c (i + 1)).
      change (ToNumber (incorrect (recordOutcome p false t1 t2)))
        with (add (ToNumber (incorrect p)) (ofZ 1)) in IH.
      change (correct (recordOutcome p false t1 t2)) with (correct p) in IH.
      rewrite Ei in IH.
      destruct (IH Hvc Wi Hc Ii Hc0 ltac:(lia) ltac:(lia) ltac:(lia))
        as (H1 & H2 & H3).
      rewrite H1, H2. simpl List.length.
      split; [f_equal; lia|]. split; [f_equal; lia | lia].
Qed.

Lemma recordOutcomes_counters_witness :
  integerOf
    (ToNumber
       (correct (recordOutcomes (freshProgress (ofZ 1700000000000))
                                [ (true, (ofZ 1700000000000, ofZ 1700000000000));
                                  (false, (ofZ 1700000060000, ofZ 1700000060000));
                                  (true, (ofZ 1700000120000, ofZ 1700000120000)) ])))
  = Some (0 + countOutcome true
                [ (true, (ofZ 1700000000000, ofZ 1700000000000));
                  (false, (ofZ 1700000060000, ofZ 1700000060000));
                  (true, (ofZ 1700000120000, ofZ 1700000120000)) ]).
Proof.
  exact (proj1 (recordOutcomes_counters
                  (freshProgress (ofZ 1700000000000))
                  [ (true, (ofZ 1700000000000, ofZ 1700000000000));
                    (false, (ofZ 1700000060000, ofZ 1700000060000));
                    (true, (ofZ 1700000120000, ofZ 1700000120000)) ]
                  0 0 eq_refl eq_refl eq_refl eq_refl
                  ltac:(lia) ltac:(lia)
                  ltac:(vm_compute; discriminate) ltac:(vm_compute; discriminate))).
Defined.

(** X11.  With an ease in the interval and an integer clock, the next review is
    exactly two or three days after the clock, and not before the time
    recorded for the review when the clock did not go back. *)
Theorem recordOutcome_next_review_exact
        (p : Progress) (isCorrect : bool) (reviewed scheduled : Z) :
  easeInRange (ToNumber (ease p)) -> clockInteger scheduled ->
  0 <= reviewed <= scheduled ->
  (nextReview (recordOutcome p isCorrect (ofZ reviewed) (ofZ scheduled))
   = Num (ofZ (scheduled + 172800000)) \/
   nextReview (recordOutcome p isCorrect (ofZ reviewed) (ofZ scheduled))
   = Num (ofZ (scheduled + 259200000))) /\
  lastReview (recordOutcome p isCorrect (ofZ reviewed) (ofZ scheduled))
  = Num (ofZ reviewed) /\
  ltb (ofZ reviewed)
      (ToNumber (nextReview (recordOutcome p isCorrect (ofZ reviewed)
                                           (ofZ scheduled)))) = true.
Proof.
  intros Hp Hclock Hrev.
  pose proof (nextReview_integer p isCorrect (ofZ reviewed) scheduled Hp Hclock) as H.
  destruct Hclock as [Hn0 Hn].
  split; [exact H|]. split; [reflexivity|].
  destruct H as [-> | ->]; simpl ToNumber; apply ltb_ofZ; lia.
Qed.

Lemma recordOutcome_next_review_exact_witness :
  easeInRange (decimal 25 10) /\ clockInteger 1700000000000 /\
  0 <= 1700000000000 <= 1700000000000 /\
  ltb (ofZ 1700000000000)
      (ToNumber (nextReview (recordOutcome (freshProgress (ofZ 1700000000000)) true
                                           (ofZ 1700000000000) (ofZ 1700000000000))))
  = true.
Proof.
  assert (H1 : easeInRange (decimal 25 10)) by (repeat split; vm_compute; reflexivity).
  assert (H2 : clockInteger 1700000000000) by (unfold clockInteger; lia).
  assert (H3 : 0 <= 1700000000000 <= 1700000000000) by lia.
  split; [exact H1|]. split; [exact H2|]. split; [exact H3|].
  exact (proj2 (proj2 (recordOutcome_next_review_exact
                         (freshProgress (ofZ 1700000000000)) true
                         1700000000000 1700000000000 H1 H2 H3))).
Defined.

(** X12.  After an answer recorded at the integer clock [scheduled], the word is
    not offered for review at any clock less than two days later, and a
    word of the word bank is offered at every clock from three days later
    on. *)
Theorem reviewed_word_due_again
        (st : storage) (id : vocabId) (isCorrect : bool) (c : clock)
        (scheduled later : Z) :
  (forall p, lookup (getProgress st) id = Some p ->
             easeInRange (ToNumber (ease p))) ->
  nowSchedule c = ofZ scheduled -> clockInteger scheduled ->
  0 <= later < 9007199254740992 ->
  (later < scheduled + 172800000 ->
   ~ In id (getWordsForReview (fst (updateProgress st id isCorrect c)) (ofZ later))) /\
  (scheduled + 259200000 <= later -> In id (getWordBank st) ->
   In id (getWordsForReview (fst (updateProgress st id isCorrect c)) (ofZ later))).
Proof.
  intros Hease Hclock Hn Hlater.
  pose proof (stored_updateProgress st id isCorrect c) as Hstored.
  assert (Hbank : getWordBank (fst (updateProgress st id isCorrect c))
                  = getWordBank st) by reflexivity.
  set (st' := fst (updateProgress st id isCorrect c)) in *.
  set (r := snd (updateProgress st id isCorrect c)) in *.
  assert (Hnext : nextReview r = Num (ofZ (scheduled + 172800000)) \/
                  nextReview r = Num (ofZ (scheduled + 259200000))).
  { unfold r. rewrite updateProgress_result, Hclock.
    apply nextReview_integer; [|exact Hn].
    unfold getVocabProgress.
    destruct (lookup (getProgress st) id) as [p|] eqn:E.
    - apply Hease. reflexivity.
    - exact easeInRange_max. }
  unfold clockInteger in Hn.
  assert (Hread : nextReview (jsonProgress r) = nextReview r).
  { change (nextReview (jsonProgress r)) with (jsonValue (nextReview r)).
    destruct Hnext as [-> | ->]; apply jsonNumber_ofZ; lia. }
  split.
  - intros Hbefore Hin. apply filter_due in Hin. destruct Hin as [_ Hle].
    rewrite Hstored, Hread in Hle.
    assert (Hlt : ltb (ofZ later) (ToNumber (nextReview r)) = true)
      by (destruct Hnext as [-> | ->]; simpl ToNumber; apply ltb_ofZ; lia).
    rewrite (ltb_not_leb _ _ Hlt) in Hle. discriminate Hle.
  - intros Hafter Hin. apply filter_due. split; [rewrite Hbank; exact Hin|].
    rewrite Hstored, Hread.
    destruct Hnext as [-> | ->]; simpl ToNumber; apply leb_ofZ; lia.
Qed.

Lemma reviewed_word_due_again_witness :
  (forall p, lookup (getProgress {| wordBankItem := Some [4];
                                    vocabProgressItem := None |}) 4 = Some p ->
             easeInRange (ToNumber (ease p))) /\
  clockInteger 1700000000000 /\
  ~ In 4 (getWordsForReview
            (fst (updateProgress {| wordBankItem := Some [4];
                                    vocabProgressItem := None |} 4 true
                                 {| nowCreate := ofZ 1700000000000;
                                    nowReview := ofZ 1700000000000;
                                    nowSchedule := ofZ 1700000000000 |}))
            (ofZ 1700086400000)).
Proof.
  assert (H1 : forall p, lookup (getProgress {| wordBankItem := Some [4];
                                                vocabProgressItem := None |}) 4
                         = Some p -> easeInRange (ToNumber (ease p))).
  { intros p H. discriminate H. }
  assert (H2 : clockInteger 1700000000000) by (unfold clockInteger; lia).
  split; [exact H1|]. split; [exact H2|].
  apply (proj1 (reviewed_word_due_again
                  {| wordBankItem := Some [4]; vocabProgressItem := None |} 4 true
                  {| nowCreate := ofZ 1700000000000;
                     nowReview := ofZ 1700000000000;
                     nowSchedule := ofZ 1700000000000 |}
                  1700000000000 1700086400000 H1 eq_refl H2 ltac:(lia))).
  lia.
Defined.
End ProgressFacts.

(** ** The word bank and the favourites *)

Module WordBankFacts.
Local Open Scope Z_scope.
Import SchedulerFacts.

Lemma includes_In (l : list vocabId) (id : vocabId) :
  Scheduler.includes l id = true <-> In id l.
Proof.
  unfold Scheduler.includes. rewrite existsb_exists. split.
  - intros (x & Hin & Hx). apply Z.eqb_eq in Hx. subst x. exact Hin.
  - intro Hin. exists id. split; [exact Hin | apply Z.eqb_refl].
Qed.

Lemma includes_not_In (l : list vocabId) (id : vocabId) :
  Scheduler.includes l id = false <-> ~ In id l.
Proof.
  rewrite <- includes_In. destruct (Scheduler.includes l id).
  - split; [discriminate | intro H; exfalso; apply H; reflexivity].
  - split; [intros _ H; discriminate H | reflexivity].
Qed.

Lemma bool_eq_iff (a b : bool) : (a = true <-> b = true) -> a = b.
Proof. destruct a, b; intros [H1 H2]; try reflexivity; [symmetry|]; auto. Qed.

Lemma indexOf_None (l : list vocabId) (id : vocabId) :
  indexOf l id = None <-> ~ In id l.
Proof.
  induction l as [|x l IH]; simpl.
  - split; [intros _ H; exact H | reflexivity].
  - destruct (Z.eqb_spec x id) as [-> | Hne].
    + split; [discriminate | intro H; exfalso; apply H; left; reflexivity].
    + destruct (indexOf l id) as [i|].
      * split; [discriminate|]. intro H. exfalso.
        assert (Hn : ~ In id l) by (intro Hin; apply H; right; exact Hin).
        apply IH in Hn. discriminate Hn.
      * split; [|reflexivity].
        intros _ [H | H]; [contradiction | exact (proj1 IH eq_refl H)].
Qed.

(** [indexOf] finds the first occurrence, and [splice1] removes it. *)
Lemma indexOf_Some (l : list vocabId) (id : vocabId) (i : nat) :
  indexOf l id = Some i ->
  exists pre post,
    l = (pre ++ id :: post)%list /\ ~ In id pre /\
    splice1 l i = (pre ++ post)%list.
Proof.
  revert i. induction l as [|x l IH]; simpl; intros i H; [discriminate|].
  destruct (Z.eqb_spec x id) as [-> | Hne].
  - injection H as <-. exists [], l. split; [reflexivity|].
    split; [intros []|reflexivity].
  - destruct (indexOf l id) as [j|]; [|discriminate].
    injection H as <-. destruct (IH j eq_refl) as (pre & post & -> & Hpre & Hs).
    exists (x :: pre), post. split; [reflexivity|]. split.
    + intros [H | H]; [exact (Hne H) | exact (Hpre H)].
    + simpl. rewrite Hs. reflexivity.
Qed.

Lemma In_remove_middle (pre post : list vocabId) (id x : vocabId) :
  x <> id -> (In x (pre ++ post) <-> In x (pre ++ id :: post)).
Proof.
  intro Hne. rewrite !in_app_iff. simpl. split.
  - intros [H | H]; [left | right; right]; exact H.
  - intros [H | [H | H]]; [left; exact H | exfalso; apply Hne; symmetry; exact H
                            | right; exact H].
Qed.

(** The list after [toggle]-like removal or insertion of [id], as both
    [removeFromWordBank] and [toggleFavorite] compute it. *)
Lemma removal_membership (l : list vocabId) (id : vocabId) (i : nat) :
  indexOf l id = Some i ->
  (forall x, x <> id ->
     Scheduler.includes (splice1 l i) x = Scheduler.includes l x) /\
  (NoDup l -> Scheduler.includes (splice1 l i) id = false /\ NoDup (splice1 l i)) /\
  (forall x, count_occ Z.eq_dec (splice1 l i) x
             = if Z.eq_dec x id then pred (count_occ Z.eq_dec l x)
               else count_occ Z.eq_dec l x).
Proof.
  intro H. destruct (indexOf_Some l id i H) as (pre & post & -> & Hpre & ->).
  split; [|split].
  - intros x Hne. apply bool_eq_iff. rewrite !includes_In.
    apply In_remove_middle. exact Hne.
  - intro Hnd. split.
    + apply includes_not_In. apply NoDup_remove_2. exact Hnd.
    + apply NoDup_remove_1 with (a := id). exact Hnd.
  - intro x. rewrite !count_occ_app. simpl.
    destruct (Z.eq_dec x id) as [E | E].
    + subst x. destruct (Z.eq_dec id id) as [_ | N]; [|contradiction].
      rewrite Nat.add_succ_r. reflexivity.
    + destruct (Z.eq_dec id x) as [E' | _]; [|reflexivity].
      exfalso. apply E. symmetry. exact E'.
Qed.

Lemma insertion_membership (l : list vocabId) (id : vocabId) :
  ~ In id l ->
  Scheduler.includes (l ++ [id])%list id = true /\
  (forall x, x <> id -> Scheduler.includes (l ++ [id])%list x = Scheduler.includes l x) /\
  (NoDup l -> NoDup (l ++ [id])%list) /\
  indexOf (l ++ [id])%list id = Some (List.length l) /\
  splice1 (l ++ [id])%list (List.length l) = l.
Proof.
  intro Hout. split; [|split; [|split; [|split]]].
  - apply includes_In. apply in_or_app. right. left. reflexivity.
  - intros x Hne. apply bool_eq_iff. rewrite !includes_In, in_app_iff. simpl.
    split; [intros [H | [H | []]]; [exact H | exfalso; apply Hne; symmetry; exact H]
           | intro H; left; exact H].
  - intro Hnd. apply NoDup_app; [exact Hnd | constructor; [intros [] | constructor] |].
    intros x Hx [<- | []]. exact (Hout Hx).
  - induction l as [|x l IH]; simpl.
    + rewrite Z.eqb_refl. reflexivity.
    + destruct (Z.eqb_spec x id) as [-> | Hne].
      * exfalso. apply Hout. left. reflexivity.
      * rewrite IH; [reflexivity|]. intro Hin. apply Hout. right. exact Hin.
  - clear Hout. induction l as [|x l IH]; simpl; [reflexivity|].
    rewrite IH. reflexivity.
Qed.
Lemma getWordBank_saveWordBank (st : storage) (l : wordBankList) :
  getWordBank (saveWordBank st l) = l.
Proof. reflexivity. Qed.

(** X13.  [addToWordBank] answers whether the identifier was missing; after it
    the identifier is in the word bank, the other identifiers are in it as
    before, the progress records are untouched, a word bank without
    repetition stays without repetition, and a second call changes
    nothing. *)
Theorem addToWordBank_adds (st : storage) (id : vocabId) :
  snd (addToWordBank st id) = negb (isInWordBank st id) /\
  isInWordBank (fst (addToWordBank st id)) id = true /\
  (forall other, other <> id ->
     isInWordBank (fst (addToWordBank st id)) other = isInWordBank st other) /\
  getProgress (fst (addToWordBank st id)) = getProgress st /\
  (NoDup (getWordBank st) -> NoDup (getWordBank (fst (addToWordBank st id)))) /\
  addToWordBank (fst (addToWordBank st id)) id = (fst (addToWordBank st id), false).
Proof.
  unfold isInWordBank.
  destruct (Scheduler.includes (getWordBank st) id) eqn:E.
  - assert (Hadd : addToWordBank st id = (st, false))
      by (unfold addToWordBank; rewrite E; reflexivity).
    rewrite Hadd. simpl fst. simpl snd. rewrite Hadd.
    split; [reflexivity|]. split; [exact E|]. split; [reflexivity|].
    split; [reflexivity|]. split; [intro H; exact H | reflexivity].
  - assert (Hadd : addToWordBank st id
                   = (saveWordBank st (getWordBank st ++ [id])%list, true))
      by (unfold addToWordBank; rewrite E; reflexivity).
    rewrite Hadd. simpl fst. simpl snd.
    apply includes_not_In in E.
    destruct (insertion_membership (getWordBank st) id E) as (H1 & H2 & H3 & _).
    rewrite !getWordBank_saveWordBank.
    split; [reflexivity|]. split; [exact H1|]. split; [exact H2|].
    split; [reflexivity|]. split; [exact H3|].
    unfold addToWordBank. rewrite getWordBank_saveWordBank, H1. reflexivity.
Qed.



(** X15.  Adding an identifier that is not in the word bank and removing it again
    gives back the word bank. *)
Theorem addToWordBank_then_remove (st : storage) (id : vocabId) :
  isInWordBank st id = false ->
  getWordBank (fst (removeFromWordBank (fst (addToWordBank st id)) id))
  = getWordBank st.
Proof.
  unfold isInWordBank. intro E.
  unfold addToWordBank. rewrite E. simpl fst.
  apply includes_not_In in E.
  destruct (insertion_membership (getWordBank st) id E) as (_ & _ & _ & H4 & H5).
  unfold removeFromWordBank.
  change (getWordBank (saveWordBank st (getWordBank st ++ [id])%list))
    with (getWordBank st ++ [id])%list.
  rewrite H4. simpl fst.
  change (getWordBank (saveWordBank (saveWordBank st (getWordBank st ++ [id])%list)
                                    (splice1 (getWordBank st ++ [id])%list
                                             (List.length (getWordBank st)))))
    with (splice1 (getWordBank st ++ [id])%list (List.length (getWordBank st))).
  exact H5.
Qed.

Lemma addToWordBank_then_remove_witness :
  isInWordBank {| wordBankItem := Some [3; 9]; vocabProgressItem := None |} 7 = false /\
  getWordBank (fst (removeFromWordBank
                      (fst (addToWordBank
                              {| wordBankItem := Some [3; 9]; vocabProgressItem := None |}
                              7)) 7))
  = getWordBank {| wordBankItem := Some [3; 9]; vocabProgressItem := None |}.
Proof.
  split; [reflexivity|].
  exact (addToWordBank_then_remove
           {| wordBankItem := Some [3; 9]; vocabProgressItem := None |} 7 eq_refl).
Defined.

(** X16.  A word added to the word bank that has no progress record is offered
    for review at once, at every reading of the clock. *)
Theorem added_word_is_due (st : storage) (id : vocabId) (now : number) :
  lookup (getProgress st) id = None -> timestamp now ->
  In id (getWordsForReview (fst (addToWordBank st id)) now).
Proof.
  intros Hnone Hnow. apply filter_due. split.
  - apply includes_In.
    unfold addToWordBank.
    destruct (Scheduler.includes (getWordBank st) id) eqn:E; simpl; [exact E|].
    apply includes_not_In in E.
    exact (proj1 (insertion_membership (getWordBank st) id E)).
  - replace (getProgress (fst (addToWordBank st id))) with (getProgress st).
    + rewrite Hnone. apply timestamp_nonneg. exact Hnow.
    + unfold addToWordBank.
      destruct (negb (Scheduler.includes (getWordBank st) id)); reflexivity.
Qed.

Lemma added_word_is_due_witness :
  lookup (getProgress {| wordBankItem := None; vocabProgressItem := None |}) 5 = None /\
  timestamp (ofZ 1700000000000) /\
  In 5 (getWordsForReview
          (fst (addToWordBank {| wordBankItem := None; vocabProgressItem := None |} 5))
          (ofZ 1700000000000)).
Proof.
  assert (Hnow : timestamp (ofZ 1700000000000)).
  { exists 1700000000000. split; [lia | reflexivity]. }
  split; [reflexivity|]. split; [exact Hnow|].
  exact (added_word_is_due {| wordBankItem := None; vocabProgressItem := None |} 5
                           (ofZ 1700000000000) eq_refl Hnow).
Defined.

(** X17.  [toggleFavorite] answers whether the identifier is a favourite
    afterwards; the other identifiers stay as they were, and in a list
    without repetition the identifier changes side and the list stays
    without repetition. *)
Theorem toggleFavorite_toggles (item : option (list vocabId)) (id : vocabId) :
  snd (toggleFavorite item id) = negb (isFavorite item id) /\
  (forall other, other <> id ->
     isFavorite (fst (toggleFavorite item id)) other = isFavorite item other) /\
  (NoDup (getFavorites item) ->
   isFavorite (fst (toggleFavorite item id)) id = negb (isFavorite item id) /\
   NoDup (getFavorites (fst (toggleFavorite item id)))).
Proof.
  unfold toggleFavorite, isFavorite.
  destruct (indexOf (getFavorites item) id) as [i|] eqn:E; simpl.
  - destruct (removal_membership _ _ _ E) as (H1 & H2 & _).
    destruct (indexOf_Some _ _ _ E) as (pre & post & Hl & _ & _).
    assert (Hin : Scheduler.includes (getFavorites item) id = true).
    { apply includes_In. rewrite Hl. apply in_or_app. right. left. reflexivity. }
    rewrite Hin. simpl.
    split; [reflexivity|]. split; [exact H1 | exact H2].
  - apply indexOf_None in E.
    destruct (insertion_membership (getFavorites item) id E) as (H1 & H2 & H3 & _).
    assert (Hout : Scheduler.includes (getFavorites item) id = false)
      by (apply includes_not_In; exact E).
    rewrite Hout. simpl.
    split; [reflexivity|]. split; [exact H2|].
    intro Hnd. split; [exact H1 | exact (H3 Hnd)].
Qed.

Lemma toggleFavorite_toggles_witness :
  NoDup (getFavorites (Some [2; 5])) /\
  isFavorite (fst (toggleFavorite (Some [2; 5]) 5)) 5
  = negb (isFavorite (Some [2; 5]) 5).
Proof.
  assert (H : NoDup (getFavorites (Some [2; 5]))).
  { simpl. repeat constructor; simpl; intuition discriminate. }
  split; [exact H|].
  exact (proj1 (proj2 (proj2 (toggleFavorite_toggles (Some [2; 5]) 5)) H)).
Defined.
End WordBankFacts.

(** ** The level classifier on the frequency table *)

Module LevelFacts.
Local Open Scope Z_scope.
Import StringFacts.

Lemma determineLevel_lower (verb : string) :
  determineLevel (toLowerCase verb) = determineLevel verb.
Proof.
  unfold determineLevel. rewrite toLowerCase_idem, toLowerCase_length. reflexivity.
Qed.

Lemma rank_inj (a b : level) : rank a = rank b -> a = b.
Proof. destruct a, b; simpl; intro H; try reflexivity; discriminate H. Qed.

(** Every word of the frequency table gets the level of its score. *)
Lemma table_word_level (w : string) (f : Z) :
  In (w, f) wordFrequency ->
  determineLevel w = (if 50 <=? f then beginner
                      else if 20 <=? f then intermediate else advanced).
Proof.
  assert (H : forallb
                (fun kv =>
                   Nat.eqb (rank (determineLevel (fst kv)))
                           (rank (if 50 <=? snd kv then beginner
                                  else if 20 <=? snd kv then intermediate
                                  else advanced)))
                wordFrequency = true) by (vm_compute; reflexivity).
  rewrite forallb_forall in H. intro Hin.
  apply rank_inj. apply Nat.eqb_eq. exact (H (w, f) Hin).
Qed.

(** X4.  For a word of code units below U+0100, lower-casing keeps the
    length, and [determineLevel] does not depend on the case of its
    argument.  (From U+0100 on the property fails: U+0130 becomes two code
    units in lower case, and the last rule reads the length of the
    argument as it was given.) *)
Theorem determineLevel_case_insensitive (verb : string) :
  String.length (toLowerCase verb) = String.length verb /\
  determineLevel (toLowerCase verb) = determineLevel verb.
Proof.
  split; [apply toLowerCase_length|].
  unfold determineLevel.
  rewrite toLowerCase_idem.
  rewrite toLowerCase_length.
  reflexivity.
Qed.

(** X5.  A verb that is, in lower case, a word of the frequency table gets the
    level of its score: beginner from 50 on, intermediate from 20 to 49 and
    advanced below 20. *)
Theorem determineLevel_frequency (verb : string) (f : Z) :
  In (toLowerCase verb, f) wordFrequency ->
  determineLevel verb = (if 50 <=? f then beginner
                         else if 20 <=? f then intermediate else advanced).
Proof.
  intro H. rewrite <- determineLevel_lower. apply table_word_level. exact H.
Qed.

Lemma determineLevel_frequency_witness :
  In (toLowerCase "Watch", 49) wordFrequency /\ determineLevel "Watch" = intermediate.
Proof.
  assert (H : In (toLowerCase "Watch", 49) wordFrequency).
  { vm_compute. repeat (first [left; reflexivity | right]). }
  split; [exact H|].
  exact (determineLevel_frequency "Watch" 49 H).
Defined.

(** X6.  On the words of the frequency table the level follows the score: a
    word with a higher score never gets a harder level. *)
Theorem determineLevel_monotone (w1 w2 : string) (f1 f2 : Z) :
  In (w1, f1) wordFrequency -> In (w2, f2) wordFrequency -> f2 <= f1 ->
  (rank (determineLevel w1) <= rank (determineLevel w2))%nat.
Proof.
  intros H1 H2 Hle.
  rewrite (table_word_level w1 f1 H1), (table_word_level w2 f2 H2).
  destruct (Z.leb_spec 50 f1), (Z.leb_spec 20 f1), (Z.leb_spec 50 f2),
    (Z.leb_spec 20 f2); simpl; lia.
Qed.

Lemma determineLevel_monotone_witness :
  In ("go", 100) wordFrequency /\ In ("cook", 1) wordFrequency /\ 1 <= 100 /\
  (rank (determineLevel "go") <= rank (determineLevel "cook"))%nat.
Proof.
  assert (H1 : In ("go", 100) wordFrequency) by (vm_compute; left; reflexivity).
  assert (H2 : In ("cook", 1) wordFrequency).
  { vm_compute. repeat (first [left; reflexivity | right]). }
  assert (H3 : 1 <= 100) by lia.
  split; [exact H1|]. split; [exact H2|]. split; [exact H3|].
  exact (determineLevel_monotone "go" "cook" 100 1 H1 H2 H3).
Defined.

(** X7.  The three word lists agree with the classifier: a word of the beginner
    list is classified beginner, and so for the two other lists. *)
Theorem levelMapping_agrees (w : string) :
  (In w (beginnerWords levelMapping) -> determineLevel w = beginner) /\
  (In w (intermediateWords levelMapping) -> determineLevel w = intermediate) /\
  (In w (advancedWords levelMapping) -> determineLevel w = advanced).
Proof.
  assert (H : forall (l : list string) (lv : level),
             forallb (fun k => Nat.eqb (rank (determineLevel k)) (rank lv)) l = true ->
             In w l -> determineLevel w = lv).
  { intros l lv Hall Hin. rewrite forallb_forall in Hall.
    apply rank_inj. apply Nat.eqb_eq. exact (Hall w Hin). }
  split; [|split]; apply H; vm_compute; reflexivity.
Qed.

Lemma levelMapping_agrees_witness :
  In "manage" (intermediateWords levelMapping) /\ determineLevel "manage" = intermediate.
Proof.
  assert (H : In "manage" (intermediateWords levelMapping)).
  { vm_compute. repeat (first [left; reflexivity | right]). }
  split; [exact H|].
  exact (proj1 (proj2 (levelMapping_agrees "manage")) H).
Defined.
End LevelFacts.

(** ** Quiz items and search history *)

Module QuizFacts.

(** X18.  Every draw gives a quiz whose accepted option is the base form, the
    past form or the participle, never the -ing form; for a verb conjugated
    by the suffix rules the options 1 and 2 hold the same string, and the
    test of the answer accepts only one of the two. *)
Theorem generateVariedQuiz_regular_options (verb : string) (randomIndex : nat) :
  own irregularVerbs (toLowerCase verb) = None ->
  inherited (toLowerCase verb) = false ->
  randomIndex < 6 ->
  exists quiz past,
    generateVariedQuiz verb (getVerbForms verb) randomIndex = Some quiz /\
    options quiz = [Str (toLowerCase verb); Str past; Str past;
                    Str (toLowerCase verb ++ "ing")] /\
    correctOption quiz < 3 /\
    (correctOption quiz = 1 -> isCorrectOption quiz 2 = false) /\
    (correctOption quiz = 2 -> isCorrectOption quiz 1 = false).
Proof.
  intros Hown Hinh Hi.
  destruct (ConjugationFacts.getVerbForms_regular verb Hown Hinh) as (past & Heq & _).
  rewrite Heq. unfold generateVariedQuiz.
  do 6 (destruct randomIndex as [|randomIndex];
        [ eexists; exists past; split; [reflexivity|]; split; [reflexivity|];
          split; [simpl; lia|]; split; intro H; first [discriminate H | reflexivity]
        | ]).
  lia.
Qed.

Lemma generateVariedQuiz_regular_options_witness :
  own irregularVerbs (toLowerCase "walk") = None /\
  inherited (toLowerCase "walk") = false /\
  4 < 6 /\
  exists quiz past,
    generateVariedQuiz "walk" (getVerbForms "walk") 4 = Some quiz /\
    options quiz = [Str (toLowerCase "walk"); Str past; Str past;
                    Str (toLowerCase "walk" ++ "ing")] /\
    correctOption quiz < 3 /\
    (correctOption quiz = 1 -> isCorrectOption quiz 2 = false) /\
    (correctOption quiz = 2 -> isCorrectOption quiz 1 = false).
Proof.
  assert (H1 : own irregularVerbs (toLowerCase "walk") = None) by (vm_compute; reflexivity).
  assert (H2 : inherited (toLowerCase "walk") = false) by (vm_compute; reflexivity).
  assert (H3 : 4 < 6) by lia.
  split; [exact H1|]. split; [exact H2|]. split; [exact H3|].
  exact (generateVariedQuiz_regular_options "walk" 4 H1 H2 H3).
Defined.
End QuizFacts.

Module SearchHistoryFacts.

Lemma In_firstn (A : Type) (n : nat) (l : list A) (x : A) :
  In x (firstn n l) -> In x l.
Proof.
  revert l. induction n as [|n IH]; intros [|y l]; simpl; try contradiction.
  intros [H | H]; [left; exact H | right; apply IH; exact H].
Qed.

(** X19.  [addToSearchHistory] leaves the history alone for an empty or blank
    term.  Otherwise the new history starts with the term as it was typed,
    has at most 20 entries, and the entries after the first are entries of
    the old history that differ, in lower case, from the trimmed lower-case
    term; none of those is lost while the old history has fewer than 20
    entries. *)
Theorem addToSearchHistory_front (item : option (list string)) (term : string) :
  (term = "" \/ trim term = "" -> addToSearchHistory item term = item) /\
  (term <> "" -> trim term <> "" ->
   exists rest,
     addToSearchHistory item term = Some (term :: rest) /\
     List.length (term :: rest) <= 20 /\
     (forall h, In h rest ->
        In h (getSearchHistory item) /\
        toLowerCase h <> trim (toLowerCase term)) /\
     (List.length (getSearchHistory item) < 20 ->
      forall h, In h (getSearchHistory item) ->
                toLowerCase h <> trim (toLowerCase term) -> In h rest)).
Proof.
  unfold addToSearchHistory. split.
  - intros [-> | H].
    + reflexivity.
    + rewrite H. rewrite orb_true_r. reflexivity.
  - intros H1 H2.
    apply String.eqb_neq in H1, H2. rewrite H1, H2. simpl orb. cbv iota.
    set (keep := fun h => negb (String.eqb (toLowerCase h) (trim (toLowerCase term)))).
    exists (firstn 19 (filter keep (getSearchHistory item))).
    split; [reflexivity|]. split.
    + change (S (List.length (firstn 19 (filter keep (getSearchHistory item)))) <= 20).
      pose proof (firstn_le_length 19 (filter keep (getSearchHistory item))). lia.
    + split.
      * intros h Hh. apply In_firstn in Hh. apply filter_In in Hh.
        destruct Hh as [Hin Hk]. split; [exact Hin|].
        unfold keep in Hk. apply negb_true_iff in Hk. apply String.eqb_neq. exact Hk.
      * intros Hlen h Hin Hne.
        rewrite firstn_all2.
        -- apply filter_In. split; [exact Hin|].
           unfold keep. apply negb_true_iff. apply String.eqb_neq. exact Hne.
        -- pose proof (filter_length_le keep (getSearchHistory item)). lia.
Qed.

Lemma addToSearchHistory_front_witness :
  "Go " <> "" /\ trim "Go " <> "" /\
  exists rest,
    addToSearchHistory (Some ["walk"; "GO"; "eat"]) "Go " = Some ("Go " :: rest) /\
    List.length ("Go " :: rest) <= 20 /\
    (forall h, In h rest ->
       In h (getSearchHistory (Some ["walk"; "GO"; "eat"])) /\
       toLowerCase h <> trim (toLowerCase "Go ")) /\
    (List.length (getSearchHistory (Some ["walk"; "GO"; "eat"])) < 20 ->
     forall h, In h (getSearchHistory (Some ["walk"; "GO"; "eat"])) ->
               toLowerCase h <> trim (toLowerCase "Go ") -> In h rest).
Proof.
  assert (H1 : "Go " <> "") by discriminate.
  assert (H2 : trim "Go " <> "") by (vm_compute; discriminate).
  split; [exact H1|]. split; [exact H2|].
  exact (proj2 (addToSearchHistory_front (Some ["walk"; "GO"; "eat"]) "Go ") H1 H2).
Defined.
End SearchHistoryFacts.

(** ** Loading the stored vocabulary *)

Module VocabularyFacts.
Local Open Scope Z_scope.
Import Vocabulary.


Lemma missingId_false (v : Vocab) :
  missingId v = false <-> Vocabulary.id v <> None /\ idOrZero v <> 0.
Proof.
  unfold missingId, idOrZero. destruct (Vocabulary.id v) as [n|].
  - rewrite Z.eqb_neq. split; [intro H; split; [discriminate | exact H] | tauto].
  - split; [discriminate | intros [H _]; contradiction].
Qed.


(** At 2^53 the counter does not move: the next identifier repeats. *)
Lemma increment_absorbed : increment 9007199254740992 = 9007199254740992.
Proof. vm_compute. reflexivity. Qed.








(** X21.  [getAllVocabulary] returns the built-in records first and adds the
    stored records whose identifier no built-in record has; without a
    stored array it returns the built-in records.  No added record repeats
    an identifier of a built-in record. *)
Theorem getAllVocabulary_merges (vocabularyData parsed : list Vocab) :
  getAllVocabulary vocabularyData Absent = vocabularyData /\
  getAllVocabulary vocabularyData NotAnArray = vocabularyData /\
  exists newItems,
    getAllVocabulary vocabularyData (Saved parsed)
    = (vocabularyData ++ newItems)%list /\
    (forall v, In v newItems <-> In v parsed /\ hasId vocabularyData v = false) /\
    (forall v w, In v newItems -> In w vocabularyData ->
                 Vocabulary.id v <> Vocabulary.id w).
Proof.
  split; [reflexivity|]. split; [reflexivity|].
  exists (filter (fun v => negb (hasId vocabularyData v)) parsed).
  split; [reflexivity|]. split.
  - intro v. rewrite filter_In, negb_true_iff. tauto.
  - intros v w Hv Hw Heq. apply filter_In in Hv. destruct Hv as [_ Hv].
    apply negb_true_iff in Hv.
    assert (Hhas : hasId vocabularyData v = true).
    { unfold hasId. apply existsb_exists. exists w. split; [exact Hw|].
      rewrite <- Heq. destruct (Vocabulary.id v); [apply Z.eqb_refl | reflexivity]. }
    rewrite Hhas in Hv. discriminate Hv.
Qed.
End VocabularyFacts.

(** ** An ease outside the interval *)

Module ClampFacts.
Local Open Scope Z_scope.
Import NumberFacts OrderFacts IntegerFacts.

Lemma finite_ltb_false (m1 m2 : positive) (e1 e2 : Z) :
  e2 < e1 \/ (e1 = e2 /\ Zpos m2 <= Zpos m1) ->
  ltb (S754_finite false m1 e1) (S754_finite false m2 e2) = false.
Proof.
  intro H. unfold ltb, SFltb, SFcompare.
  destruct (Z.compare_spec e1 e2) as [E|E|E]; try reflexivity.
  - pose proof (Z.compare_spec (Zpos m1) (Zpos m2)) as Hc.
    unfold Z.compare, Pos.compare in Hc.
    destruct Hc; try reflexivity. lia.
  - lia.
Qed.

Lemma finite_ltb_inv (m1 m2 : positive) (e1 e2 : Z) :
  ltb (S754_finite false m1 e1) (S754_finite false m2 e2) = true ->
  e1 < e2 \/ (e1 = e2 /\ Zpos m1 < Zpos m2).
Proof.
  unfold ltb, SFltb, SFcompare. intro Hlt.
  destruct (Z.compare_spec e1 e2) as [E|E|E]; try discriminate Hlt.
  - right. split; [exact E|].
    pose proof (Z.compare_spec (Zpos m1) (Zpos m2)) as Hc.
    unfold Z.compare, Pos.compare in Hc. revert Hlt.
    destruct Hc as [Hc|Hc|Hc]; intro Hlt; try discriminate Hlt. exact Hc.
  - left. exact E.
Qed.

Lemma valid_canonical (s : bool) (m : positive) (e : Z) :
  valid_binary 53 1024 (S754_finite s m e) = true ->
  -1074 <= e <= 971 /\ Zpos m < 9007199254740992 /\
  (-1074 < e -> 4503599627370496 <= Zpos m).
Proof.
  intro Hv. simpl in Hv. unfold bounded, canonical_mantissa in Hv.
  apply andb_prop in Hv. destruct Hv as [Hc He].
  apply Z.eqb_eq in Hc. apply Z.leb_le in He. unfold fexp, emin in Hc.
  change (1024 - 53) with 971 in He.
  pose proof (digits2_pos_bounds m) as [Blo Bhi].
  assert (Hd : Zpos (digits2_pos m) <= 53) by lia.
  assert (Hp : 2 ^ Zpos (digits2_pos m) <= 2 ^ 53) by (apply Z.pow_le_mono_r; lia).
  rewrite pow2_53 in Hp.
  split; [lia|]. split; [lia|].
  intro Hn. assert (Hd53 : Zpos (digits2_pos m) = 53) by lia.
  rewrite Hd53 in Blo. change (2 ^ (53 - 1)) with 4503599627370496 in Blo. exact Blo.
Qed.

(** [x + 0.1] is not below 2.5 when [x] is above 2.5. *)
Lemma add_tenth_above (x : number) :
  wellFormed x -> ltb (decimal 25 10) x = true ->
  ltb (add x (decimal 1 10)) (decimal 25 10) = false.
Proof.
  intros Hv Hlt. rewrite decimal_25_10 in *. rewrite decimal_1_10.
  destruct x as [s|s| |s m e].
  - discriminate Hlt.
  - destruct s; [discriminate Hlt | reflexivity].
  - discriminate Hlt.
  - destruct s; [discriminate Hlt|].
    apply finite_ltb_inv in Hlt.
    destruct (valid_canonical _ _ _ Hv) as (He & Hm53 & Hm52).
    specialize (Hm52 ltac:(lia)). clear Hv.
    unfold add, SFadd, prec, emax, cond_Zopp.
    replace (Z.min e (-56)) with (-56) by lia.
    rewrite !shl_align_fst by lia.
    change (2 ^ (-56 - -56)) with 1.
    replace (e - -56) with (e + 56) by lia.
    set (j := e + 56) in *.
    assert (HP : 32 <= 2 ^ j).
    { change 32 with (2 ^ 5). apply Z.pow_le_mono_r; lia. }
    set (P := 2 ^ j) in *.
    assert (Hlo : 4503599627370496 * P <= Zpos m * P)
      by (apply Z.mul_le_mono_nonneg_r; lia).
    assert (Hhi : Zpos m * P < 9007199254740992 * P)
      by (apply Z.mul_lt_mono_pos_r; lia).
    set (S := Zpos m * P + 7205759403792794 * 1) in *.
    assert (Hpow52 : 2 ^ (j + 52) = P * 4503599627370496)
      by (unfold P; rewrite Z.pow_add_r by lia; reflexivity).
    assert (Hpow53 : 2 ^ (j + 53) = P * 9007199254740992)
      by (unfold P; rewrite Z.pow_add_r by lia; reflexivity).
    assert (Hpow54 : 2 ^ (j + 1 + 53) = P * 18014398509481984).
    { unfold P. replace (j + 1 + 53) with (j + 54) by lia.
      rewrite Z.pow_add_r by lia. reflexivity. }
    assert (Hpow53' : 2 ^ (j + 1 + 52) = P * 9007199254740992).
    { unfold P. replace (j + 1 + 52) with (j + 53) by lia.
      rewrite Z.pow_add_r by lia. reflexivity. }
    assert (Hdiv : Zpos m <= S / P)
      by (apply Z.div_le_lower_bound; [lia | unfold S; lia]).
    destruct (Z_lt_le_dec S (P * 9007199254740992)) as [Hs | Hs].
    + destruct (binary_normalize_normal S (-56) j) as (m' & e' & Heq & Hb & Hcase & _);
        [rewrite Hpow52, Hpow53; unfold S; lia | lia | lia |].
      rewrite Heq. rewrite pow2_52, pow2_53 in Hb. fold P in Hcase.
      unfold rounded. destruct (e' <=? 971); [|reflexivity].
      apply finite_ltb_false.
      destruct Hcase as [[-> Hc] | [-> _]]; [|lia].
      destruct Hlt as [Hlt | [Hlt Hmm]]; [left; lia|].
      right. split; [lia|]. lia.
    + destruct (binary_normalize_normal S (-56) (j + 1))
        as (m' & e' & Heq & Hb & Hcase & _);
        [rewrite Hpow53', Hpow54; unfold S; lia | lia | lia |].
      rewrite Heq. unfold rounded. destruct (e' <=? 971); [|reflexivity].
      apply finite_ltb_false. left.
      destruct Hcase as [[-> _] | [-> _]]; lia.
Qed.
Lemma binary_normalize_negative (m e : Z) :
  m < 0 ->
  binary_normalize 53 1024 m e false = S754_zero true \/
  (exists m' e', binary_normalize 53 1024 m e false = S754_finite true m' e') \/
  binary_normalize 53 1024 m e false = S754_infinity true.
Proof.
  intro Hm. destruct m as [|p|p]; [lia | lia |].
  simpl. unfold binary_round.
  destruct (shl_align p e (fexp 53 1024 (Zpos (digits2_pos p) + e))) as [mz ez].
  apply binary_round_aux_sign. lia.
Qed.

Lemma not_above_negative (x : number) :
  x = S754_zero true \/ (exists m e, x = S754_finite true m e) \/
  x = S754_infinity true ->
  ltb (S754_finite false 5854679515581645 (-52)) x = false.
Proof. intros [-> | [(m & e & ->) | ->]]; reflexivity. Qed.

(** [x - 0.2] is not above 1.3 when [x] is below 1.3. *)
Lemma sub_fifth_below (x : number) :
  wellFormed x -> ltb x (decimal 13 10) = true ->
  ltb (decimal 13 10) (sub x (decimal 2 10)) = false.
Proof.
  intros Hv Hlt. rewrite decimal_13_10 in *. rewrite decimal_2_10.
  destruct x as [s|s| |s m e].
  - reflexivity.
  - destruct s; [reflexivity | discriminate Hlt].
  - discriminate Hlt.
  - destruct (valid_canonical _ _ _ Hv) as (He & Hm53 & Hm52). clear Hv.
    unfold sub, SFsub, prec, emax.
    destruct s.
    + (* a negative number *)
      apply not_above_negative. apply binary_normalize_negative.
      unfold cond_Zopp. lia.
    + apply finite_ltb_inv in Hlt. unfold cond_Zopp.
      destruct (Z_lt_le_dec e (-55)) as [Hsmall | Hbig].
      * (* below 0.125: the difference is negative *)
        replace (Z.min e (-55)) with e by lia.
        rewrite !shl_align_fst by lia.
        replace (e - e) with 0 by lia. change (2 ^ 0) with 1.
        assert (HP : 2 <= 2 ^ (-55 - e)).
        { change 2 with (2 ^ 1) at 1. apply Z.pow_le_mono_r; lia. }
        apply not_above_negative. apply binary_normalize_negative.
        set (P := 2 ^ (-55 - e)) in *.
        assert (7205759403792794 * 2 <= 7205759403792794 * P)
          by (apply Z.mul_le_mono_nonneg_l; lia).
        lia.
      * replace (Z.min e (-55)) with (-55) by lia.
        rewrite !shl_align_fst by lia.
        change (2 ^ (-55 - -55)) with 1.
        replace (e - -55) with (e + 55) by lia.
        set (j := e + 55) in *.
        assert (HP : 1 <= 2 ^ j <= 8).
        { split.
          - change 1 with (2 ^ 0). apply Z.pow_le_mono_r; lia.
          - change 8 with (2 ^ 3). apply Z.pow_le_mono_r; lia. }
        assert (HPe : j = 3 -> 2 ^ j = 8) by (intros ->; reflexivity).
        set (P := 2 ^ j) in *.
        assert (Hhi : Zpos m * P < 9007199254740992 * P)
          by (apply Z.mul_lt_mono_pos_r; lia).
        set (S := Zpos m * P - 7205759403792794 * 1).
        destruct (Z.lt_trichotomy S 0) as [Hneg | [Hzero | Hpos]].
        -- apply not_above_negative. apply binary_normalize_negative. exact Hneg.
        -- rewrite Hzero. reflexivity.
        -- destruct S as [|pS|pS] eqn:ES; [lia| |lia].
           pose proof (digits2_pos_bounds pS) as [Dlo Dhi].
           destruct (Z_lt_le_dec (Zpos (digits2_pos pS)) 53) as [Hfew | Hmany].
           ++ (* fewer than 53 bits: the difference is exact and small *)
              destruct (canonical_integer pS) as (q & Hq & Hdq & Hd).
              { assert (2 ^ Zpos (digits2_pos pS) <= 2 ^ 53)
                  by (apply Z.pow_le_mono_r; lia).
                rewrite pow2_53 in *. lia. }
              unfold binary_normalize.
              rewrite (binary_round_exact false pS q (-55)
                                          (Zpos (digits2_pos pS) - 108));
                [| exact Hdq | lia |].
              ** apply finite_ltb_false. left. lia.
              ** left. split; [lia|]. rewrite Hq. f_equal. f_equal. lia.
           ++ set (k := Zpos (digits2_pos pS) - 53) in *.
              assert (Hk3 : k <= j).
              { destruct (Z_le_gt_dec k j) as [|Hgt]; [assumption|]. exfalso.
                assert (2 ^ (j + 53) <= 2 ^ (Zpos (digits2_pos pS) - 1))
                  by (apply Z.pow_le_mono_r; unfold k in Hgt; lia).
                assert (2 ^ (j + 53) = P * 9007199254740992)
                  by (unfold P; rewrite Z.pow_add_r by lia; reflexivity).
                lia. }
              destruct (binary_normalize_normal (Zpos pS) (-55) k)
                as (m' & e' & Heq & Hb & Hcase & _).
              { replace (k + 52) with (Zpos (digits2_pos pS) - 1) by (unfold k; lia).
                replace (k + 53) with (Zpos (digits2_pos pS)) by (unfold k; lia).
                split; assumption. }
              { unfold k. lia. }
              { unfold k. lia. }
              rewrite Heq. rewrite pow2_52, pow2_53 in Hb.
              rewrite rounded_finite by (destruct Hcase as [[-> _] | [-> _]]; lia).
              apply finite_ltb_false.
              destruct (Z.eq_dec k 3) as [Hk | Hk].
              ** (* the exponent of 1.3: compare the mantissas *)
                 assert (Hj : j = 3) by lia. specialize (HPe Hj).
                 assert (He52 : e = -52) by (unfold j in Hj; lia).
                 destruct Hlt as [Hlt | [_ Hlt]]; [lia|].
                 rewrite Hk in Hcase. change (2 ^ 3) with 8 in Hcase.
                 assert (Hq : Zpos pS / 8 < 5854679515581644)
                   by (apply Z.div_lt_upper_bound; lia).
                 destruct Hcase as [[-> Hc] | [-> [_ Hc]]].
                 --- right. split; [reflexivity | lia].
                 --- rewrite pow2_53 in Hc. lia.
              ** destruct Hcase as [[-> _] | [-> [Hc _]]].
                 --- left. lia.
                 --- rewrite pow2_52 in Hc.
                     destruct (Z.eq_dec k 2) as [Hk2 | Hk2]; [|left; lia].
                     right. split; [lia|]. lia.
Qed.
(** X22.  A stored ease above 2.5 is set to exactly 2.5 by a correct answer, and
    a stored ease below 1.3 is set to exactly 1.3 by a wrong answer. *)
Theorem ease_reset_on_clamped_side
        (p : Progress) (nowReview nowSchedule : number) :
  wellFormed (ToNumber (ease p)) ->
  (ltb (decimal 25 10) (ToNumber (ease p)) = true ->
   ease (recordOutcome p true nowReview nowSchedule) = Num (decimal 25 10)) /\
  (ltb (ToNumber (ease p)) (decimal 13 10) = true ->
   ease (recordOutcome p false nowReview nowSchedule) = Num (decimal 13 10)).
Proof.
  intro Hv. split; intro Hout; simpl ease; f_equal.
  - pose proof (add_tenth_above (ToNumber (ease p)) Hv Hout) as Hnot.
    assert (Hnan : isNaN (add (ToNumber (ease p)) (decimal 1 10)) = false).
    { apply SchedulerFacts.add_tenth_not_nan.
      destruct (ToNumber (ease p)); try reflexivity.
      rewrite decimal_25_10 in Hout. discriminate Hout. }
    unfold min. rewrite Hnan, Hnot. rewrite decimal_25_10. reflexivity.
  - pose proof (sub_fifth_below (ToNumber (ease p)) Hv Hout) as Hnot.
    assert (Hnan : isNaN (sub (ToNumber (ease p)) (decimal 2 10)) = false).
    { apply SchedulerFacts.sub_fifth_not_nan.
      destruct (ToNumber (ease p)); try reflexivity.
      rewrite decimal_13_10 in Hout. discriminate Hout. }
    unfold max. rewrite Hnan, Hnot. rewrite decimal_13_10. reflexivity.
Qed.

Lemma ease_reset_on_clamped_side_witness :
  wellFormed (ofZ 7) /\ ltb (decimal 25 10) (ofZ 7) = true /\
  ease (recordOutcome {| correct := Num (ofZ 2); incorrect := Num (ofZ 0);
                         lastReview := Null; nextReview := Num (ofZ 0);
                         ease := Num (ofZ 7) |}
                      true (ofZ 0) (ofZ 0)) = Num (decimal 25 10).
Proof.
  assert (H1 : wellFormed (ofZ 7)) by (vm_compute; reflexivity).
  assert (H2 : ltb (decimal 25 10) (ofZ 7) = true) by (vm_compute; reflexivity).
  split; [exact H1|]. split; [exact H2|].
  exact (proj1 (ease_reset_on_clamped_side
                  {| correct := Num (ofZ 2); incorrect := Num (ofZ 0);
                     lastReview := Null; nextReview := Num (ofZ 0);
                     ease := Num (ofZ 7) |} (ofZ 0) (ofZ 0) H1) H2).
Defined.
End ClampFacts.

(** ** Import into the word bank *)

Module BankImportFacts.
Import BankImport WordBankFacts.
Local Open Scope Z_scope.

Lemma importOne_grows (vocabularyData : list BankVocab)
      (state : storage * list vocabId) (imported : option string) :
  exists added,
    getWordBank (fst (importOne vocabularyData state imported))
    = (getWordBank (fst state) ++ added)%list /\
    snd (importOne vocabularyData state imported) = (snd state ++ added)%list /\
    getProgress (fst (importOne vocabularyData state imported))
    = getProgress (fst state) /\
    NoDup added /\
    (forall i, In i added ->
       ~ In i (getWordBank (fst state)) /\
       exists v, In v vocabularyData /\ BankImport.id v = i).
Proof.
  unfold importOne.
  destruct (find (matchesImported imported) vocabularyData) as [vocab|] eqn:Ef.
  - unfold isInWordBank.
    destruct (Scheduler.includes (getWordBank (fst state)) (BankImport.id vocab)) eqn:E;
      simpl negb; cbv iota.
    + exists []. rewrite !app_nil_r.
      split; [reflexivity|]. split; [reflexivity|]. split; [reflexivity|].
      split; [constructor | intros i []].
    + exists [BankImport.id vocab].
      assert (Hadd : addToWordBank (fst state) (BankImport.id vocab)
                     = (saveWordBank (fst state)
                          (getWordBank (fst state) ++ [BankImport.id vocab])%list, true))
        by (unfold addToWordBank; rewrite E; reflexivity).
      rewrite Hadd. simpl fst. simpl snd.
      split; [reflexivity|]. split; [reflexivity|]. split; [reflexivity|].
      split; [constructor; [intros [] | constructor]|].
      intros i [<- | []]. split.
      * apply includes_not_In. exact E.
      * exists vocab. split; [|reflexivity].
        apply find_some in Ef. exact (proj1 Ef).
  - exists []. rewrite !app_nil_r.
    split; [reflexivity|]. split; [reflexivity|]. split; [reflexivity|].
    split; [constructor | intros i []].
Qed.

Lemma importWordBank_grows_from (vocabularyData : list BankVocab)
      (data : list (option string)) (state : storage * list vocabId) :
  exists added,
    getWordBank (fst (fold_left (importOne vocabularyData) data state))
    = (getWordBank (fst state) ++ added)%list /\
    snd (fold_left (importOne vocabularyData) data state) = (snd state ++ added)%list /\
    getProgress (fst (fold_left (importOne vocabularyData) data state))
    = getProgress (fst state) /\
    NoDup added /\
    (forall i, In i added ->
       ~ In i (getWordBank (fst state)) /\
       exists v, In v vocabularyData /\ BankImport.id v = i).
Proof.
  revert state. induction data as [|imported data IH]; intro state.
  - exists []. simpl fold_left. rewrite !app_nil_r.
    split; [reflexivity|]. split; [reflexivity|]. split; [reflexivity|].
    split; [constructor | intros i []].
  - simpl fold_left.
    destruct (importOne_grows vocabularyData state imported)
      as (a1 & Hb1 & Hs1 & Hp1 & Hn1 & Hi1).
    destruct (IH (importOne vocabularyData state imported))
      as (a2 & Hb2 & Hs2 & Hp2 & Hn2 & Hi2).
    exists (a1 ++ a2)%list.
    rewrite Hb2, Hb1, Hs2, Hs1, Hp2, Hp1, <- !app_assoc.
    split; [reflexivity|]. split; [reflexivity|]. split; [reflexivity|].
    split.
    + apply NoDup_app; [exact Hn1 | exact Hn2 |].
      intros i Hi Hi'. destruct (Hi2 i Hi') as [Hout _].
      apply Hout. rewrite Hb1. apply in_or_app. right. exact Hi.
    + intros i Hi. apply in_app_or in Hi. destruct Hi as [Hi | Hi].
      * exact (Hi1 i Hi).
      * destruct (Hi2 i Hi) as [Hout Hv]. split; [|exact Hv].
        intro Hin. apply Hout. rewrite Hb1. apply in_or_app. left. exact Hin.
Qed.

(** X23.  An import only adds to the word bank: the old word bank is kept
    in front, [importedIds] is what was added behind it, each added
    identifier is new, is added once and belongs to a vocabulary record,
    the progress records are untouched, and a word bank without repetition
    stays without repetition. *)
Theorem importWordBank_only_adds (vocabularyData : list BankVocab)
        (st : storage) (data : list (option string)) :
  getWordBank (fst (importWordBank vocabularyData st data))
  = (getWordBank st ++ snd (importWordBank vocabularyData st data))%list /\
  getProgress (fst (importWordBank vocabularyData st data)) = getProgress st /\
  NoDup (snd (importWordBank vocabularyData st data)) /\
  (forall i, In i (snd (importWordBank vocabularyData st data)) ->
     ~ In i (getWordBank st) /\
     exists v, In v vocabularyData /\ BankImport.id v = i) /\
  (NoDup (getWordBank st) ->
   NoDup (getWordBank (fst (importWordBank vocabularyData st data)))).
Proof.
  unfold importWordBank.
  destruct (importWordBank_grows_from vocabularyData data (st, []))
    as (added & Hb & Hs & Hp & Hn & Hi).
  simpl fst in *. simpl snd in *. rewrite Hb, Hs, Hp.
  split; [reflexivity|]. split; [reflexivity|]. split; [exact Hn|].
  split; [exact Hi|].
  intro Hnd. apply NoDup_app; [exact Hnd | exact Hn |].
  intros i Hin Hadded. exact (proj1 (Hi i Hadded) Hin).
Qed.

Lemma importWordBank_only_adds_witness :
  NoDup (getWordBank {| wordBankItem := Some [3; 9]; vocabProgressItem := None |}) /\
  NoDup (getWordBank
           (fst (importWordBank
                   [mkBankVocab 3 "go"; mkBankVocab 5 "Forgo"; mkBankVocab 7 "walk"]
                   {| wordBankItem := Some [3; 9]; vocabProgressItem := None |}
                   [Some "FORGO"; None; Some "go"; Some "alk"; Some ""]))).
Proof.
  assert (H : NoDup (getWordBank
                       {| wordBankItem := Some [3; 9]; vocabProgressItem := None |})).
  { simpl. constructor.
    - intros [H | []]. discriminate H.
    - constructor; [intros [] | constructor]. }
  split; [exact H|].
  exact (proj2 (proj2 (proj2 (proj2
           (importWordBank_only_adds
              [mkBankVocab 3 "go"; mkBankVocab 5 "Forgo"; mkBankVocab 7 "walk"]
              {| wordBankItem := Some [3; 9]; vocabProgressItem := None |}
              [Some "FORGO"; None; Some "go"; Some "alk"; Some ""])))) H).
Defined.
End BankImportFacts.
